(** * SSAFY-Don-t-Care backend: token manager, OTP manager and stock cache

    A shallow embedding of
      - backend/dontcare/stocks/utils.py         (module [Utils])
      - backend/dontcare/stocks/token_manager.py (module [KIS])
      - backend/dontcare/accounts/redis_otp.py   (module [OTP])
    over a model of the Django cache on Redis (module [Redis]).
    Python values are a small inductive type, exceptions are data, and every
    function that touches module globals, the clock, Redis or the network is a
    state transformer returning [Ok v] or [Err e].  What the code takes from
    libraries (ISO 8601 text, JSON, PBKDF2, the texts of the interpreter's
    exceptions, the answers of the network and of yfinance, random numbers)
    is a parameter or a field of the state, so the
    statements hold for every behaviour of those.  Calls are sequential:
    threads of one process are not modelled, other processes act on Redis
    while this one sleeps.

    Conventions.  A Python [str] is a Rocq [string] holding its UTF-8 bytes.
    A Python [float] is the rational it denotes ([Q]): arithmetic on floats is
    exact here, the text of a float is made as Python makes it, and NaN and
    the infinities are outside the model.  Instants are microseconds since
    0001-01-01T00:00:00, the resolution of [datetime]. *)

From Stdlib Require Import ZArith QArith Qround Qabs Lia List Ascii String.
From stdpp Require Import base option gmap strings list.
Import ListNotations.
Local Open Scope Z_scope.
Set Warnings "-register-all".

(** ** Python values, truthiness, exceptions *)

Inductive pyval : Type :=
| VNone
| VBool (b : bool)
| VInt (n : Z)
| VFloat (x : Q)
| VStr (s : string)
| VList (l : list pyval)
| VDict (d : list (string * pyval)).

(** [bool(v)]: what [if v:] and [not v] test. *)
Definition truthy (v : pyval) : bool :=
  match v with
  | VNone => false
  | VBool b => b
  | VInt n => negb (n =? 0)
  | VFloat x => negb (Qeq_bool x 0)
  | VStr s => negb (String.eqb s "")
  | VList l => match l with [] => false | _ => true end
  | VDict d => match d with [] => false | _ => true end
  end.

(** A dict literal keeps insertion order; a later binding of a key replaces
    the earlier one in place. *)
Definition pydict := list (string * pyval).

Fixpoint dict_get (d : pydict) (k : string) : option pyval :=
  match d with
  | [] => None
  | (k', v) :: r => if String.eqb k' k then Some v else dict_get r k
  end.

Fixpoint dict_set (d : pydict) (k : string) (v : pyval) : pydict :=
  match d with
  | [] => [(k, v)]
  | (k', v') :: r =>
      if String.eqb k' k then (k', v) :: r else (k', v') :: dict_set r k v
  end.

Definition dict_has (d : pydict) (k : string) : bool :=
  match dict_get d k with Some _ => true | None => false end.

(** [d.get(k, default)] *)
Definition dict_get_default (d : pydict) (k : string) (dflt : pyval) : pyval :=
  match dict_get d k with Some v => v | None => dflt end.

(** The exceptions the three modules raise or catch.  [kis_message] lists the
    texts token_manager.py raises [KISTokenError] with. *)
Inductive exn : Type :=
| ValueError
| TypeError
| AttributeError
| KeyError
| IndexError
| OverflowError
| CacheError                        (* the Redis client failed *)
| ReqTimeout                        (* requests.exceptions.Timeout *)
| ReqConnectionError                (* requests.exceptions.ConnectionError *)
| ReqHTTPError (status : Z)         (* requests.HTTPError from raise_for_status *)
| ReqOther (msg : string)           (* any other requests.RequestException *)
| KISTokenError (m : kis_message)
| PlainException (msg : string)     (* raise Exception(msg) *)
with kis_message : Type :=
| MsgTimeout                        (* "토큰 요청 시간 초과" *)
| MsgConnection                     (* "토큰 요청 연결 오류" *)
| MsgForbidden                      (* "토큰 요청 권한 오류 - API 키 확인 필요" *)
| MsgTooMany                        (* "토큰 요청 횟수 초과" *)
| MsgHTTP (e : exn)                 (* f"토큰 요청 HTTP 오류: {e}" *)
| MsgRequest (e : exn)              (* f"토큰 요청 실패: {str(e)}" *)
| MsgUnexpected (e : exn)           (* f"예상치 못한 토큰 요청 오류: {str(e)}" *)
| MsgNoToken.                       (* "No access token received from KIS API" *)

Inductive result (A : Type) : Type :=
| Ok (a : A)
| Err (e : exn).
Arguments Ok {A} a.
Arguments Err {A} e.

Definition is_ok {A} (r : result A) : bool :=
  match r with Ok _ => true | Err _ => false end.

(** Sequencing for code without effects: the first exception ends it. *)
Definition result_bind {A B} (r : result A) (k : A -> result B) : result B :=
  match r with
  | Ok a => k a
  | Err e => Err e
  end.

(** ** Effectful code: a state-and-exception monad *)

Definition M (S A : Type) : Type := S -> result A * S.

Definition ret {S A} (a : A) : M S A := fun s => (Ok a, s).
Definition raise {S A} (e : exn) : M S A := fun s => (Err e, s).
Definition bind {S A B} (m : M S A) (k : A -> M S B) : M S B :=
  fun s => match m s with
           | (Ok a, s') => k a s'
           | (Err e, s') => (Err e, s')
           end.
Definition lift {S A} (r : result A) : M S A := fun s => (r, s).

(** [try: m  except <those that [catches] accepts> as e: h e] *)
Definition try_except {S A} (m : M S A) (catches : exn -> bool) (h : exn -> M S A)
  : M S A :=
  fun s => match m s with
           | (Ok a, s') => (Ok a, s')
           | (Err e, s') => if catches e then h e s' else (Err e, s')
           end.

(** [except Exception]: every exception of the model derives from it. *)
Definition any_exception (e : exn) : bool := true.

Definition value_or_type_error (e : exn) : bool :=
  match e with ValueError | TypeError => true | _ => false end.

Declare Scope py_scope.
Delimit Scope py_scope with py.
Notation "x <- m ;; k" := (bind m (fun x => k))
  (at level 100, m at next level, k at level 200, right associativity) : py_scope.
Notation "m ;;; k" := (bind m (fun _ => k))
  (at level 100, k at level 200, right associativity) : py_scope.
Local Open Scope py_scope.

(** ** datetime and timedelta *)

Module Time.

Definition usec_per_sec : Z := 1000000.
Definition usec_per_day : Z := 86400 * usec_per_sec.

(** [timedelta.max.days] *)
Definition max_delta_days : Z := 999999999.

(** A timedelta is its signed length in microseconds; the constructor
    raises [OverflowError] outside [timedelta.min .. timedelta.max]. *)
Definition timedelta_of_usec (us : Z) : result Z :=
  if (- max_delta_days * usec_per_day <=? us)
     && (us <? (max_delta_days + 1) * usec_per_day)
  then Ok us else Err OverflowError.

Definition timedelta_minutes (m : Z) : result Z :=
  timedelta_of_usec (m * 60 * usec_per_sec).

(** Round half to even, as [timedelta] does on fractional microseconds. *)
Definition round_half_even (x : Q) : Z :=
  let f := Qfloor x in
  let r := (x - inject_Z f)%Q in
  match (r ?= 1 # 2)%Q with
  | Lt => f
  | Gt => f + 1
  | Eq => if Z.even f then f else f + 1
  end.

Definition timedelta_seconds (x : Q) : result Z :=
  timedelta_of_usec (round_half_even (x * inject_Z usec_per_sec)%Q).

(** [datetime.max] is 9999-12-31T23:59:59.999999, day ordinal 3652059. *)
Definition max_ordinal : Z := 3652059.

Definition datetime_in_range (t : Z) : bool :=
  (0 <=? t) && (t <? max_ordinal * usec_per_day).

(** [dt + delta] *)
Definition datetime_add (t delta : Z) : result Z :=
  if datetime_in_range (t + delta) then Ok (t + delta) else Err OverflowError.

(** [td.seconds]: the seconds field of the normalised (days, seconds,
    microseconds) triple, always in 0..86399. *)
Definition td_seconds (us : Z) : Z := (us `mod` usec_per_day) `div` usec_per_sec.

End Time.

(** [int(x)] for a float: truncation towards zero. *)
Definition int_of_float (x : Q) : Z :=
  if Qle_bool 0 x then Qfloor x else Qceiling x.

(** Numbers as the arithmetic operators see them: [bool] is an [int]. *)
Definition as_number (v : pyval) : result Q :=
  match v with
  | VInt n => Ok (inject_Z n)
  | VBool b => Ok (inject_Z (if b then 1 else 0))
  | VFloat x => Ok x
  | _ => Err TypeError
  end.

(** [str(e)].  An exception made from a text of the program is printed as
    that text.  The text of every other exception is the interpreter's or a
    library's ([interpreter_text]), a parameter of the functions that print
    exceptions: what they do is stated for every such text. *)
Definition exn_message (interpreter_text : exn -> string) (e : exn) : string :=
  match e with
  | PlainException msg => msg
  | ReqOther msg => msg
  | _ => interpreter_text e
  end.

(** ** Decimal text *)

Definition digit_char (d : nat) : ascii :=
  ascii_of_nat (48 + d `mod` 10)%nat.

(** The [width] low decimal digits of [n], most significant first. *)
Fixpoint digits_fixed (width : nat) (n : N) : string :=
  match width with
  | O => ""
  | S w =>
      String.append (digits_fixed w (n / 10)%N)
                    (String (digit_char (N.to_nat (n mod 10)%N)) "")
  end.

(** How many decimal digits [n] has (at least one). *)
Fixpoint digits_needed (fuel : nat) (n : N) : nat :=
  match fuel with
  | O => 1%nat
  | S f => if (n <? 10)%N then 1%nat else S (digits_needed f (n / 10)%N)
  end.

Definition dec_of_N (n : N) : string :=
  digits_fixed (digits_needed (N.to_nat (N.log2 n)) n) n.

(** [f"{n:06d}"] for a non-negative [n]: at least six digits, zero padded. *)
Definition format_06d (n : N) : string :=
  digits_fixed (Nat.max 6 (digits_needed (N.to_nat (N.log2 n)) n)) n.

Definition is_decimal_digit (c : ascii) : bool :=
  let n := nat_of_ascii c in (48 <=? n)%nat && (n <=? 57)%nat.

(** The number a text of decimal digits denotes, [int(s)]: the digits are
    read from the left, each one counting ten times the next. *)
Definition digit_value (c : ascii) : N := (N_of_ascii c - 48)%N.

Fixpoint decimal_value_from (acc : N) (s : string) : N :=
  match s with
  | EmptyString => acc
  | String c r => decimal_value_from (acc * 10 + digit_value c) r
  end.

Definition decimal_value (s : string) : N := decimal_value_from 0 s.

Fixpoint all_chars (p : ascii -> bool) (s : string) : bool :=
  match s with
  | EmptyString => true
  | String c r => p c && all_chars p r
  end.

(** [2 ** e] for an integer [e] of either sign. *)
Definition pow2 (e : Z) : Q :=
  if 0 <=? e then inject_Z (2 ^ e) else 1 # Z.to_pos (2 ^ (- e)).

(** The binary exponent of a positive rational: the [e] with
    2^e <= x < 2^(e+1). *)
Definition binary_exponent (x : Q) : Z :=
  let e := Z.log2 (Qnum x) - Z.log2 (Zpos (Qden x)) in
  if Qle_bool (pow2 e) x then e else e - 1.

(** The float (binary64, 53 bits, ties to even, subnormals from 2^-1022
    down) nearest to a rational within the range of the finite floats: what
    a literal or a result denotes.  A rational that is a float is its own
    nearest float. *)
Definition nearest_double (x : Q) : Q :=
  if Qeq_bool x 0 then 0%Q
  else
    let a := Qabs x in
    let e := Z.max (binary_exponent a) (-1022) in
    let ulp := pow2 (e - 52) in
    let m := Time.round_half_even (a / ulp) in
    let r := (inject_Z m * ulp)%Q in
    if Qle_bool 0 x then r else (- r)%Q.

(** [f"{x:.2f}"]: the exact value of the float rounded half-even to
    hundredths; a negative float keeps its sign even when it rounds to
    zero ("-0.00"). *)
Definition format_2f (x : Q) : string :=
  let h := Time.round_half_even (nearest_double x * 100)%Q in
  let a := Z.to_N (Z.abs h) in
  String.append (if Qle_bool 0 x then "" else "-")
    (String.append (dec_of_N (a / 100)%N)
       (String.append "." (digits_fixed 2 (a mod 100)%N))).

(** ** Substring search and lower-casing *)

Fixpoint is_prefix (p s : string) : bool :=
  match p, s with
  | EmptyString, _ => true
  | String a p', String b s' => Ascii.eqb a b && is_prefix p' s'
  | String _ _, EmptyString => false
  end.

(** [p in s] *)
Fixpoint contains (p s : string) : bool :=
  is_prefix p s ||
  match s with
  | EmptyString => false
  | String _ s' => contains p s'
  end.

Definition lower_char (c : ascii) : ascii :=
  let n := nat_of_ascii c in
  if (65 <=? n)%nat && (n <=? 90)%nat then ascii_of_nat (n + 32) else c.

(** [s.lower()] on the ASCII letters.  The three patterns searched for below
    are ASCII and no non-ASCII letter lower-cases to a run of them, so the
    bytes of other letters can stay as they are. *)
Fixpoint lower (s : string) : string :=
  match s with
  | EmptyString => EmptyString
  | String c r => String (lower_char c) (lower r)
  end.

(** * The Django cache over Redis

    settings.py selects [django_redis.cache.RedisCache].  A key holds a value
    and, unless it is persistent, a deadline.  The functions
    below are what [cache.get], [cache.set], [cache.add], [cache.delete] and
    [cache.ttl] do to the database at instant [now]. *)

Module Redis.

Record entry := { value : pyval; deadline : option Z }.

(** Redis takes a key for expired once the clock is past its deadline: at
    the deadline itself the key is still served. *)
Definition live (now : Z) (e : entry) : bool :=
  match deadline e with
  | None => true
  | Some d => now <=? d
  end.

Definition lookup (now : Z) (db : gmap string entry) (key : string) : option entry :=
  match db !! key with
  | Some e => if live now e then Some e else None
  | None => None
  end.

(** [cache.get(key)]: the value, or None for a missing or expired key. *)
Definition get (now : Z) (db : gmap string entry) (key : string) : pyval :=
  match lookup now db key with
  | Some e => value e
  | None => VNone
  end.

(** django-redis turns a timeout in seconds into [int(timeout * 1000)]
    milliseconds. *)
Definition timeout_ms (timeout : Q) : Z := int_of_float (timeout * 1000)%Q.

(** [cache.set(key, v, timeout=t)].  [None] makes the key persistent; a
    timeout that is not positive deletes the key instead of storing. *)
Definition set (now : Z) (db : gmap string entry) (key : string) (v : pyval)
    (timeout : option Q) : gmap string entry :=
  match timeout with
  | None => <[key := {| value := v; deadline := None |}]> db
  | Some t =>
      if timeout_ms t <=? 0 then delete key db
      else <[key := {| value := v; deadline := Some (now + timeout_ms t * 1000) |}]> db
  end.

(** [cache.add(key, v, timeout=t)]: store only if the key is not there
    (SET NX); the answer tells whether it stored. *)
Definition add (now : Z) (db : gmap string entry) (key : string) (v : pyval)
    (timeout : option Q) : bool * gmap string entry :=
  match lookup now db key with
  | Some _ => (false, db)
  | None =>
      match timeout with
      | None => (true, <[key := {| value := v; deadline := None |}]> db)
      | Some t =>
          if timeout_ms t <=? 0 then (true, db)
          else (true, <[key := {| value := v;
                                  deadline := Some (now + timeout_ms t * 1000) |}]> db)
      end
  end.

(** [cache.delete(key)] *)
Definition remove (db : gmap string entry) (key : string) : gmap string entry :=
  delete key db.

(** [cache.ttl(key)]: 0 for a missing key, None for a persistent one, and
    otherwise the remaining life in seconds as Redis rounds it. *)
Definition ttl (now : Z) (db : gmap string entry) (key : string) : option Z :=
  match lookup now db key with
  | None => Some 0
  | Some e =>
      match deadline e with
      | None => None
      | Some d => Some (((d - now) `div` 1000 + 500) `div` 1000)
      end
  end.

End Redis.

(** * stocks/utils.py *)

Module Utils.

(** ** Module state

    The module keeps its state in globals: the two dictionaries of the
    in-memory cache and the three counters of the rate limiter.  The dicts the
    functions hand out are objects: the cache stores and returns references
    ([loc]), and [heap] holds what each object currently contains, so a caller
    that mutates a returned dict mutates what the cache will return next. *)

Definition loc := positive.

(** One row of a price history: its index date and one number per column. *)
Record hist_row := { row_date : string; row_values : list Q }.

(** What [yf.download] returns: a DataFrame.  [columns] are (name, ticker)
    pairs when the frame has a MultiIndex and (name, "") otherwise. *)
Record frame := {
  multi_index : bool;
  columns : list (string * string);
  rows : list hist_row
}.

Inductive download_outcome :=
| Downloaded (hist : frame)
| DownloadFailed (e : exn).

Record state := {
  clock : Z;                               (* datetime.now(), microseconds *)
  heap : gmap loc pydict;                  (* the dict objects *)
  _cache : gmap string loc;
  _cache_timestamps : gmap string Z;
  _last_api_call : option Z;
  _api_call_count : Z;
  _rate_limit_window : Z;
  slept : list Q;                          (* every time.sleep(x), in order *)
  entropy : nat -> N;                      (* the generator behind random *)
  drawn : nat;                             (* how many numbers were drawn *)
  YF_AVAILABLE : bool;
  yf_answers : nat -> download_outcome;    (* what yf.download answers *)
  downloads : nat;                         (* how many downloads were made *)
  pending : list (result pyval)            (* outcomes of a scripted callee *)
}.

Definition with_clock (t : Z) (s : state) : state :=
  {| clock := t; heap := heap s; _cache := _cache s;
     _cache_timestamps := _cache_timestamps s;
     _last_api_call := _last_api_call s; _api_call_count := _api_call_count s;
     _rate_limit_window := _rate_limit_window s; slept := slept s;
     entropy := entropy s; drawn := drawn s; YF_AVAILABLE := YF_AVAILABLE s;
     yf_answers := yf_answers s; downloads := downloads s; pending := pending s |}.

Definition with_heap (h : gmap loc pydict) (s : state) : state :=
  {| clock := clock s; heap := h; _cache := _cache s;
     _cache_timestamps := _cache_timestamps s;
     _last_api_call := _last_api_call s; _api_call_count := _api_call_count s;
     _rate_limit_window := _rate_limit_window s; slept := slept s;
     entropy := entropy s; drawn := drawn s; YF_AVAILABLE := YF_AVAILABLE s;
     yf_answers := yf_answers s; downloads := downloads s; pending := pending s |}.

Definition with_cache (c : gmap string loc) (ts : gmap string Z) (s : state) : state :=
  {| clock := clock s; heap := heap s; _cache := c;
     _cache_timestamps := ts;
     _last_api_call := _last_api_call s; _api_call_count := _api_call_count s;
     _rate_limit_window := _rate_limit_window s; slept := slept s;
     entropy := entropy s; drawn := drawn s; YF_AVAILABLE := YF_AVAILABLE s;
     yf_answers := yf_answers s; downloads := downloads s; pending := pending s |}.

Definition with_limiter (last : option Z) (count window : Z) (s : state) : state :=
  {| clock := clock s; heap := heap s; _cache := _cache s;
     _cache_timestamps := _cache_timestamps s;
     _last_api_call := last; _api_call_count := count;
     _rate_limit_window := window; slept := slept s;
     entropy := entropy s; drawn := drawn s; YF_AVAILABLE := YF_AVAILABLE s;
     yf_answers := yf_answers s; downloads := downloads s; pending := pending s |}.

Definition with_slept (l : list Q) (s : state) : state :=
  {| clock := clock s; heap := heap s; _cache := _cache s;
     _cache_timestamps := _cache_timestamps s;
     _last_api_call := _last_api_call s; _api_call_count := _api_call_count s;
     _rate_limit_window := _rate_limit_window s; slept := l;
     entropy := entropy s; drawn := drawn s; YF_AVAILABLE := YF_AVAILABLE s;
     yf_answers := yf_answers s; downloads := downloads s; pending := pending s |}.

Definition with_drawn (n : nat) (s : state) : state :=
  {| clock := clock s; heap := heap s; _cache := _cache s;
     _cache_timestamps := _cache_timestamps s;
     _last_api_call := _last_api_call s; _api_call_count := _api_call_count s;
     _rate_limit_window := _rate_limit_window s; slept := slept s;
     entropy := entropy s; drawn := n; YF_AVAILABLE := YF_AVAILABLE s;
     yf_answers := yf_answers s; downloads := downloads s; pending := pending s |}.

Definition with_downloads (n : nat) (s : state) : state :=
  {| clock := clock s; heap := heap s; _cache := _cache s;
     _cache_timestamps := _cache_timestamps s;
     _last_api_call := _last_api_call s; _api_call_count := _api_call_count s;
     _rate_limit_window := _rate_limit_window s; slept := slept s;
     entropy := entropy s; drawn := drawn s; YF_AVAILABLE := YF_AVAILABLE s;
     yf_answers := yf_answers s; downloads := n; pending := pending s |}.

Definition with_pending (p : list (result pyval)) (s : state) : state :=
  {| clock := clock s; heap := heap s; _cache := _cache s;
     _cache_timestamps := _cache_timestamps s;
     _last_api_call := _last_api_call s; _api_call_count := _api_call_count s;
     _rate_limit_window := _rate_limit_window s; slept := slept s;
     entropy := entropy s; drawn := drawn s; YF_AVAILABLE := YF_AVAILABLE s;
     yf_answers := yf_answers s; downloads := downloads s; pending := p |}.

(** The module as it is right after import, at instant [t0]. *)
Definition initial (t0 : Z) (rng : nat -> N) (yf_ok : bool)
    (yf : nat -> download_outcome) : state :=
  {| clock := t0; heap := ∅; _cache := ∅; _cache_timestamps := ∅;
     _last_api_call := None; _api_call_count := 0; _rate_limit_window := t0;
     slept := []; entropy := rng; drawn := 0%nat; YF_AVAILABLE := yf_ok;
     yf_answers := yf; downloads := 0%nat; pending := [] |}.

Abbreviation Py := (M state).

(** ** Clock, sleep, randomness, objects *)

Definition datetime_now : Py Z := fun s => (Ok (clock s), s).

(** Time that passes outside the module's own calls (it may be negative when
    the wall clock is set back: [datetime.now()] is not monotonic). *)
Definition elapse (dt : Z) (s : state) : state := with_clock (clock s + dt) s.

(** [time.sleep(x)] rejects a negative length and otherwise returns once [x]
    seconds have passed. *)
Definition time_sleep (x : Q) : Py unit := fun s =>
  if Qle_bool 0 x
  then (Ok tt, with_clock (clock s + Qfloor (x * inject_Z Time.usec_per_sec)%Q)
                 (with_slept (slept s ++ [x]) s))
  else (Err ValueError, s).

(** [random.random()] is k / 2^53 for a uniformly drawn k below 2^53. *)
Definition unit_fraction (raw : N) : Q :=
  Z.of_N (raw mod 2 ^ 53)%N # (2 ^ 53).

Definition random_random : Py Q := fun s =>
  (Ok (unit_fraction (entropy s (drawn s))), with_drawn (S (drawn s)) s).

(** [random.uniform(a, b)] is [a + (b - a) * random()]. *)
Definition random_uniform (a b : Q) : Py Q :=
  r <- random_random ;; ret (a + (b - a) * r)%Q.

(** A dict display creates a new object. *)
Definition fresh_loc (h : gmap loc pydict) : loc := fresh (dom h).

Definition new_dict (d : pydict) : Py loc := fun s =>
  let l := fresh_loc (heap s) in (Ok l, with_heap (<[l := d]> (heap s)) s).

(** ** The in-memory cache (lines 128-178) *)

Definition get_cached_data (symbol : string) (max_age_minutes : Z) : Py (option loc) :=
  fun s =>
    match _cache s !! symbol, _cache_timestamps s !! symbol with
    | Some data, Some cache_time =>
        let current_time := clock s in
        match Time.timedelta_minutes max_age_minutes with
        | Err e => (Err e, s)
        | Ok max_age =>
            if max_age <? current_time - cache_time
            then (Ok None,
                  with_cache (delete symbol (_cache s))
                             (delete symbol (_cache_timestamps s)) s)
            else (Ok (Some data), s)
        end
    | _, _ => (Ok None, s)
    end.

Definition set_cached_data (symbol : string) (data : loc) : Py unit := fun s =>
  (Ok tt, with_cache (<[symbol := data]> (_cache s))
                     (<[symbol := clock s]> (_cache_timestamps s)) s).

Definition clear_cache : Py unit := fun s => (Ok tt, with_cache ∅ ∅ s).

(** What a client of the cache can do, for statements about histories. *)
Inductive cache_call :=
| CallGet (symbol : string) (max_age_minutes : Z)
| CallSet (symbol : string) (data : loc)
| CallClear
| Wait (dt : Z).

Definition run_call (c : cache_call) (s : state) : state :=
  match c with
  | CallGet symbol m => snd (get_cached_data symbol m s)
  | CallSet symbol data => snd (set_cached_data symbol data s)
  | CallClear => snd (clear_cache s)
  | Wait dt => elapse dt s
  end.

Definition run_calls (cs : list cache_call) (s : state) : state :=
  fold_left (fun s c => run_call c s) cs s.

Definition stores (symbol : string) (c : cache_call) : bool :=
  match c with
  | CallSet symbol' _ => String.eqb symbol' symbol
  | _ => false
  end.

(** Calls that can change what the cache holds for [symbol]. *)
Definition touches (symbol : string) (c : cache_call) : bool :=
  match c with
  | CallGet symbol' _ => String.eqb symbol' symbol
  | CallSet symbol' _ => String.eqb symbol' symbol
  | CallClear => true
  | Wait _ => false
  end.

(** The two dictionaries of the cache have the same keys. *)
Definition cache_consistent (s : state) : Prop :=
  dom (_cache s) = dom (_cache_timestamps s).

(** ** The decorators (lines 34-125) *)

(** [range(n)] *)
Definition range (n : Z) : list Z := map Z.of_nat (seq 0 (Z.to_nat n)).

Definition rate_limit_decorator {A} (min_interval : Q) (max_calls_per_minute : Z)
    (func : Py A) : Py A := fun s =>
  let current_time := clock s in
  (* the per-minute window *)
  let s :=
    if 60 * Time.usec_per_sec <? current_time - _rate_limit_window s
    then with_limiter (_last_api_call s) 0 current_time s
    else s in
  let limited : Py unit :=
    if max_calls_per_minute <=? _api_call_count s then
      let wait_time := 60 - Time.td_seconds (current_time - _rate_limit_window s) in
      time_sleep (inject_Z wait_time) ;;;
      fun s1 => (Ok tt, with_limiter (_last_api_call s1) 0 (clock s1) s1)
    else ret tt in
  (limited ;;;
   (* the minimum interval *)
   (fun s1 =>
      match _last_api_call s1 with
      | Some last =>
          let elapsed := (current_time - last) # 1000000 in
          if Qle_bool min_interval elapsed then (Ok tt, s1)
          else time_sleep (min_interval - elapsed)%Q s1
      | None => (Ok tt, s1)
      end) ;;;
   (fun s2 => (Ok tt, with_limiter (Some (clock s2)) (_api_call_count s2 + 1)
                        (_rate_limit_window s2) s2)) ;;;
   func) s.

Section WithExceptionText.

(** [str(e)] of the exceptions that carry no text of the program. *)
Variable interpreter_text : exn -> string.

(** The test of lines 99-103 on [str(e).lower()]. *)
Definition is_rate_limited (e : exn) : bool :=
  let error_str := lower (exn_message interpreter_text e) in
  contains "429" error_str
  || contains "too many requests" error_str
  || contains "rate limit" error_str.

(** The jitter [random.uniform(0, 1)] makes of a drawn number. *)
Definition jitter_of (raw : N) : Q := (0 + (1 - 0) * unit_fraction raw)%Q.

(** The [for attempt in ...] loop over the attempts left; the wrapper
    returns what [func] returned, or None. *)
Fixpoint retry_loop {A} (max_retries : Z) (base_delay : Q) (func : Py A)
    (attempts : list Z) : Py (option A) :=
  match attempts with
  | [] => ret None
  | attempt :: rest =>
      try_except (v <- func ;; ret (Some v)) any_exception
        (fun e =>
           if is_rate_limited e then
             if attempt <? max_retries then
               jitter <- random_uniform 0 1 ;;
               let delay := (base_delay * inject_Z (2 ^ attempt) + jitter)%Q in
               time_sleep delay ;;;
               retry_loop max_retries base_delay func rest
             else ret None
           else raise e)
  end.

Definition retry_on_429 {A} (max_retries : Z) (base_delay : Q) (func : Py A)
    : Py (option A) :=
  retry_loop max_retries base_delay func (range (max_retries + 1)).

(** A callee whose successive calls end as the script in [pending] says. *)
Definition scripted : Py pyval := fun s =>
  match pending s with
  | [] => (Ok VNone, s)
  | r :: rest => (r, with_pending rest s)
  end.

(** The waits of the first [n] retries started in [s]: retry [k] waits
    base_delay * 2^k plus the jitter of the k-th number drawn from [s] on. *)
Definition backoff_delays (base_delay : Q) (s : state) (n : nat) : list Q :=
  map (fun k => (base_delay * inject_Z (2 ^ Z.of_nat k)
                 + jitter_of (entropy s (drawn s + k)%nat))%Q)
      (seq 0 n).

(** ** Stock data (lines 181-596 and 2232-2311) *)

Definition create_standardized_response
    (title market price change change_rate sign : string) : pydict :=
  let or_else (a b : string) := if String.eqb a "" then b else a in
  [("title", VStr title);
   ("market", VStr market);
   ("price", VStr (or_else price "0"));
   ("change", VStr (or_else change "0"));
   ("changeRate", VStr (or_else change_rate "0.00"));
   ("sign", VStr (or_else sign "0"))].

Definition STOCK_SYMBOLS : list (string * pydict) :=
  [("AAPL", [("name", VStr "Apple Inc"); ("sector", VStr "Technology")]);
   ("MSFT", [("name", VStr "Microsoft Corporation"); ("sector", VStr "Technology")]);
   ("GOOGL", [("name", VStr "Alphabet Inc"); ("sector", VStr "Technology")]);
   ("TSLA", [("name", VStr "Tesla Inc"); ("sector", VStr "Consumer Cyclical")]);
   ("AMZN", [("name", VStr "Amazon.com Inc"); ("sector", VStr "Consumer Cyclical")]);
   ("NVDA", [("name", VStr "NVIDIA Corporation"); ("sector", VStr "Technology")])].

Fixpoint table_get {V} (t : list (string * V)) (k : string) : option V :=
  match t with
  | [] => None
  | (k', v) :: r => if String.eqb k' k then Some v else table_get r k
  end.

(** [STOCK_SYMBOLS.get(symbol, {}).get(field, default)] *)
Definition symbol_info (symbol field : string) (dflt : pyval) : pyval :=
  dict_get_default (default [] (table_get STOCK_SYMBOLS symbol)) field dflt.

Definition get_default_stock_data (symbol : string) : Py loc :=
  let default_data : list (string * pydict) :=
    [("AAPL", [("price", VFloat 220); ("name", VStr "Apple Inc");
               ("sector", VStr "Technology")]);
     ("MSFT", [("price", VFloat 430); ("name", VStr "Microsoft Corporation");
               ("sector", VStr "Technology")]);
     ("GOOGL", [("price", VFloat 160); ("name", VStr "Alphabet Inc");
                ("sector", VStr "Technology")]);
     ("TSLA", [("price", VFloat 240); ("name", VStr "Tesla Inc");
               ("sector", VStr "Consumer Cyclical")]);
     ("AMZN", [("price", VFloat 170); ("name", VStr "Amazon.com Inc");
               ("sector", VStr "Consumer Cyclical")]);
     ("NVDA", [("price", VFloat 450); ("name", VStr "NVIDIA Corporation");
               ("sector", VStr "Technology")])] in
  let data :=
    default [("price", VFloat 0); ("name", VStr "Unknown"); ("sector", VStr "Unknown")]
            (table_get default_data symbol) in
  let item k := dict_get_default data k VNone in
  new_dict
    [("symbol", VStr symbol);
     ("name", item "name");
     ("sector", item "sector");
     ("price", item "price");
     ("open", item "price");
     ("high", item "price");
     ("low", item "price");
     ("volume", VInt 0);
     ("previous_close", item "price");
     ("change", VFloat 0);
     ("change_percent", VFloat 0);
     ("date", VStr "N/A");
     ("data_source", VStr "default")].

(** [yf.download(...)]: the next answer of the service. *)
Definition yf_download : Py frame := fun s =>
  let s' := with_downloads (S (downloads s)) s in
  match yf_answers s (downloads s) with
  | Downloaded hist => (Ok hist, s')
  | DownloadFailed e => (Err e, s')
  end.

(** [pd.DataFrame()] *)
Definition empty_frame : frame := {| multi_index := false; columns := []; rows := [] |}.

(** [hist.empty]: some axis has length 0. *)
Definition frame_empty (hist : frame) : bool :=
  match columns hist, rows hist with
  | [], _ | _, [] => true
  | _, _ => false
  end.

Definition column_eqb (a b : string * string) : bool :=
  String.eqb (fst a) (fst b) && String.eqb (snd a) (snd b).

Fixpoint column_index (cols : list (string * string)) (col : string * string) : option nat :=
  match cols with
  | [] => None
  | c :: r => if column_eqb c col then Some 0%nat
              else option_map S (column_index r col)
  end.

(** [row[col]] *)
Definition cell (hist : frame) (row : hist_row) (col : string * string) : result Q :=
  match column_index (columns hist) col with
  | Some i => match nth_error (row_values row) i with
              | Some x => Ok x
              | None => Err KeyError
              end
  | None => Err KeyError
  end.

(** Lines 420-443: the column named [name] for [symbol] if the MultiIndex has
    it, else the first column of that name. *)
Definition pick_column (hist : frame) (name symbol : string) : result (string * string) :=
  if existsb (column_eqb (name, symbol)) (columns hist) then Ok (name, symbol)
  else match List.filter (fun c => String.eqb (fst c) name) (columns hist) with
       | c :: _ => Ok c
       | [] => Err IndexError
       end.

(** Lines 414-482: the dict made of a non-empty history. *)
Definition quote_of_history (symbol : string) (hist : frame) : result pydict :=
  match rev (rows hist) with
  | [] => Err IndexError
  | latest :: before =>
      let previous := match before with p :: _ => p | [] => latest end in
      let more_than_one := match before with _ :: _ => true | [] => false end in
      result_bind
        (if multi_index hist then
           result_bind (pick_column hist "Close" symbol) (fun close_col =>
           result_bind (pick_column hist "Open" symbol) (fun open_col =>
           result_bind (pick_column hist "High" symbol) (fun high_col =>
           result_bind (pick_column hist "Low" symbol) (fun low_col =>
           result_bind (pick_column hist "Volume" symbol) (fun volume_col =>
           Ok (close_col, open_col, high_col, low_col, volume_col))))))
         else Ok (("Close", ""), ("Open", ""), ("High", ""), ("Low", ""), ("Volume", "")))
        (fun '(close_col, open_col, high_col, low_col, volume_col) =>
      result_bind (cell hist latest close_col) (fun current_close =>
      result_bind (if more_than_one then cell hist previous close_col
                   else cell hist latest open_col) (fun previous_close =>
      result_bind (cell hist latest open_col) (fun open_price =>
      result_bind (cell hist latest high_col) (fun high_price =>
      result_bind (cell hist latest low_col) (fun low_price =>
      result_bind (cell hist latest volume_col) (fun volume =>
      let change := (current_close - previous_close)%Q in
      let change_percent :=
        if Qeq_bool previous_close 0 then VInt 0
        else VFloat (change / previous_close * 100)%Q in
      Ok [("symbol", VStr symbol);
          ("name", symbol_info symbol "name" (VStr symbol));
          ("sector", symbol_info symbol "sector" (VStr "Unknown"));
          ("price", VFloat current_close);
          ("open", VFloat open_price);
          ("high", VFloat high_price);
          ("low", VFloat low_price);
          ("volume", VInt (int_of_float volume));
          ("previous_close", VFloat previous_close);
          ("change", VFloat change);
          ("change_percent", change_percent);
          ("date", VStr (row_date latest));
          ("data_source", VStr "yfinance_download")])))))))
  end.

(** The body of the outer [try] (lines 383-488). *)
Definition fetch_quote (symbol : string) : Py loc :=
  available <- (fun s => (Ok (YF_AVAILABLE s), s)) ;;
  if negb available then raise (PlainException "yfinance library not available")
  else
    hist <- try_except yf_download any_exception
              (fun e1 =>
                 try_except
                   (pause <- random_uniform 2 4 ;;
                    time_sleep pause ;;;
                    yf_download)
                   any_exception
                   (fun e2 => ret empty_frame)) ;;
    if frame_empty hist then raise (PlainException "No historical data available")
    else
      fields <- lift (quote_of_history symbol hist) ;;
      data <- new_dict fields ;;
      set_cached_data symbol data ;;;
      ret data.

(** The function under the two decorators (lines 365-510). *)
Definition get_stock_data_body (symbol : string) : Py loc :=
  cached_data <- get_cached_data symbol 15 ;;
  match cached_data with
  | Some data => ret data
  | None =>
      try_except (fetch_quote symbol) any_exception
        (fun e =>
           default_data <- get_default_stock_data symbol ;;
           set_cached_data symbol default_data ;;;
           ret default_data)
  end.

(** [get_stock_data] as the module exports it:
      @rate_limit_decorator(min_interval=5.0, max_calls_per_minute=5)
      @retry_on_429(max_retries=2, base_delay=3.0)  *)
Definition get_stock_data (symbol : string) : Py (option loc) :=
  rate_limit_decorator 5 5 (retry_on_429 2 3 (get_stock_data_body symbol)).

(** [a or b] *)
Definition py_or (a b : pyval) : pyval := if truthy a then a else b.

(** The body of the loop of [get_multiple_stocks_parallel] (lines 2262-2310)
    for one symbol that was not in the cache, given what the parallel fetch
    found for it ([fast_info], None when it found nothing); the dict it
    appends to the results. *)
Definition store_parallel_quote (symbol : string) (fast_info : option pydict) : Py loc :=
  try_except
    (match fast_info with
     | Some info =>
         if truthy (VDict info) then
           let current_price :=
             py_or (dict_get_default info "lastPrice" VNone)
                   (dict_get_default info "regularMarketPrice" (VInt 0)) in
           let previous_close := dict_get_default info "previousClose" (VInt 0) in
           figures <- lift
             (if truthy current_price && truthy previous_close then
                result_bind (as_number current_price) (fun c =>
                result_bind (as_number previous_close) (fun p =>
                let change := (c - p)%Q in
                let change_rate := (change / p * 100)%Q in
                let sign := if negb (Qle_bool change 0) then "1"
                            else if negb (Qle_bool 0 change) then "2" else "0" in
                Ok (change, change_rate, sign)))
              else Ok (0%Q, 0%Q, "0")) ;;
           let '(change, change_rate, sign) := figures in
           price <- lift (as_number current_price) ;;
           let stock_name :=
             match symbol_info symbol "name" (VStr symbol) with
             | VStr name => name
             | _ => symbol
             end in
           stock_data <- new_dict
             (create_standardized_response stock_name "US"
                (format_2f price) (format_2f change) (format_2f change_rate) sign) ;;
           set_cached_data symbol stock_data ;;;
           ret stock_data
         else get_default_stock_data symbol
     | None => get_default_stock_data symbol
     end)
    any_exception
    (fun e => get_default_stock_data symbol).

(** The keys the callers of [get_stock_data] read. *)
Definition stock_keys : list string :=
  ["symbol"; "name"; "sector"; "price"; "open"; "high"; "low"; "volume";
   "previous_close"; "change"; "change_percent"; "date"; "data_source"].

Definition has_stock_keys (d : pydict) : bool :=
  forallb (dict_has d) stock_keys.

(** ** Refreshing one symbol (lines 1270-1288) *)

Definition force_refresh_symbol (symbol : string) : Py (option loc) :=
  (fun s => (Ok tt, with_cache (delete symbol (_cache s))
                      (delete symbol (_cache_timestamps s)) s)) ;;;
  get_stock_data symbol.

(** ** Several symbols, one after the other (lines 513-548) *)

(** [t[k] = v] on a dict whose values are not Python values of the model. *)
Fixpoint table_set {V} (t : list (string * V)) (k : string) (v : V) : list (string * V) :=
  match t with
  | [] => [(k, v)]
  | (k', v') :: r =>
      if String.eqb k' k then (k', v) :: r else (k', v') :: table_set r k v
  end.

(** What [get_multiple_stocks_data] returns: the dict
    {"error": "yfinance not installed"}, or a dict from symbol to what
    [get_stock_data] returned for it. *)
Inductive stocks_answer :=
| NotInstalled
| BySymbol (results : list (string * option loc)).

(** [results[symbol]["note"] = text] *)
Definition add_note (data : loc) (text : string) : Py unit := fun s =>
  match heap s !! data with
  | Some d => (Ok tt, with_heap (<[data := dict_set d "note" (VStr text)]> (heap s)) s)
  | None => (Err KeyError, s)
  end.

(** The [for i, symbol in enumerate(symbols)] loop over the items left. *)
Fixpoint stocks_loop (total : nat) (items : list (nat * string))
    (results : list (string * option loc)) : Py (list (string * option loc)) :=
  match items with
  | [] => ret results
  | (i, symbol) :: rest =>
      results <-
        try_except
          (stock_data <- get_stock_data symbol ;;
           let results := table_set results symbol stock_data in
           (if Z.of_nat i <? Z.of_nat total - 1
            then pause <- random_uniform (3 # 2) (5 # 2) ;; time_sleep pause
            else ret tt) ;;;
           ret results)
          any_exception
          (fun e =>
             default_data <- get_default_stock_data symbol ;;
             let results := table_set results symbol (Some default_data) in
             add_note default_data "Using default data due to API error" ;;;
             ret results) ;;
      stocks_loop total rest results
  end.

Definition get_multiple_stocks_data (symbols : list string) : Py stocks_answer :=
  available <- (fun s => (Ok (YF_AVAILABLE s), s)) ;;
  if negb available then ret NotInstalled
  else
    results <- stocks_loop (length symbols)
                 (combine (seq 0 (length symbols)) symbols) [] ;;
    ret (BySymbol results).

End WithExceptionText.

(** *** Vocabulary for the statements about whole calls *)

(** The window of the rate limiter does not start in the future: the clock
    was not set back since the window was opened. *)
Definition limiter_ready (s : state) : Prop := _rate_limit_window s <= clock s.

(** From [s] to [s'] the clock has not gone back, at most [n] downloads
    were made, every dict object of [s] is as it was, and the counters of
    the rate limiter are as they were. *)
Definition fetched_at_most (n : nat) (s s' : state) : Prop :=
  clock s <= clock s' /\
  (downloads s <= downloads s' <= downloads s + n)%nat /\
  (forall l d, heap s !! l = Some d -> heap s' !! l = Some d) /\
  _rate_limit_window s' = _rate_limit_window s /\
  _last_api_call s' = _last_api_call s /\
  _api_call_count s' = _api_call_count s /\
  YF_AVAILABLE s' = YF_AVAILABLE s.

(** From [s] to [s'] nothing but the clock, the list of sleeps and the
    counters of the rate limiter can have changed. *)
Definition limiter_passed (s s' : state) : Prop :=
  heap s' = heap s /\
  _cache s' = _cache s /\
  _cache_timestamps s' = _cache_timestamps s /\
  entropy s' = entropy s /\
  drawn s' = drawn s /\
  YF_AVAILABLE s' = YF_AVAILABLE s /\
  yf_answers s' = yf_answers s /\
  downloads s' = downloads s /\
  pending s' = pending s.

(** ** Sample data for the examples *)

(** 2025-01-01T00:00:00 *)
Definition sample_instant : Z := 739252 * Time.usec_per_day.

(** The module just imported, with a service that answers every download
    with a 429 error. *)
Definition sample_state : state :=
  initial sample_instant (fun _ => 0%N) true
    (fun _ => DownloadFailed (PlainException "429 Too Many Requests")).

(** The texts of the interpreter in the examples: the one [time.sleep]
    raises on a negative number with; the other exceptions of the examples
    carry their own text. *)
Definition sample_interpreter_text (e : exn) : string :=
  match e with
  | ValueError => "sleep length must be non-negative"
  | _ => ""
  end.

(** What the parallel fetch found for AAPL. *)
Definition sample_fast_info : pydict :=
  [("lastPrice", VFloat (2205 # 10)); ("previousClose", VFloat 219)].

(** Five calls were counted in a window that, the clock having been set
    back an hour, starts an hour from now. *)
Definition sample_set_back_state : state :=
  with_limiter (Some (sample_instant + 3600 * Time.usec_per_sec)) 5
    (sample_instant + 3600 * Time.usec_per_sec) sample_state.

(** A callee that is rate limited twice and then answers 7. *)
Definition sample_flaky_state : state :=
  with_pending [Err (PlainException "HTTP 429");
                Err (PlainException "Too Many Requests");
                Ok (VInt 7)] sample_state.

End Utils.

(** * stocks/token_manager.py *)

Module KIS.

(** What [datetime.fromisoformat] yields: a naive datetime, or an aware one
    with its UTC offset. *)
Inductive datetime :=
| Naive (t : Z)
| Aware (t : Z) (utcoffset : Z).

(** [a < b] for a naive [a]: comparing with an aware datetime is a
    [TypeError]. *)
Definition naive_lt (a : Z) (b : datetime) : result bool :=
  match b with
  | Naive t => Ok (a <? t)
  | Aware _ _ => Err TypeError
  end.

Record http_request := {
  req_url : string;
  req_json : pydict;
  req_timeout : Z
}.

(** How one [requests.post] ends.  A response carries its status code and
    what [response.json()] gives. *)
Inductive http_outcome :=
| HttpTimeout
| HttpConnectionError
| HttpOtherError (msg : string)
| HttpResponse (status_code : Z) (json : result pyval).

(** A [KISTokenManager] instance. *)
Record manager := {
  app_key : string;
  app_secret : string;
  base_url : string
}.

Definition loc := positive.

Record world := {
  clock : Z;                                  (* datetime.now(), microseconds *)
  redis : gmap string Redis.entry;
  redis_down : Z -> bool;                     (* the Redis client fails at that instant *)
  peers : Z -> gmap string Redis.entry -> gmap string Redis.entry;
                                              (* what other processes have done
                                                 to Redis when a sleep ends *)
  slept : list Z;                             (* every time.sleep(n), in order *)
  http_answers : nat -> http_outcome;         (* the network's successive answers *)
  posts : list http_request;                  (* every requests.post, in order *)
  environ : gmap string string;               (* os.environ *)
  _token_manager : option loc;                (* the module global *)
  instances : gmap loc manager                (* the KISTokenManager objects *)
}.

Definition with_clock_redis (t : Z) (db : gmap string Redis.entry) (w : world) : world :=
  {| clock := t; redis := db; redis_down := redis_down w; peers := peers w;
     slept := slept w; http_answers := http_answers w; posts := posts w;
     environ := environ w; _token_manager := _token_manager w;
     instances := instances w |}.

Definition with_redis (db : gmap string Redis.entry) (w : world) : world :=
  with_clock_redis (clock w) db w.

Definition with_slept (l : list Z) (w : world) : world :=
  {| clock := clock w; redis := redis w; redis_down := redis_down w; peers := peers w;
     slept := l; http_answers := http_answers w; posts := posts w;
     environ := environ w; _token_manager := _token_manager w;
     instances := instances w |}.

Definition with_posts (l : list http_request) (w : world) : world :=
  {| clock := clock w; redis := redis w; redis_down := redis_down w; peers := peers w;
     slept := slept w; http_answers := http_answers w; posts := l;
     environ := environ w; _token_manager := _token_manager w;
     instances := instances w |}.

Definition with_environ (e : gmap string string) (w : world) : world :=
  {| clock := clock w; redis := redis w; redis_down := redis_down w; peers := peers w;
     slept := slept w; http_answers := http_answers w; posts := posts w;
     environ := e; _token_manager := _token_manager w;
     instances := instances w |}.

Definition with_singleton (g : option loc) (objs : gmap loc manager) (w : world) : world :=
  {| clock := clock w; redis := redis w; redis_down := redis_down w; peers := peers w;
     slept := slept w; http_answers := http_answers w; posts := posts w;
     environ := environ w; _token_manager := g; instances := objs |}.

Abbreviation Py := (M world).

(** ** The effects the module uses *)

Definition datetime_now : Py Z := fun w => (Ok (clock w), w).

(** [time.sleep(n)]: [n] seconds pass, during which the other processes do
    to Redis whatever they do. *)
Definition time_sleep (n : Z) : Py unit := fun w =>
  let t := clock w + n * Time.usec_per_sec in
  (Ok tt, with_clock_redis t (peers w t (redis w)) (with_slept (slept w ++ [n]) w)).

Definition cache_get (key : string) : Py pyval := fun w =>
  if redis_down w (clock w) then (Err CacheError, w)
  else (Ok (Redis.get (clock w) (redis w) key), w).

(** The timeout is the Python value passed as [timeout=]. *)
Definition cache_set (key : string) (v : pyval) (timeout : pyval) : Py unit := fun w =>
  if redis_down w (clock w) then (Err CacheError, w)
  else match timeout with
       | VNone => (Ok tt, with_redis (Redis.set (clock w) (redis w) key v None) w)
       | _ => match as_number timeout with
              | Ok t => (Ok tt, with_redis (Redis.set (clock w) (redis w) key v (Some t)) w)
              | Err e => (Err e, w)
              end
       end.

Definition cache_add (key : string) (v : pyval) (timeout : Z) : Py bool := fun w =>
  if redis_down w (clock w) then (Err CacheError, w)
  else let '(stored, db) :=
         Redis.add (clock w) (redis w) key v (Some (inject_Z timeout)) in
       (Ok stored, with_redis db w).

Definition cache_delete (key : string) : Py unit := fun w =>
  if redis_down w (clock w) then (Err CacheError, w)
  else (Ok tt, with_redis (Redis.remove (redis w) key) w).

Definition requests_post (url : string) (json : pydict) (timeout : Z) : Py (Z * result pyval) :=
  fun w =>
    let w' := with_posts (posts w ++ [{| req_url := url; req_json := json;
                                          req_timeout := timeout |}]) w in
    match http_answers w (length (posts w)) with
    | HttpTimeout => (Err ReqTimeout, w')
    | HttpConnectionError => (Err ReqConnectionError, w')
    | HttpOtherError msg => (Err (ReqOther msg), w')
    | HttpResponse status body => (Ok (status, body), w')
    end.

(** [response.raise_for_status()] *)
Definition raise_for_status (status : Z) : Py unit :=
  if (400 <=? status) && (status <? 600) then raise (ReqHTTPError status) else ret tt.

(** [os.getenv(name)] *)
Definition getenv (name : string) : Py (option string) := fun w =>
  (Ok (environ w !! name), w).

(** [try: m  finally: cleanup] *)
Definition try_finally {A} (m : Py A) (cleanup : Py unit) : Py A := fun w =>
  match m w with
  | (r, w') =>
      match cleanup w' with
      | (Ok _, w'') => (r, w'')
      | (Err e, w'') => (Err e, w'')
      end
  end.

(** [token_data.get(key, default)]: only a dict has [get]. *)
Definition py_get (v : pyval) (key : string) (dflt : pyval) : result pyval :=
  match v with
  | VDict d => Ok (dict_get_default d key dflt)
  | _ => Err AttributeError
  end.

(** ** Constants of the class *)

Definition TOKEN_KEY : string := "kis_api_token".
Definition TOKEN_EXPIRES_KEY : string := "kis_api_token_expires".
Definition TOKEN_LOCK_KEY : string := "kis_api_token_lock".
Definition LOCK_TIMEOUT : Z := 30.
Definition TOKEN_BUFFER_TIME : Z := 300.
Definition max_retries : Z := 5.
Definition base_wait_time : Z := 2.

Section WithDatetimeText.

(** [datetime.fromisoformat] on a string (None: it raises [ValueError]) and
    [datetime.isoformat], both from the standard library. *)
Variable fromisoformat : string -> option datetime.
Variable isoformat : Z -> string.

Definition parse_expiry (v : pyval) : result datetime :=
  match v with
  | VStr s => match fromisoformat s with
              | Some d => Ok d
              | None => Err ValueError
              end
  | _ => Err TypeError
  end.

(** The test made three times in the class:
      if token and expires_str:
          try:
              expires_at = datetime.fromisoformat(expires_str)
              if datetime.now() < expires_at: (use the token)
          except (ValueError, TypeError): ... *)
Definition cached_token_usable (token expires_str : pyval) : Py bool :=
  if truthy token && truthy expires_str then
    try_except
      (expires_at <- lift (parse_expiry expires_str) ;;
       now <- datetime_now ;;
       lift (naive_lt now expires_at))
      value_or_type_error
      (fun _ => ret false)
  else ret false.

Definition token_request (self : manager) : pydict :=
  [("grant_type", VStr "client_credentials");
   ("appkey", VStr (app_key self));
   ("appsecret", VStr (app_secret self))].

(** The [except] clauses shared by both request functions, in their order. *)
Definition as_token_error (e : exn) : exn :=
  match e with
  | ReqTimeout => KISTokenError MsgTimeout
  | ReqConnectionError => KISTokenError MsgConnection
  | ReqHTTPError status =>
      if status =? 403 then KISTokenError MsgForbidden
      else if status =? 429 then KISTokenError MsgTooMany
      else KISTokenError (MsgHTTP e)
  | ReqOther _ => KISTokenError (MsgRequest e)
  | _ => KISTokenError (MsgUnexpected e)
  end.

(** The body of the [try] of [_request_new_token] (lines 214-240). *)
Definition request_and_cache (self : manager) : Py pyval :=
  let endpoint := "/oauth2/tokenP" in
  let url := String.append (base_url self) endpoint in
  response <- requests_post url (token_request self) 30 ;;
  raise_for_status (fst response) ;;;
  token_data <- lift (snd response) ;;
  token <- lift (py_get token_data "access_token" VNone) ;;
  if negb (truthy token) then raise (KISTokenError MsgNoToken)
  else
    expires_in <- lift (py_get token_data "expires_in" (VInt 86400)) ;;
    now <- datetime_now ;;
    seconds <- lift (match as_number expires_in with
                     | Ok x => Ok (x - inject_Z TOKEN_BUFFER_TIME)%Q
                     | Err e => Err e
                     end) ;;
    delta <- lift (Time.timedelta_seconds seconds) ;;
    expires_at <- lift (Time.datetime_add now delta) ;;
    try_except
      (cache_set TOKEN_KEY token expires_in ;;;
       cache_set TOKEN_EXPIRES_KEY (VStr (isoformat expires_at)) expires_in)
      any_exception
      (fun _ => ret tt) ;;;
    ret token.

Definition _request_new_token (self : manager) : Py pyval :=
  try_except (request_and_cache self) any_exception
             (fun e => raise (as_token_error e)).

(** [_request_new_token_direct] (lines 263-336) has the same statements; it
    differs in its log messages only. *)
Definition _request_new_token_direct (self : manager) : Py pyval :=
  try_except (request_and_cache self) any_exception
             (fun e => raise (as_token_error e)).

(** The loop of lines 131-153 over the remaining values of [retry]; Some
    token when an iteration returned it. *)
Fixpoint wait_for_refresh (retries : list Z) : Py (option pyval) :=
  match retries with
  | [] => ret None
  | retry :: rest =>
      let wait_time := base_wait_time * 2 ^ retry in
      time_sleep wait_time ;;;
      token <- cache_get TOKEN_KEY ;;
      expires_str <- cache_get TOKEN_EXPIRES_KEY ;;
      usable <- cached_token_usable token expires_str ;;
      if usable then ret (Some token) else wait_for_refresh rest
  end.

Definition _refresh_token (self : manager) : Py pyval :=
  try_except
    (lock_acquired <- cache_add TOKEN_LOCK_KEY (VStr "locked") LOCK_TIMEOUT ;;
     if negb lock_acquired then
       found <- wait_for_refresh (seqZ 0 max_retries) ;;
       match found with
       | Some token => ret token
       | None => _request_new_token_direct self
       end
     else
       try_finally
         (token <- cache_get TOKEN_KEY ;;
          expires_str <- cache_get TOKEN_EXPIRES_KEY ;;
          usable <- cached_token_usable token expires_str ;;
          if usable then ret token
          else _request_new_token self)
         (try_except (cache_delete TOKEN_LOCK_KEY) any_exception (fun _ => ret tt)))
    any_exception
    (fun _ => _request_new_token_direct self).

Definition get_token (self : manager) : Py pyval :=
  try_except
    (token <- cache_get TOKEN_KEY ;;
     expires_str <- cache_get TOKEN_EXPIRES_KEY ;;
     usable <- cached_token_usable token expires_str ;;
     if usable then ret token
     else _refresh_token self)
    any_exception
    (fun _ => _request_new_token_direct self).

(** *** Vocabulary for the statements about the class *)

(** The cache, read now, holds a token and an expiry text that parses as a
    naive datetime strictly later than now. *)
Definition holds_usable_token (w : world) : bool :=
  let token := Redis.get (clock w) (redis w) TOKEN_KEY in
  let expires_str := Redis.get (clock w) (redis w) TOKEN_EXPIRES_KEY in
  truthy token && truthy expires_str &&
  match parse_expiry expires_str with
  | Ok (Naive t) => clock w <? t
  | _ => false
  end.

(** The request [_request_new_token] posts. *)
Definition token_post (self : manager) : http_request :=
  {| req_url := String.append (base_url self) "/oauth2/tokenP";
     req_json := token_request self;
     req_timeout := 30 |}.

End WithDatetimeText.

(** The network answered without an error status and the JSON body is an
    object whose access_token is [token], a truthy value. *)
Definition answers_with_token (answer : http_outcome) (token : pyval) : Prop :=
  exists status d,
    answer = HttpResponse status (Ok (VDict d)) /\
    ~ (400 <= status < 600) /\
    token = dict_get_default d "access_token" VNone /\
    truthy token = true.

(** ... and, besides, the expiry instant can be computed at [now]: expires_in
    (86400 when absent) is a number, and now + (expires_in - 300) seconds is
    a datetime. *)
Definition grants (now : Z) (answer : http_outcome) (token : pyval) : Prop :=
  exists status d x delta t,
    answer = HttpResponse status (Ok (VDict d)) /\
    ~ (400 <= status < 600) /\
    token = dict_get_default d "access_token" VNone /\
    truthy token = true /\
    as_number (dict_get_default d "expires_in" (VInt 86400)) = Ok x /\
    Time.timedelta_seconds (x - inject_Z TOKEN_BUFFER_TIME)%Q = Ok delta /\
    Time.datetime_add now delta = Ok t.

(** What the body of the [try] yields, read off the instant and the
    network's answer alone: the cache plays no part in it. *)
Definition token_outcome (now : Z) (answer : http_outcome) : result pyval :=
  match answer with
  | HttpTimeout => Err ReqTimeout
  | HttpConnectionError => Err ReqConnectionError
  | HttpOtherError msg => Err (ReqOther msg)
  | HttpResponse status body =>
      if (400 <=? status) && (status <? 600) then Err (ReqHTTPError status)
      else
        match body with
        | Err e => Err e
        | Ok (VDict d) =>
            let token := dict_get_default d "access_token" VNone in
            if negb (truthy token) then Err (KISTokenError MsgNoToken)
            else
              match as_number (dict_get_default d "expires_in" (VInt 86400)) with
              | Err e => Err e
              | Ok x =>
                  match Time.timedelta_seconds (x - inject_Z TOKEN_BUFFER_TIME)%Q with
                  | Err e => Err e
                  | Ok delta =>
                      match Time.datetime_add now delta with
                      | Err e => Err e
                      | Ok _ => Ok token
                      end
                  end
              end
        | Ok _ => Err AttributeError
        end
  end.

(** The world when the wait of iteration [retry] is over. *)
Definition after_wait (retry : Z) (w : world) : world :=
  snd (time_sleep (base_wait_time * 2 ^ retry) w).

(** The world when the first [n] waits are over. *)
Fixpoint after_waits (n : nat) (w : world) : world :=
  match n with
  | O => w
  | S m => after_wait (Z.of_nat m) (after_waits m w)
  end.

(** ** The singleton (lines 49-63 and 395-410) *)

Definition default_base_url : string := "https://openapi.koreainvestment.com:9443".

(** [not v] for what [os.getenv] returned: None and "" are falsy. *)
Definition env_missing (v : option string) : bool :=
  match v with
  | None => true
  | Some s => String.eqb s ""
  end.

(** [KISTokenManager.__init__] *)
Definition KISTokenManager_init : Py manager :=
  key <- getenv "KIS_APP_KEY" ;;
  secret <- getenv "KIS_APP_SECRET" ;;
  url <- getenv "KIS_BASE_URL" ;;
  if env_missing key || env_missing secret then raise ValueError
  else ret {| app_key := default "" key;
              app_secret := default "" secret;
              base_url := default default_base_url url |}.

(** [KISTokenManager()]: a new object, initialised. *)
Definition KISTokenManager_new : Py loc :=
  self <- KISTokenManager_init ;;
  fun w =>
    let l := fresh (dom (instances w)) in
    (Ok l, with_singleton (_token_manager w) (<[l := self]> (instances w)) w).

Definition get_token_manager : Py loc := fun w =>
  match _token_manager w with
  | None =>
      match KISTokenManager_new w with
      | (Ok l, w') => (Ok l, with_singleton (Some l) (instances w') w')
      | (Err e, w') => (Err e, w')
      end
  | Some l => (Ok l, w)
  end.

(** Between two calls the rest of the program runs: it can change the
    environment, the clock and Redis, but not the module global. *)
Definition meanwhile (env : gmap string string) (t : Z)
    (db : gmap string Redis.entry) (w : world) : world :=
  with_environ env (with_clock_redis t db w).

(** The calls that follow an earlier one, each after an interlude; the list
    of what they return. *)
Fixpoint later_calls (between : list (gmap string string * Z * gmap string Redis.entry))
    (w : world) : list (result loc) :=
  match between with
  | [] => []
  | (env, t, db) :: rest =>
      let '(r, w') := get_token_manager (meanwhile env t db w) in
      r :: later_calls rest w'
  end.

(** ** Invalidation and inspection (lines 338-392) *)

Definition invalidate_token (self : manager) : Py unit :=
  try_except
    (cache_delete TOKEN_KEY ;;;
     cache_delete TOKEN_EXPIRES_KEY)
    any_exception
    (fun _ => ret tt).

(** A byte that continues a UTF-8 sequence (10xxxxxx). *)
Definition is_continuation_byte (c : ascii) : bool :=
  let n := nat_of_ascii c in (128 <=? n)%nat && (n <? 192)%nat.

(** The number of code points of UTF-8 text. *)
Fixpoint code_points (s : string) : nat :=
  match s with
  | EmptyString => 0%nat
  | String c r => ((if is_continuation_byte c then 0 else 1) + code_points r)%nat
  end.

(** [len(v)]: numbers, booleans and None have no length. *)
Definition py_len (v : pyval) : result Z :=
  match v with
  | VStr s => Ok (Z.of_nat (code_points s))
  | VList l => Ok (Z.of_nat (length l))
  | VDict d => Ok (Z.of_nat (length d))
  | _ => Err TypeError
  end.

Section WithTimedeltaText.

Variable fromisoformat : string -> option datetime.

(** [str] of a timedelta, given as its length in microseconds. *)
Variable timedelta_str : Z -> string.

(** [str(e)] of the exceptions that carry no text of the program. *)
Variable interpreter_text : exn -> string.

(** [expires_at - datetime.now()]: an aware datetime cannot be subtracted
    from a naive one either. *)
Definition time_until (expires_at : datetime) (now : Z) : result Z :=
  match expires_at with
  | Naive t => Ok (t - now)
  | Aware _ _ => Err TypeError
  end.

Definition get_token_info (self : manager) : Py pydict :=
  try_except
    (token <- cache_get TOKEN_KEY ;;
     expires_str <- cache_get TOKEN_EXPIRES_KEY ;;
     token_length <- lift (if truthy token then py_len token else Ok 0) ;;
     let info := [("has_token", VBool (truthy token));
                  ("token_length", VInt token_length);
                  ("expires_at", expires_str);
                  ("is_valid", VBool false);
                  ("cache_available", VBool true)] in
     if truthy token && truthy expires_str then
       try_except
         (expires_at <- lift (parse_expiry fromisoformat expires_str) ;;
          now <- datetime_now ;;
          is_valid <- lift (naive_lt now expires_at) ;;
          let info := dict_set info "is_valid" (VBool is_valid) in
          time_to_expiry <- (if (is_valid : bool)
                             then remaining <- lift (time_until expires_at now) ;;
                                  ret (timedelta_str remaining)
                             else ret "expired") ;;
          ret (dict_set info "time_to_expiry" (VStr time_to_expiry)))
         value_or_type_error
         (fun _ => ret (dict_set info "expires_at" (VStr "invalid_format")))
     else ret info)
    any_exception
    (fun e => ret [("has_token", VBool false);
                   ("token_length", VInt 0);
                   ("expires_at", VNone);
                   ("is_valid", VBool false);
                   ("cache_available", VBool false);
                   ("cache_error", VStr (exn_message interpreter_text e))]).

End WithTimedeltaText.

(** *** Vocabulary for the statements about whole calls *)

(** Redis after the two [cache.set] of a granted request made at [now]: the
    token and the text of its expiry, both with timeout [expires_in]. *)
Definition token_stored (now : Z) (db : gmap string Redis.entry) (token : pyval)
    (expires_text : string) (expires_in : Z) : gmap string Redis.entry :=
  Redis.set now
    (Redis.set now db TOKEN_KEY token (Some (inject_Z expires_in)))
    TOKEN_EXPIRES_KEY (VStr expires_text) (Some (inject_Z expires_in)).

(** The world [dt] microseconds later, nothing else having happened. *)
Definition later (dt : Z) (w : world) : world :=
  with_clock_redis (clock w + dt) (redis w) w.

(** Running [m] posts the token request of [self] at most [n] times, and
    posts nothing else. *)
Definition posts_at_most {A} (self : manager) (n : nat) (m : Py A) : Prop :=
  forall w, exists k,
    (k <= n)%nat /\
    posts (snd (m w)) = posts w ++ repeat (token_post self) k.

(** The two keys the token lives under. *)
Definition is_token_key (key : string) : bool :=
  String.eqb key TOKEN_KEY || String.eqb key TOKEN_EXPIRES_KEY.

(** From [w] to [w'] no time has passed, and of Redis only the two token
    keys can have changed, and not even those if Redis was unreachable. *)
Definition wrote_token_at_most (w w' : world) : Prop :=
  clock w' = clock w /\
  redis_down w' = redis_down w /\
  slept w' = slept w /\
  (forall k, is_token_key k = false -> redis w' !! k = redis w !! k) /\
  (redis_down w (clock w) = true -> redis w' = redis w).

(** ** Sample data for the examples *)

(** A stand-in for the ISO 8601 text of an instant: its count of microseconds
    in decimal, read back as a naive datetime. *)
Definition sample_isoformat (t : Z) : string := dec_of_N (Z.to_N t).

Fixpoint read_decimal (acc : N) (s : string) : option N :=
  match s with
  | EmptyString => Some acc
  | String c r =>
      if is_decimal_digit c
      then read_decimal (acc * 10 + N.of_nat (nat_of_ascii c - 48)) r
      else None
  end.

Definition sample_fromisoformat (s : string) : option datetime :=
  match s with
  | EmptyString => None
  | _ => match read_decimal 0 s with
         | Some n => Some (Naive (Z.of_N n))
         | None => None
         end
  end.

Definition sample_manager : manager :=
  {| app_key := "key"; app_secret := "secret"; base_url := default_base_url |}.

(** 2025-01-01T00:00:00 *)
Definition sample_instant : Z := 739252 * Time.usec_per_day.

(** A world at [sample_instant] with the given Redis content and network
    answers, Redis reachable and no other process writing. *)
Definition sample_world (db : gmap string Redis.entry) (answers : list http_outcome)
    : world :=
  {| clock := sample_instant; redis := db; redis_down := fun _ => false;
     peers := fun _ d => d; slept := [];
     http_answers := fun n => nth n answers HttpConnectionError;
     posts := []; environ := ∅; _token_manager := None; instances := ∅ |}.

Definition cached (v : pyval) : Redis.entry :=
  {| Redis.value := v; Redis.deadline := None |}.

(** Redis holding a token that expires in a day. *)
Definition sample_token_db : gmap string Redis.entry :=
  <[TOKEN_KEY := cached (VStr "eyJ0eXAi")]>
    (<[TOKEN_EXPIRES_KEY :=
         cached (VStr (sample_isoformat (sample_instant + Time.usec_per_day)))]> ∅).

(** Redis holding only the refresh lock, taken a moment ago. *)
Definition sample_lock_db : gmap string Redis.entry :=
  <[TOKEN_LOCK_KEY :=
      {| Redis.value := VStr "locked";
         Redis.deadline := Some (sample_instant + 30 * Time.usec_per_sec) |}]> ∅.

(** The lock is held and the holder stores its token 5 seconds from now. *)
Definition sample_contended_world : world :=
  {| clock := sample_instant; redis := sample_lock_db; redis_down := fun _ => false;
     peers := fun t db =>
       if sample_instant + 5 * Time.usec_per_sec <=? t
       then sample_token_db else db;
     slept := []; http_answers := fun _ => HttpConnectionError;
     posts := []; environ := ∅; _token_manager := None; instances := ∅ |}.

(** The sample world with Redis unreachable. *)
Definition sample_offline_world (answers : list http_outcome) : world :=
  {| clock := sample_instant; redis := ∅; redis_down := fun _ => true;
     peers := fun _ d => d; slept := [];
     http_answers := fun n => nth n answers HttpConnectionError;
     posts := []; environ := ∅; _token_manager := None; instances := ∅ |}.

(** The lock is held, and Redis becomes unreachable a second from now. *)
Definition sample_failing_world : world :=
  {| clock := sample_instant; redis := sample_lock_db;
     redis_down := fun t => sample_instant + Time.usec_per_sec <=? t;
     peers := fun _ d => d; slept := [];
     http_answers := fun _ => HttpConnectionError;
     posts := []; environ := ∅; _token_manager := None; instances := ∅ |}.

(** A 200 answer granting a token for a day. *)
Definition sample_grant : http_outcome :=
  HttpResponse 200 (Ok (VDict [("access_token", VStr "eyJ0eXAi");
                               ("expires_in", VInt 86400)])).

(** A process started with both credentials in its environment. *)
Definition sample_configured_world : world :=
  with_environ (<["KIS_APP_KEY" := "key"]> (<["KIS_APP_SECRET" := "secret"]> ∅))
               (sample_world ∅ []).

End KIS.

(** * accounts/redis_otp.py *)

Module OTP.

Record world := {
  clock : Z;                        (* the instant, microseconds *)
  redis : gmap string Redis.entry;
  entropy : nat -> N;               (* the generator behind secrets *)
  drawn : nat                       (* how many numbers were drawn *)
}.

Definition with_clock (t : Z) (w : world) : world :=
  {| clock := t; redis := redis w; entropy := entropy w; drawn := drawn w |}.

Definition with_redis (db : gmap string Redis.entry) (w : world) : world :=
  {| clock := clock w; redis := db; entropy := entropy w; drawn := drawn w |}.

Definition with_drawn (n : nat) (w : world) : world :=
  {| clock := clock w; redis := redis w; entropy := entropy w; drawn := n |}.

Abbreviation Py := (M world).

(** Time passing between two calls. *)
Definition elapse (dt : Z) (w : world) : world := with_clock (clock w + dt) w.

(** ** Effects *)

Definition cache_get (key : string) : Py pyval := fun w =>
  (Ok (Redis.get (clock w) (redis w) key), w).

(** [cache.set(key, v, timeout=t)] with [t] None or a number of seconds. *)
Definition cache_set (key : string) (v : pyval) (timeout : option Z) : Py unit := fun w =>
  (Ok tt, with_redis (Redis.set (clock w) (redis w) key v (option_map inject_Z timeout)) w).

Definition cache_delete (key : string) : Py unit := fun w =>
  (Ok tt, with_redis (Redis.remove (redis w) key) w).

Definition cache_ttl (key : string) : Py (option Z) := fun w =>
  (Ok (Redis.ttl (clock w) (redis w) key), w).

(** [secrets.randbelow(n)] *)
Definition randbelow (n : N) : Py N := fun w =>
  (Ok (entropy w (drawn w) mod n)%N, with_drawn (S (drawn w)) w).

(** The [len] low bytes of [n], lowest first. *)
Fixpoint bytes_of_N (len : nat) (n : N) : string :=
  match len with
  | O => ""
  | S l => String (ascii_of_N (n mod 256)) (bytes_of_N l (n / 256)%N)
  end.

Definition hex_digit (n : N) : ascii :=
  if (n <? 10)%N then ascii_of_N (48 + n) else ascii_of_N (87 + n).

(** [bytes.hex()] *)
Fixpoint hex (b : string) : string :=
  match b with
  | EmptyString => ""
  | String c r =>
      let n := N_of_ascii c in
      String (hex_digit (n / 16)) (String (hex_digit (n mod 16)) (hex r))
  end.

(** [secrets.token_hex(nbytes)] *)
Definition token_hex (nbytes : nat) : Py string := fun w =>
  (Ok (hex (bytes_of_N nbytes (entropy w (drawn w)))), with_drawn (S (drawn w)) w).

(** ** Strings *)

Definition colon : ascii := ":"%char.

(** [s.split(':', 1)]: cut at the first colon, if there is one. *)
Fixpoint split_once (s : string) : list string :=
  match s with
  | EmptyString => [""]
  | String c r =>
      if Ascii.eqb c colon then [""; r]
      else match split_once r with
           | [a] => [String c a]
           | a :: rest => String c a :: rest
           | [] => []
           end
  end.

(** Text with no colon in it. *)
Fixpoint colon_free (s : string) : bool :=
  match s with
  | EmptyString => true
  | String c r => negb (Ascii.eqb c colon) && colon_free r
  end.

(** [stored_hash.split(':', 1)]: only a [str] has that method. *)
Definition py_split (v : pyval) : result (list string) :=
  match v with
  | VStr s => Ok (split_once s)
  | _ => Err AttributeError
  end.

(** [a, b = parts] *)
Definition unpack_pair (parts : list string) : result (string * string) :=
  match parts with
  | [a; b] => Ok (a, b)
  | _ => Err ValueError
  end.

Definition value_or_attribute_error (e : exn) : bool :=
  match e with ValueError | AttributeError => true | _ => false end.

(** ** Constants of the class *)

Definition PURPOSE_SIGNUP : string := "signup".
Definition PURPOSE_PASSWORD_RESET : string := "password_reset".
Definition DEFAULT_TTL_MINUTES : Z := 10.
Definition MAX_ATTEMPTS : Z := 5.

(** The messages [verify] answers with. *)
Inductive verdict :=
| RequestFirst      (* "인증번호를 먼저 요청해 주세요." *)
| Corrupted         (* "인증번호 데이터가 손상되었습니다." *)
| TooManyAttempts   (* "시도 횟수를 초과했습니다. 다시 요청해 주세요." *)
| WrongCode         (* "인증번호가 올바르지 않습니다." *)
| Verified.         (* "인증번호 검증이 완료되었습니다." *)

Definition _generate_key (email purpose : string) : string :=
  String.append "otp:" (String.append email (String.append ":" purpose)).

Section WithLibraries.

(** [hashlib.pbkdf2_hmac('sha256', password, salt, iterations)], the digest
    as a byte string. *)
Variable pbkdf2_hmac_sha256 : string -> string -> N -> string.

(** [json.dumps], and [json.loads] on a string (None: JSONDecodeError). *)
Variable json_dumps : pyval -> string.
Variable json_loads : string -> option pyval.

(** [datetime.isoformat] of an instant taken with [timezone.utc]. *)
Variable isoformat_utc : Z -> string.

Definition salted_hash (code salt : string) : string :=
  let hash_value := hex (pbkdf2_hmac_sha256 code salt 100000) in
  String.append hash_value (String.append ":" salt).

Definition _hash (code : string) : Py string :=
  salt <- token_hex 16 ;;
  ret (salted_hash code salt).

Definition _verify_hash (code : string) (stored_hash : pyval) : result bool :=
  match
    result_bind (py_split stored_hash) (fun parts =>
    result_bind (unpack_pair parts) (fun '(hash_part, salt) =>
    let computed_hash := hex (pbkdf2_hmac_sha256 code salt 100000) in
    Ok (String.eqb computed_hash hash_part)))
  with
  | Ok b => Ok b
  | Err e => if value_or_attribute_error e then Ok false else Err e
  end.

(** The dict literal of [issue]. *)
Definition otp_record (code_hash : string) (created_at : string)
    (purpose email : string) : pydict :=
  [("code_hash", VStr code_hash);
   ("attempts", VInt 0);
   ("verified", VBool false);
   ("created_at", VStr created_at);
   ("purpose", VStr purpose);
   ("email", VStr email)].

Definition issue (email purpose : string) (ttl_minutes : option Z)
    : Py (string * string) :=
  let ttl_minutes := default DEFAULT_TTL_MINUTES ttl_minutes in
  n <- randbelow 1000000 ;;
  let code := format_06d n in
  code_hash <- _hash code ;;
  fun w =>
    let otp_data := otp_record code_hash (isoformat_utc (clock w)) purpose email in
    let key := _generate_key email purpose in
    (cache_set key (VStr (json_dumps (VDict otp_data))) (Some (ttl_minutes * 60)) ;;;
     ret (json_dumps (VDict otp_data), code)) w.

(** [json.loads(cached_data)]: TypeError unless it is given text. *)
Definition py_json_loads (v : pyval) : result pyval :=
  match v with
  | VStr s => match json_loads s with
              | Some x => Ok x
              | None => Err ValueError      (* json.JSONDecodeError *)
              end
  | _ => Err TypeError
  end.

(** [v >= n] for an int [n] *)
Definition py_ge (v : pyval) (n : Z) : result bool :=
  match as_number v with
  | Ok x => Ok (Qle_bool (inject_Z n) x)
  | Err e => Err e
  end.

(** [v + 1] *)
Definition py_succ (v : pyval) : result pyval :=
  match v with
  | VInt n => Ok (VInt (n + 1))
  | VBool b => Ok (VInt ((if b then 1 else 0) + 1))
  | VFloat x => Ok (VFloat (x + 1))
  | _ => Err TypeError
  end.

(** [d[key]] *)
Definition py_item (d : pydict) (key : string) : result pyval :=
  match dict_get d key with
  | Some v => Ok v
  | None => Err KeyError
  end.

Definition verify (email purpose code : string)
    : Py (bool * verdict * option pydict) :=
  let key := _generate_key email purpose in
  cached_data <- cache_get key ;;
  if negb (truthy cached_data) then ret (false, RequestFirst, None)
  else
    match py_json_loads cached_data with
    | Err e =>
        (* except (json.JSONDecodeError, TypeError) *)
        if value_or_type_error e then ret (false, Corrupted, None) else raise e
    | Ok loaded =>
        otp_data <- lift (match loaded with
                          | VDict d => Ok d
                          | _ => Err AttributeError   (* no .get *)
                          end) ;;
        exhausted <- lift (py_ge (dict_get_default otp_data "attempts" (VInt 0))
                                 MAX_ATTEMPTS) ;;
        if (exhausted : bool) then
          cache_delete key ;;;
          ret (false, TooManyAttempts, None)
        else
          stored_hash <- lift (py_item otp_data "code_hash") ;;
          matches <- lift (_verify_hash code stored_hash) ;;
          if negb matches then
            attempts <- lift (py_item otp_data "attempts") ;;
            bumped <- lift (py_succ attempts) ;;
            let otp_data := dict_set otp_data "attempts" bumped in
            remaining <- cache_ttl key ;;
            cache_set key (VStr (json_dumps (VDict otp_data))) remaining ;;;
            ret (false, WrongCode, None)
          else
            let otp_data := dict_set otp_data "verified" (VBool true) in
            remaining <- cache_ttl key ;;
            cache_set key (VStr (json_dumps (VDict otp_data))) remaining ;;;
            ret (true, Verified, Some otp_data)
    end.

(** Successive [verify] calls for one address and purpose, each after some
    time has passed; what each one answered. *)
Fixpoint verify_each (email purpose : string) (tries : list (Z * string))
    (w : world) : list (result (bool * verdict * option pydict)) :=
  match tries with
  | [] => []
  | (dt, code) :: rest =>
      let '(r, w') := verify email purpose code (elapse dt w) in
      r :: verify_each email purpose rest w'
  end.

Definition answered_wrong (r : result (bool * verdict * option pydict)) : bool :=
  match r with
  | Ok (_, WrongCode, _) => true
  | _ => false
  end.

(** How many of the answers were "wrong code": each one is a code that was
    compared with the stored hash and rejected. *)
Definition wrong_answers (rs : list (result (bool * verdict * option pydict))) : nat :=
  length (List.filter answered_wrong rs).

(** *** Vocabulary for the statements about [issue] and [verify] *)

(** The plain code and the hash [issue] makes when called in [w]: the first
    number drawn gives the code, the second the salt. *)
Definition issued_code (w : world) : string :=
  format_06d (entropy w (drawn w) mod 1000000)%N.

Definition issued_hash (w : world) : string :=
  salted_hash (issued_code w) (hex (bytes_of_N 16 (entropy w (S (drawn w))))).

(** The record of an issued OTP after [n] failed attempts, verified or not:
    the dict literal of [issue] with those two fields updated. *)
Definition otp_state (code_hash created_at purpose email : string)
    (n : Z) (verified : bool) : pydict :=
  [("code_hash", VStr code_hash);
   ("attempts", VInt n);
   ("verified", VBool verified);
   ("created_at", VStr created_at);
   ("purpose", VStr purpose);
   ("email", VStr email)].

(** Redis has, under the key of this address and purpose, the JSON text of
    the issued record after [n] failed attempts (whether expired or not). *)
Definition tracked (code_hash created_at purpose email : string)
    (n : Z) (w : world) : Prop :=
  exists e verified,
    redis w !! _generate_key email purpose = Some e /\
    Redis.value e
    = VStr (json_dumps (VDict (otp_state code_hash created_at purpose email n verified))).

(** Redis has nothing under that key. *)
Definition gone (purpose email : string) (w : world) : Prop :=
  redis w !! _generate_key email purpose = None.

End WithLibraries.

(** ** The other methods of the class (lines 175-252)

    They are named through the class: [delete] and [exists] alone would
    take the place of the map operation and of the quantifier. *)

(** [cache.delete(key)] with its answer: whether a key was removed. *)
Definition cache_delete_found (key : string) : Py bool := fun w =>
  (Ok (match Redis.lookup (clock w) (redis w) key with
       | Some _ => true
       | None => false
       end),
   with_redis (Redis.remove (redis w) key) w).

(** [v is not None] *)
Definition is_not_none (v : pyval) : bool :=
  match v with VNone => false | _ => true end.

Module RedisOTPManager.

Section WithJSON.

Variable json_loads : string -> option pyval.

Definition get (email purpose : string) : Py pyval :=
  let key := _generate_key email purpose in
  cached_data <- cache_get key ;;
  if negb (truthy cached_data) then ret VNone
  else
    match py_json_loads json_loads cached_data with
    | Ok otp_data => ret otp_data
    | Err e =>
        (* except (json.JSONDecodeError, TypeError) *)
        if value_or_type_error e then ret VNone else raise e
    end.

End WithJSON.

Definition delete (email purpose : string) : Py bool :=
  let key := _generate_key email purpose in
  cache_delete_found key.

Definition exists_ (email purpose : string) : Py bool :=
  let key := _generate_key email purpose in
  cached_data <- cache_get key ;;
  ret (is_not_none cached_data).

Definition get_ttl (email purpose : string) : Py (option Z) :=
  let key := _generate_key email purpose in
  cache_ttl key.

Definition cleanup_expired : Py Z := ret 0.

End RedisOTPManager.

(** *** Vocabulary for the statements about several keys *)

(** Running [m] draws no random number, lets no time pass and changes no
    key of Redis other than [key]. *)
Definition writes_only {A} (key : string) (m : Py A) : Prop :=
  forall w,
    clock (snd (m w)) = clock w /\
    drawn (snd (m w)) = drawn w /\
    forall k, k <> key -> redis (snd (m w)) !! k = redis w !! k.

End OTP.

(** * Sample libraries for the examples

    Stand-ins for [json], [hashlib] and [datetime.isoformat] that compute, so
    that the statements below can be run on concrete data.  The JSON codec
    covers None, booleans, integers, text, lists and dicts, in the layout of
    [json.dumps]. *)

Module Samples.

Definition quote_char : ascii := ascii_of_nat 34.
Definition backslash : ascii := "\"%char.

Fixpoint escape (s : string) : string :=
  match s with
  | EmptyString => EmptyString
  | String c r =>
      if Ascii.eqb c quote_char || Ascii.eqb c backslash
      then String backslash (String c (escape r))
      else String c (escape r)
  end.

Definition quoted (s : string) : string :=
  String quote_char (String.append (escape s) (String quote_char "")).

Fixpoint json_dumps (v : pyval) : string :=
  match v with
  | VNone => "null"
  | VBool b => if b then "true" else "false"
  | VInt n => String.append (if n <? 0 then "-" else "") (dec_of_N (Z.to_N (Z.abs n)))
  | VFloat _ => "null"
  | VStr s => quoted s
  | VList l =>
      String.append "["
        (String.append
           ((fix items (l : list pyval) : string :=
               match l with
               | [] => ""
               | [x] => json_dumps x
               | x :: r => String.append (json_dumps x) (String.append ", " (items r))
               end) l)
           "]")
  | VDict d =>
      String.append "{"
        (String.append
           ((fix members (d : list (string * pyval)) : string :=
               match d with
               | [] => ""
               | [(k, x)] => String.append (quoted k) (String.append ": " (json_dumps x))
               | (k, x) :: r =>
                   String.append (quoted k)
                     (String.append ": "
                        (String.append (json_dumps x) (String.append ", " (members r))))
               end) d)
           "}")
  end.

Fixpoint drop_chars (n : nat) (s : string) : string :=
  match n, s with
  | S m, String _ r => drop_chars m r
  | _, _ => s
  end.

Fixpoint skip_spaces (s : string) : string :=
  match s with
  | String c r => if Ascii.eqb c " "%char then skip_spaces r else s
  | EmptyString => s
  end.

(** The text up to the closing quote, and what follows it. *)
Fixpoint read_text (s : string) : option (string * string) :=
  match s with
  | EmptyString => None
  | String c r =>
      if Ascii.eqb c quote_char then Some (EmptyString, r)
      else if Ascii.eqb c backslash then
        match r with
        | String c2 r2 =>
            match read_text r2 with
            | Some (t, rest) => Some (String c2 t, rest)
            | None => None
            end
        | EmptyString => None
        end
      else match read_text r with
           | Some (t, rest) => Some (String c t, rest)
           | None => None
           end
  end.

Fixpoint read_digits (acc : N) (s : string) : N * string :=
  match s with
  | String c r =>
      if is_decimal_digit c
      then read_digits (acc * 10 + N.of_nat (nat_of_ascii c - 48)) r
      else (acc, s)
  | EmptyString => (acc, s)
  end.

(** Items separated by commas up to [close]; [s] starts after the opening
    bracket or after a comma. *)
Fixpoint read_items {A} (item : string -> option (A * string)) (close : ascii)
    (fuel : nat) (s : string) : option (list A * string) :=
  match fuel with
  | O => None
  | S f =>
      match skip_spaces s with
      | EmptyString => None
      | String c r =>
          if Ascii.eqb c close then Some ([], r)
          else
            match item (String c r) with
            | None => None
            | Some (a, rest) =>
                match skip_spaces rest with
                | String c2 r2 =>
                    if Ascii.eqb c2 close then Some ([a], r2)
                    else if Ascii.eqb c2 ","%char then
                      match read_items item close f r2 with
                      | Some (l, rest') => Some (a :: l, rest')
                      | None => None
                      end
                    else None
                | EmptyString => None
                end
            end
      end
  end.

Fixpoint read_value (fuel : nat) (s : string) : option (pyval * string) :=
  match fuel with
  | O => None
  | S f =>
      let s := skip_spaces s in
      if is_prefix "null" s then Some (VNone, drop_chars 4 s)
      else if is_prefix "true" s then Some (VBool true, drop_chars 4 s)
      else if is_prefix "false" s then Some (VBool false, drop_chars 5 s)
      else
        match s with
        | EmptyString => None
        | String c r =>
            if Ascii.eqb c quote_char then
              match read_text r with
              | Some (t, rest) => Some (VStr t, rest)
              | None => None
              end
            else if Ascii.eqb c "["%char then
              match read_items (read_value f) "]"%char (String.length r + 1) r with
              | Some (l, rest) => Some (VList l, rest)
              | None => None
              end
            else if Ascii.eqb c "{"%char then
              let member (m : string) : option ((string * pyval) * string) :=
                match skip_spaces m with
                | String q m1 =>
                    if Ascii.eqb q quote_char then
                      match read_text m1 with
                      | Some (k, m2) =>
                          match skip_spaces m2 with
                          | String colon m3 =>
                              if Ascii.eqb colon ":"%char then
                                match read_value f m3 with
                                | Some (x, rest) => Some ((k, x), rest)
                                | None => None
                                end
                              else None
                          | EmptyString => None
                          end
                      | None => None
                      end
                    else None
                | EmptyString => None
                end in
              match read_items member "}"%char (String.length r + 1) r with
              | Some (d, rest) => Some (VDict d, rest)
              | None => None
              end
            else if Ascii.eqb c "-"%char then
              match read_digits 0 r with
              | (n, rest) => Some (VInt (- Z.of_N n), rest)
              end
            else if is_decimal_digit c then
              match read_digits 0 s with
              | (n, rest) => Some (VInt (Z.of_N n), rest)
              end
            else None
        end
  end.

Definition json_loads (s : string) : option pyval :=
  match read_value (String.length s + 1) s with
  | Some (v, rest) =>
      match skip_spaces rest with
      | EmptyString => Some v
      | _ => None
      end
  | None => None
  end.

(** Not a hash: the digest is the salt followed by the password. *)
Definition pbkdf2_hmac_sha256 (password salt : string) (iterations : N) : string :=
  String.append salt password.

(** The instant as its count of microseconds, in decimal. *)
Definition isoformat_utc (t : Z) : string := dec_of_N (Z.to_N t).

(** 2025-01-01T00:00:00 *)
Definition instant : Z := 739252 * Time.usec_per_day.

Definition otp_world : OTP.world :=
  {| OTP.clock := instant; OTP.redis := ∅;
     OTP.entropy := fun n => (123456789 + 1000003 * N.of_nat n)%N;
     OTP.drawn := 0%nat |}.

(** Redis holding, under the signup key of the sample address, JSON text
    that is not an object. *)
Definition otp_world_with_number : OTP.world :=
  {| OTP.clock := instant;
     OTP.redis := <[OTP._generate_key "user@example.com" "signup" :=
                      {| Redis.value := VStr "5"; Redis.deadline := None |}]> ∅;
     OTP.entropy := fun _ => 0%N;
     OTP.drawn := 0%nat |}.

End Samples.

(** * Properties *)

(** ** Text helpers *)

Example format_06d_small : format_06d 42 = "000042".
Proof. reflexivity. Qed.

Example format_2f_price : format_2f (22012345 # 100000) = "220.12".
Proof. vm_compute. reflexivity. Qed.

(** The float 2.675 lies below the decimal 2.675, and a negative float that
    rounds to zero keeps its sign. *)
Example format_2f_float : format_2f (2675 # 1000) = "2.67" /\ format_2f (-1 # 1000) = "-0.00".
Proof. vm_compute. split; reflexivity. Qed.

Example lower_contains : contains "too many requests" (lower "HTTP 429 Too Many Requests") = true.
Proof. reflexivity. Qed.

Lemma length_append (a b : string) :
  String.length (String.append a b) = (String.length a + String.length b)%nat.
Proof. induction a as [| c r IH]; simpl; [reflexivity | now rewrite IH]. Qed.

Lemma all_chars_append p (a b : string) :
  all_chars p (String.append a b) = all_chars p a && all_chars p b.
Proof.
  induction a as [| c r IH]; simpl; [reflexivity |].
  rewrite IH. now rewrite andb_assoc.
Qed.

Lemma digit_char_decimal d : is_decimal_digit (digit_char d) = true.
Proof.
  unfold is_decimal_digit, digit_char.
  assert (d `mod` 10 < 10)%nat as H by (apply Nat.mod_upper_bound; lia).
  rewrite nat_ascii_embedding by lia.
  apply andb_true_intro. split; apply Nat.leb_le; lia.
Qed.

Lemma digits_fixed_length width : forall n,
  String.length (digits_fixed width n) = width.
Proof.
  induction width as [| w IH]; intros n; [reflexivity |].
  cbn [digits_fixed]. rewrite length_append, IH. cbn [String.length]. lia.
Qed.

Lemma digits_fixed_decimal width : forall n,
  all_chars is_decimal_digit (digits_fixed width n) = true.
Proof.
  induction width as [| w IH]; intros n; [reflexivity |].
  cbn [digits_fixed]. rewrite all_chars_append, IH. cbn [all_chars andb].
  now rewrite digit_char_decimal.
Qed.

Lemma digits_needed_bound fuel : forall (k : nat) (n : N),
  (1 <= k)%nat -> (n < 10 ^ N.of_nat k)%N -> (digits_needed fuel n <= k)%nat.
Proof.
  induction fuel as [| f IH]; intros k n Hk Hn; cbn [digits_needed]; [lia |].
  destruct (N.ltb_spec n 10); [lia |].
  destruct k as [| k]; [lia |].
  destruct k as [| k]; [change (10 ^ N.of_nat 1)%N with 10%N in Hn; lia |].
  apply le_n_S. apply IH; [lia |].
  apply N.Div0.div_lt_upper_bound.
  replace (N.of_nat (S (S k))) with (N.succ (N.of_nat (S k))) in Hn by lia.
  now rewrite N.pow_succ_r' in Hn.
Qed.

(** A number below one million prints as exactly six decimal digits. *)
Lemma format_06d_six_digits n :
  (n < 1000000)%N ->
  String.length (format_06d n) = 6%nat /\
  all_chars is_decimal_digit (format_06d n) = true.
Proof.
  intros Hn. unfold format_06d.
  assert (digits_needed (N.to_nat (N.log2 n)) n <= 6)%nat as Hd.
  { apply digits_needed_bound; [lia | exact Hn]. }
  rewrite Nat.max_l by exact Hd.
  split; [apply digits_fixed_length | apply digits_fixed_decimal].
Qed.

Lemma decimal_value_from_append (a : string) : forall acc b,
  decimal_value_from acc (String.append a b)
  = decimal_value_from (decimal_value_from acc a) b.
Proof.
  induction a as [| c r IH]; intros acc b; simpl; [reflexivity | apply IH].
Qed.

Lemma digit_value_digit_char (d : N) :
  (d < 10)%N -> digit_value (digit_char (N.to_nat d)) = d.
Proof.
  intros Hd. unfold digit_value, digit_char.
  rewrite Nat.mod_small by lia.
  assert (H : nat_of_ascii (ascii_of_nat (48 + N.to_nat d)) = (48 + N.to_nat d)%nat)
    by (apply nat_ascii_embedding; lia).
  unfold nat_of_ascii in H. lia.
Qed.

(** The digits [digits_fixed] writes denote the number they were made of,
    up to the width. *)
Lemma decimal_value_digits_fixed width : forall n acc,
  decimal_value_from acc (digits_fixed width n)
  = (acc * 10 ^ N.of_nat width + n mod 10 ^ N.of_nat width)%N.
Proof.
  induction width as [| w IH]; intros n acc.
  - cbn [digits_fixed decimal_value_from]. change (10 ^ N.of_nat 0)%N with 1%N.
    rewrite N.mod_1_r. lia.
  - cbn [digits_fixed]. rewrite decimal_value_from_append, IH.
    cbn [decimal_value_from].
    rewrite digit_value_digit_char by (apply N.mod_lt; lia).
    replace (N.of_nat (S w)) with (N.succ (N.of_nat w)) by lia.
    rewrite N.pow_succ_r'.
    rewrite (N.Div0.mod_mul_r n 10 (10 ^ N.of_nat w)).
    lia.
Qed.

(** Read back as a number, the six digits of a number below one million are
    that number. *)
Lemma format_06d_value n :
  (n < 1000000)%N -> decimal_value (format_06d n) = n.
Proof.
  intros Hn. unfold format_06d, decimal_value.
  assert (digits_needed (N.to_nat (N.log2 n)) n <= 6)%nat as Hd.
  { apply digits_needed_bound; [lia | exact Hn]. }
  rewrite Nat.max_l by exact Hd.
  rewrite decimal_value_digits_fixed.
  change (10 ^ N.of_nat 6)%N with 1000000%N.
  rewrite N.mod_small by exact Hn. lia.
Qed.

Lemma int_of_float_integer (a : Z) : int_of_float (inject_Z a) = a.
Proof.
  unfold int_of_float. destruct (Qle_bool 0 (inject_Z a));
    [apply Qfloor_Z | apply Qceiling_Z].
Qed.

(** A whole number of seconds is that many thousand milliseconds. *)
Lemma timeout_ms_integer (a : Z) : Redis.timeout_ms (inject_Z a) = a * 1000.
Proof.
  unfold Redis.timeout_ms.
  change 1000%Q with (inject_Z 1000).
  rewrite <- inject_Z_mult. apply int_of_float_integer.
Qed.

(** ** Dicts *)

Lemma dict_get_set_eq d k v : dict_get (dict_set d k v) k = Some v.
Proof.
  induction d as [| [k' v'] r IH]; simpl.
  - now rewrite String.eqb_refl.
  - destruct (String.eqb k' k) eqn:E; simpl; rewrite E; [reflexivity | exact IH].
Qed.

Lemma dict_get_set_ne d k k' v :
  k <> k' -> dict_get (dict_set d k v) k' = dict_get d k'.
Proof.
  intros Hne. induction d as [| [k0 v0] r IH]; simpl.
  - apply String.eqb_neq in Hne. now rewrite Hne.
  - destruct (String.eqb k0 k) eqn:E; simpl.
    + apply String.eqb_eq in E. subst k0.
      apply String.eqb_neq in Hne. now rewrite Hne.
    + destruct (String.eqb k0 k'); [reflexivity | exact IH].
Qed.

Lemma Qle_bool_integers (a b : Z) : Qle_bool (inject_Z a) (inject_Z b) = (a <=? b).
Proof.
  unfold Qle_bool, inject_Z. simpl. now rewrite !Z.mul_1_r.
Qed.

(** ** The in-memory cache *)

Section CacheFacts.
Import Utils.

Lemma get_cached_data_absent symbol m s :
  _cache s !! symbol = None ->
  get_cached_data symbol m s = (Ok None, s).
Proof.
  intros H. unfold get_cached_data. now rewrite H.
Qed.

Lemma run_call_untouched symbol c s :
  touches symbol c = false ->
  _cache (run_call c s) !! symbol = _cache s !! symbol /\
  _cache_timestamps (run_call c s) !! symbol = _cache_timestamps s !! symbol.
Proof.
  destruct c as [sym m | sym d | | dt]; simpl; intros Ht; try discriminate.
  - apply String.eqb_neq in Ht.
    unfold get_cached_data.
    destruct (_cache s !! sym), (_cache_timestamps s !! sym); simpl; auto.
    destruct (Time.timedelta_minutes m); simpl; auto.
    destruct (_ <? _); simpl; auto.
    now rewrite !lookup_delete_ne.
  - apply String.eqb_neq in Ht. now rewrite !lookup_insert_ne.
  - auto.
Qed.

Lemma run_calls_untouched symbol cs : forall s,
  forallb (fun c => negb (touches symbol c)) cs = true ->
  _cache (run_calls cs s) !! symbol = _cache s !! symbol /\
  _cache_timestamps (run_calls cs s) !! symbol = _cache_timestamps s !! symbol.
Proof.
  induction cs as [| c cs IH]; intros s H; simpl in *; [auto |].
  apply andb_prop in H as [Hc Hcs]. apply negb_true_iff in Hc.
  destruct (IH (run_call c s) Hcs) as [-> ->].
  now apply run_call_untouched.
Qed.

Lemma run_call_never_stored symbol c s :
  stores symbol c = false ->
  _cache s !! symbol = None ->
  _cache (run_call c s) !! symbol = None.
Proof.
  destruct c as [sym m | sym d | | dt]; simpl; intros Hs Hnone; auto.
  - unfold get_cached_data.
    destruct (_cache s !! sym) eqn:E1, (_cache_timestamps s !! sym); simpl; auto.
    destruct (Time.timedelta_minutes m); simpl; auto.
    destruct (_ <? _); simpl; auto.
    destruct (decide (sym = symbol)) as [-> | Hne].
    + apply lookup_delete_eq.
    + now rewrite lookup_delete_ne.
  - apply String.eqb_neq in Hs. now rewrite lookup_insert_ne.
Qed.

Lemma run_calls_never_stored symbol cs : forall s,
  forallb (fun c => negb (stores symbol c)) cs = true ->
  _cache s !! symbol = None ->
  _cache (run_calls cs s) !! symbol = None.
Proof.
  induction cs as [| c cs IH]; intros s H Hnone; simpl in *; [auto |].
  apply andb_prop in H as [Hc Hcs]. apply negb_true_iff in Hc.
  apply IH; [assumption |]. now apply run_call_never_stored.
Qed.

Lemma run_call_heap c s : heap (run_call c s) = heap s.
Proof.
  destruct c as [sym m | sym d | | dt]; simpl; auto.
  unfold get_cached_data.
  destruct (_cache s !! sym), (_cache_timestamps s !! sym); simpl; auto.
  destruct (Time.timedelta_minutes m); simpl; auto.
  destruct (_ <? _); simpl; auto.
Qed.

Lemma run_calls_heap cs : forall s, heap (run_calls cs s) = heap s.
Proof.
  induction cs as [| c cs IH]; intros s; simpl; [auto |].
  rewrite IH. apply run_call_heap.
Qed.

(** The calls keep the two dictionaries on the same keys. *)
Lemma run_call_consistent c s :
  cache_consistent s -> cache_consistent (run_call c s).
Proof.
  unfold cache_consistent.
  destruct c as [sym m | sym d | | dt]; simpl; intros H; auto.
  - unfold get_cached_data.
    destruct (_cache s !! sym), (_cache_timestamps s !! sym); simpl; auto.
    destruct (Time.timedelta_minutes m); simpl; auto.
    destruct (_ <? _); simpl; auto.
    rewrite !dom_delete_L. now rewrite H.
  - rewrite !dom_insert_L. now rewrite H.
Qed.

(** C6: the TTL round trip of the in-memory cache.  After
    [set_cached_data symbol data], and whatever calls on other symbols and
    however much time follow, a lookup whose age limit is a representable
    [timedelta] returns the very object that was stored (and the objects are
    as they were) as long as the entry's age is at most the limit; once the
    age exceeds the limit the lookup returns None and removes the symbol from
    both dictionaries; and a symbol that was never stored since the cache was
    empty is answered with None. *)
Theorem get_cached_data_after_set
    (symbol : string) (data : loc) (m : Z) (s : state) (later : list cache_call) :
  let stored := snd (set_cached_data symbol data s) in
  let s1 := run_calls later stored in
  let age := clock s1 - clock s in
  (forallb (fun c => negb (touches symbol c)) later = true ->
   is_ok (Time.timedelta_minutes m) = true ->
   (age <= m * 60 * Time.usec_per_sec ->
      get_cached_data symbol m s1 = (Ok (Some data), s1) /\ heap s1 = heap s) /\
   (m * 60 * Time.usec_per_sec < age ->
      exists s2,
        get_cached_data symbol m s1 = (Ok None, s2) /\
        _cache s2 !! symbol = None /\
        _cache_timestamps s2 !! symbol = None /\
        _cache s2 = delete symbol (_cache s1) /\
        _cache_timestamps s2 = delete symbol (_cache_timestamps s1))) /\
  (forallb (fun c => negb (stores symbol c)) later = true ->
   _cache s !! symbol = None ->
   get_cached_data symbol m (run_calls later s) = (Ok None, run_calls later s)).
Proof.
  intros stored s1 age. split.
  - intros Hq Hm.
    destruct (run_calls_untouched symbol later stored Hq) as [Hc Ht].
    fold s1 in Hc, Ht. subst stored. simpl in Hc, Ht.
    rewrite lookup_insert_eq in Hc. rewrite lookup_insert_eq in Ht.
    unfold Time.timedelta_minutes, Time.timedelta_of_usec in *.
    split.
    + intros Hage. split.
      * unfold get_cached_data. rewrite Hc, Ht.
        unfold Time.timedelta_minutes, Time.timedelta_of_usec.
        destruct (_ && _); [| discriminate].
        fold age. destruct (Z.ltb_spec (m * 60 * Time.usec_per_sec) age); [lia | reflexivity].
      * subst s1. now rewrite run_calls_heap.
    + intros Hage. eexists. split; [| split; [| split]].
      * unfold get_cached_data. rewrite Hc, Ht.
        unfold Time.timedelta_minutes, Time.timedelta_of_usec.
        destruct (_ && _); [| discriminate].
        fold age. destruct (Z.ltb_spec (m * 60 * Time.usec_per_sec) age); [reflexivity | lia].
      * simpl. apply lookup_delete_eq.
      * simpl. apply lookup_delete_eq.
      * simpl. auto.
  - intros Hn Hnone. apply get_cached_data_absent.
    now apply run_calls_never_stored.
Qed.

End CacheFacts.

(** ** The token manager singleton *)

Section SingletonFacts.
Import KIS.

Lemma get_token_manager_set l w :
  _token_manager w = Some l -> get_token_manager w = (Ok l, w).
Proof. intros H. unfold get_token_manager. now rewrite H. Qed.

Lemma get_token_manager_sets_global w l w1 :
  get_token_manager w = (Ok l, w1) -> _token_manager w1 = Some l.
Proof.
  unfold get_token_manager.
  destruct (_token_manager w) as [l0 |] eqn:E.
  - intros [= <- <-]. exact E.
  - destruct (KISTokenManager_new w) as [[l' | e] w']; intros [= <- <-]; reflexivity.
Qed.

Lemma later_calls_same l between : forall w,
  _token_manager w = Some l ->
  Forall (fun r => r = Ok l) (later_calls between w).
Proof.
  induction between as [| [[env t] db] rest IH]; intros w H; simpl.
  - constructor.
  - rewrite (get_token_manager_set l) by exact H.
    constructor; [reflexivity |]. apply IH. exact H.
Qed.

(** C7: [get_token_manager] is a singleton accessor.  When the module global
    is still unset and KIS_APP_KEY or KIS_APP_SECRET is not in the
    environment, the call raises ValueError; and once a call has returned an
    instance, every later call returns that same instance, whatever the
    environment has become, creates no other instance and leaves the
    instance as it is. *)
Theorem get_token_manager_singleton (w : world) :
  (_token_manager w = None ->
   environ w !! "KIS_APP_KEY" = None \/ environ w !! "KIS_APP_SECRET" = None ->
   get_token_manager w = (Err ValueError, w)) /\
  (forall l w1,
     get_token_manager w = (Ok l, w1) ->
     (forall between, Forall (fun r => r = Ok l) (later_calls between w1)) /\
     (forall env t db,
        let w2 := meanwhile env t db w1 in
        get_token_manager w2 = (Ok l, w2) /\ instances w2 = instances w1)).
Proof.
  split.
  - intros Hnone Henv. unfold get_token_manager. rewrite Hnone.
    unfold KISTokenManager_new, KISTokenManager_init, bind, getenv.
    destruct Henv as [-> | ->]; simpl.
    + reflexivity.
    + now rewrite orb_true_r.
  - intros l w1 Hfirst.
    pose proof (get_token_manager_sets_global _ _ _ Hfirst) as Hg.
    split.
    + intros between. now apply later_calls_same.
    + intros env t db w2. split; [| reflexivity].
      apply get_token_manager_set. exact Hg.
Qed.

End SingletonFacts.

(** ** The token manager *)

Section TokenFacts.
Import KIS.

Variable fromisoformat : string -> option datetime.
Variable isoformat : Z -> string.

Lemma cached_token_usable_spec w :
  cached_token_usable fromisoformat
      (Redis.get (clock w) (redis w) TOKEN_KEY)
      (Redis.get (clock w) (redis w) TOKEN_EXPIRES_KEY) w
  = (Ok (holds_usable_token fromisoformat w), w).
Proof.
  unfold cached_token_usable, holds_usable_token.
  destruct (truthy _ && truthy _); [| reflexivity].
  unfold try_except, bind, lift, datetime_now, ret. simpl.
  destruct (parse_expiry fromisoformat _) as [[t | t off] | e] eqn:E; simpl; try reflexivity.
  unfold parse_expiry in E.
  destruct (Redis.get _ _ TOKEN_EXPIRES_KEY); try (injection E as <-; reflexivity).
  destruct (fromisoformat s); [discriminate | injection E as <-; reflexivity].
Qed.

(** Reading the cache and testing the token, as [get_token] and
    [_refresh_token] both do, changes nothing. *)
Lemma read_and_test A (k : bool -> pyval -> Py A) w :
  redis_down w (clock w) = false ->
  (token <- cache_get TOKEN_KEY ;;
   expires_str <- cache_get TOKEN_EXPIRES_KEY ;;
   usable <- cached_token_usable fromisoformat token expires_str ;;
   k usable token) w
  = k (holds_usable_token fromisoformat w)
      (Redis.get (clock w) (redis w) TOKEN_KEY) w.
Proof.
  intros Hup. unfold bind at 1. unfold cache_get at 1. rewrite Hup.
  unfold bind at 1. unfold cache_get at 1. rewrite Hup.
  unfold bind at 1. now rewrite cached_token_usable_spec.
Qed.

(** C2: [get_token] is a cache-aside read.  With Redis reachable, when the
    cache holds a (truthy) token and a (non-empty) expiry text that parses as
    a naive datetime strictly later than now, [get_token] returns that token
    and the world is as before: no request was posted and no key was written;
    and when the token or the expiry is missing or empty, the expiry does not
    parse (or parses as a datetime that cannot be compared with now), or it is
    not later than now, [get_token] is the call of [_refresh_token] (with the
    direct request as the handler of its exceptions). *)
Theorem get_token_cache_aside (self : manager) (w : world) :
  redis_down w (clock w) = false ->
  let token := Redis.get (clock w) (redis w) TOKEN_KEY in
  let expires_str := Redis.get (clock w) (redis w) TOKEN_EXPIRES_KEY in
  (forall text t,
     truthy token = true ->
     expires_str = VStr text -> text <> "" ->
     fromisoformat text = Some (Naive t) ->
     clock w < t ->
     get_token fromisoformat isoformat self w = (Ok token, w)) /\
  (truthy token = false \/
   truthy expires_str = false \/
   (exists e, parse_expiry fromisoformat expires_str = Err e) \/
   (exists t off, parse_expiry fromisoformat expires_str = Ok (Aware t off)) \/
   (exists t, parse_expiry fromisoformat expires_str = Ok (Naive t) /\ t <= clock w) ->
   get_token fromisoformat isoformat self w
   = try_except (_refresh_token fromisoformat isoformat self) any_exception
       (fun _ => _request_new_token_direct isoformat self) w).
Proof.
  intros Hup token expires_str. split.
  - intros text t Htok Hexp Hne Hparse Hlt.
    unfold get_token, try_except.
    rewrite read_and_test by exact Hup.
    assert (holds_usable_token fromisoformat w = true) as ->; [| reflexivity].
    unfold holds_usable_token. fold token expires_str.
    rewrite Htok, Hexp. simpl. rewrite Hparse.
    apply String.eqb_neq in Hne. rewrite Hne. simpl. lia.
  - intros Hbad.
    unfold get_token, try_except.
    rewrite read_and_test by exact Hup.
    assert (holds_usable_token fromisoformat w = false) as ->; [| reflexivity].
    unfold holds_usable_token. fold token expires_str.
    destruct Hbad as [-> | [-> | [[e ->] | [(t & off & ->) | (t & -> & Hle)]]]];
      rewrite ?andb_false_r; try reflexivity.
    apply andb_false_intro2. lia.
Qed.

Lemma after_waits_fixed n w :
  redis_down (after_waits n w) = redis_down w /\
  posts (after_waits n w) = posts w /\
  http_answers (after_waits n w) = http_answers w.
Proof.
  induction n as [| n IH]; simpl; [auto |].
  unfold after_wait, time_sleep. simpl. exact IH.
Qed.

Lemma after_waits_slept n w :
  slept (after_waits n w)
  = slept w ++ map (fun i => base_wait_time * 2 ^ Z.of_nat i) (seq 0 n).
Proof.
  induction n as [| n IH].
  - simpl. now rewrite app_nil_r.
  - rewrite seq_S, map_app, app_assoc, <- IH. reflexivity.
Qed.

Lemma wait_step k rest w :
  redis_down w (clock (after_waits (S k) w)) = false ->
  wait_for_refresh fromisoformat (Z.of_nat k :: rest) (after_waits k w)
  = if holds_usable_token fromisoformat (after_waits (S k) w)
    then (Ok (Some (Redis.get (clock (after_waits (S k) w))
                              (redis (after_waits (S k) w)) TOKEN_KEY)),
          after_waits (S k) w)
    else wait_for_refresh fromisoformat rest (after_waits (S k) w).
Proof.
  intros Hup. cbn [wait_for_refresh].
  unfold bind at 1. unfold time_sleep at 1.
  change (with_clock_redis _ _ _) with (after_waits (S k) w).
  rewrite read_and_test.
  - destruct (holds_usable_token _ _); reflexivity.
  - destruct (after_waits_fixed (S k) w) as [-> _]. exact Hup.
Qed.

(** No iteration from [k] on finds a usable token: the loop runs out. *)
Lemma wait_for_refresh_miss n : forall k w,
  (forall j, (k <= j < k + n)%nat ->
     redis_down w (clock (after_waits (S j) w)) = false /\
     holds_usable_token fromisoformat (after_waits (S j) w) = false) ->
  wait_for_refresh fromisoformat (map Z.of_nat (seq k n)) (after_waits k w)
  = (Ok None, after_waits (k + n) w).
Proof.
  induction n as [| n IH]; intros k w H.
  - simpl. now rewrite Nat.add_0_r.
  - cbn [seq map]. destruct (H k ltac:(lia)) as [Hup Hmiss].
    rewrite wait_step by exact Hup. rewrite Hmiss.
    rewrite IH.
    + f_equal. f_equal. lia.
    + intros j Hj. apply H. lia.
Qed.

(** Iteration [m] is the first to find a usable token: the loop stops there. *)
Lemma wait_for_refresh_hit n : forall k m w,
  (k <= m < k + n)%nat ->
  (forall j, (k <= j < m)%nat ->
     redis_down w (clock (after_waits (S j) w)) = false /\
     holds_usable_token fromisoformat (after_waits (S j) w) = false) ->
  redis_down w (clock (after_waits (S m) w)) = false ->
  holds_usable_token fromisoformat (after_waits (S m) w) = true ->
  wait_for_refresh fromisoformat (map Z.of_nat (seq k n)) (after_waits k w)
  = (Ok (Some (Redis.get (clock (after_waits (S m) w))
                         (redis (after_waits (S m) w)) TOKEN_KEY)),
     after_waits (S m) w).
Proof.
  induction n as [| n IH]; intros k m w Hm Hbefore Hup Hhit; [lia |].
  cbn [seq map]. destruct (decide (m = k)) as [-> | Hne].
  - rewrite wait_step by exact Hup. now rewrite Hhit.
  - destruct (Hbefore k ltac:(lia)) as [Hupk Hmiss].
    rewrite wait_step by exact Hupk. rewrite Hmiss.
    apply IH; auto; try lia. intros j Hj. apply Hbefore. lia.
Qed.

(** With the lock held by someone else, [cache.add] answers False and stores
    nothing. *)
Lemma cache_add_refused key v timeout w :
  redis_down w (clock w) = false ->
  Redis.lookup (clock w) (redis w) key <> None ->
  cache_add key v timeout w = (Ok false, w).
Proof.
  intros Hup Hheld. unfold cache_add, Redis.add. rewrite Hup.
  destruct (Redis.lookup _ _ _); [| congruence].
  destruct w; reflexivity.
Qed.

(** C1: [_refresh_token] when the distributed lock is taken.  Redis being
    reachable and TOKEN_LOCK_KEY being held, the function waits 2, 4, 8, 16
    and 32 seconds (2 * 2^k for k = 0..4), reads the cache after each wait,
    and returns the cached token after the first wait that finds the cache
    holding a usable token, having slept exactly the waits up to that one and
    posted nothing; when none of the five waits finds one it has slept
    2, 4, 8, 16, 32 and calls [_request_new_token_direct] (once more if that
    call raises, through the handler of the enclosing try). *)
Theorem refresh_token_backoff (self : manager) (w : world) :
  (forall n, (n <= 5)%nat -> redis_down w (clock (after_waits n w)) = false) ->
  Redis.lookup (clock w) (redis w) TOKEN_LOCK_KEY <> None ->
  (forall k, (k < 5)%nat ->
     (forall j, (j < k)%nat ->
        holds_usable_token fromisoformat (after_waits (S j) w) = false) ->
     holds_usable_token fromisoformat (after_waits (S k) w) = true ->
     let w' := after_waits (S k) w in
     _refresh_token fromisoformat isoformat self w
     = (Ok (Redis.get (clock w') (redis w') TOKEN_KEY), w') /\
     slept w' = slept w ++ map (fun i => 2 * 2 ^ Z.of_nat i) (seq 0 (S k)) /\
     posts w' = posts w) /\
  ((forall j, (j < 5)%nat ->
      holds_usable_token fromisoformat (after_waits (S j) w) = false) ->
   let w' := after_waits 5 w in
   _refresh_token fromisoformat isoformat self w
   = try_except (_request_new_token_direct isoformat self) any_exception
       (fun _ => _request_new_token_direct isoformat self) w' /\
   slept w' = slept w ++ [2; 4; 8; 16; 32] /\
   posts w' = posts w).
Proof.
  intros Hup Hheld.
  assert (Hadd : cache_add TOKEN_LOCK_KEY (VStr "locked") LOCK_TIMEOUT w = (Ok false, w)).
  { apply cache_add_refused; [apply (Hup 0%nat); lia | exact Hheld]. }
  change (seqZ 0 max_retries) with (map Z.of_nat (seq 0 5)).
  split.
  - intros k Hk Hbefore Hhit w'. split; [| split].
    + unfold _refresh_token, try_except. unfold bind at 1. rewrite Hadd.
      cbn [negb]. unfold bind at 1.
      change (seqZ 0 max_retries) with (map Z.of_nat (seq 0 5)).
      change w with (after_waits 0 w) at 1.
      assert (Hb : forall j, (0 <= j < k)%nat ->
                redis_down w (clock (after_waits (S j) w)) = false /\
                holds_usable_token fromisoformat (after_waits (S j) w) = false).
      { intros j Hj. split; [apply Hup; lia | apply Hbefore; lia]. }
      rewrite (wait_for_refresh_hit 5 0 k w ltac:(lia) Hb (Hup (S k) ltac:(lia)) Hhit).
      reflexivity.
    + apply after_waits_slept.
    + apply after_waits_fixed.
  - intros Hmiss w'. split; [| split].
    + unfold _refresh_token. unfold try_except at 1. unfold bind at 1. rewrite Hadd.
      cbn [negb]. unfold bind at 1.
      change (seqZ 0 max_retries) with (map Z.of_nat (seq 0 5)).
      change w with (after_waits 0 w) at 1.
      rewrite (wait_for_refresh_miss 5 0 w).
      * change (after_waits (0 + 5) w) with w'.
        unfold try_except.
        destruct (_request_new_token_direct isoformat self w') as [[tok | e] w''];
          reflexivity.
      * intros j Hj. split; [apply Hup; lia | apply Hmiss; lia].
    + apply (after_waits_slept 5 w).
    + apply after_waits_fixed.
Qed.

(** Writing to the cache inside [try ... except Exception: (log)] always
    completes, and touches neither the clock nor the list of posts. *)
Lemma cache_set_fixed key v timeout w :
  clock (snd (cache_set key v timeout w)) = clock w /\
  posts (snd (cache_set key v timeout w)) = posts w /\
  redis_down (snd (cache_set key v timeout w)) = redis_down w.
Proof.
  unfold cache_set. destruct (redis_down w (clock w)); [auto |].
  destruct timeout; simpl; auto; destruct (as_number _); simpl; auto.
Qed.

Lemma best_effort_caching token expires_in text w :
  exists w',
    try_except
      (cache_set TOKEN_KEY token expires_in ;;;
       cache_set TOKEN_EXPIRES_KEY (VStr text) expires_in)
      any_exception (fun _ => ret tt) w = (Ok tt, w') /\
    posts w' = posts w.
Proof.
  unfold try_except, bind.
  destruct (cache_set_fixed TOKEN_KEY token expires_in w) as (_ & Hp1 & _).
  destruct (cache_set TOKEN_KEY token expires_in w) as [[[] | e] w1]; simpl in *.
  - destruct (cache_set_fixed TOKEN_EXPIRES_KEY (VStr text) expires_in w1) as (_ & Hp2 & _).
    destruct (cache_set TOKEN_EXPIRES_KEY (VStr text) expires_in w1) as [[[] | e] w2];
      simpl in *; eexists; split; try reflexivity; congruence.
  - eexists; split; [reflexivity | assumption].
Qed.

Lemma request_and_cache_posts self w :
  posts (snd (request_and_cache isoformat self w)) = posts w ++ [token_post self].
Proof.
  unfold request_and_cache, bind at 1. unfold requests_post.
  destruct (http_answers w _) as [| | msg | status body]; try reflexivity.
  unfold bind at 1. unfold raise_for_status.
  destruct (_ && _); [reflexivity |]. unfold ret at 1.
  unfold bind at 1. unfold lift at 1. cbn [snd].
  destruct body as [v | e]; [| reflexivity].
  unfold bind at 1. unfold lift at 1.
  destruct (py_get v _ _) as [token | e]; [| reflexivity].
  destruct (negb (truthy token)); [reflexivity |].
  unfold bind at 1. unfold lift at 1.
  destruct (py_get v _ _) as [expires_in | e]; [| reflexivity].
  unfold bind at 1. unfold datetime_now at 1.
  unfold bind at 1. unfold lift at 1.
  destruct (as_number expires_in) as [x | e]; [| reflexivity].
  unfold bind at 1. unfold lift at 1.
  destruct (Time.timedelta_seconds _) as [delta | e]; [| reflexivity].
  unfold bind at 1. unfold lift at 1.
  destruct (Time.datetime_add _ _) as [t | e]; [| reflexivity].
  unfold bind at 1.
  match goal with |- context [try_except ?m _ _ ?w0] =>
    destruct (best_effort_caching token expires_in (isoformat t) w0) as (w' & -> & Hp)
  end.
  unfold ret. simpl. exact Hp.
Qed.

Lemma request_and_cache_result self w :
  fst (request_and_cache isoformat self w)
  = token_outcome (clock w) (http_answers w (length (posts w))).
Proof.
  unfold request_and_cache, token_outcome, bind at 1. unfold requests_post.
  destruct (http_answers w _) as [| | msg | status body]; try reflexivity.
  unfold bind at 1. unfold raise_for_status.
  destruct (_ && _); [reflexivity |]. unfold ret at 1.
  unfold bind at 1. unfold lift at 1. cbn [snd].
  destruct body as [v | e]; [| reflexivity].
  unfold bind at 1. unfold lift at 1.
  destruct v as [| b | n | x | s | l | d]; try reflexivity.
  cbn [py_get].
  destruct (negb (truthy _)); [reflexivity |].
  unfold bind at 1. unfold lift at 1.
  unfold bind at 1. unfold datetime_now at 1.
  unfold bind at 1. unfold lift at 1.
  destruct (as_number _) as [x | e]; [| reflexivity].
  unfold bind at 1. unfold lift at 1.
  destruct (Time.timedelta_seconds _) as [delta | e]; [| reflexivity].
  unfold bind at 1. unfold lift at 1. cbn [clock with_posts].
  destruct (Time.datetime_add _ _) as [t | e]; [| reflexivity].
  unfold bind at 1.
  match goal with |- context [try_except ?m _ _ ?w0] =>
    match goal with |- context [cache_set TOKEN_KEY ?tok ?ex] =>
      destruct (best_effort_caching tok ex (isoformat t) w0) as (w' & -> & Hp)
    end
  end.
  reflexivity.
Qed.

Lemma request_new_token_result self w :
  fst (_request_new_token isoformat self w)
  = match token_outcome (clock w) (http_answers w (length (posts w))) with
    | Ok token => Ok token
    | Err e => Err (as_token_error e)
    end.
Proof.
  unfold _request_new_token, try_except.
  rewrite <- (request_and_cache_result self w).
  destruct (request_and_cache isoformat self w) as [[token | e] w']; reflexivity.
Qed.

Lemma token_outcome_grants now answer token :
  token_outcome now answer = Ok token <-> grants now answer token.
Proof.
  unfold token_outcome, grants. split.
  - destruct answer as [| | msg | status body]; try discriminate.
    destruct ((400 <=? status) && (status <? 600)) eqn:Hst; [discriminate |].
    destruct body as [[| b | n | x | s | l | d] | e]; try discriminate.
    destruct (truthy _) eqn:Htruthy; [| discriminate]. cbn [negb].
    destruct (as_number _) as [x | e] eqn:Hx; [| discriminate].
    destruct (Time.timedelta_seconds _) as [delta | e] eqn:Hd; [| discriminate].
    destruct (Time.datetime_add _ _) as [t | e] eqn:Ht; [| discriminate].
    intros [= <-]. exists status, d, x, delta, t.
    repeat split; auto. apply andb_false_iff in Hst. lia.
  - intros (status & d & x & delta & t & -> & Hst & -> & Htruthy & Hx & Hd & Ht).
    assert ((400 <=? status) && (status <? 600) = false) as ->.
    { apply andb_false_iff. lia. }
    now rewrite Htruthy, Hx, Hd, Ht.
Qed.

(** C5, as the code has it: [_request_new_token] posts the client-credentials
    request to /oauth2/tokenP exactly once.  It returns the token if and only
    if the answer has no error status, its JSON body is an object with a
    truthy access_token, and the expiry can be computed (expires_in, 86400
    when absent, is a number and now + expires_in - 300 seconds is a
    datetime); whether the cache accepts the token plays no part.  In every
    other case it raises KISTokenError, with the timeout, connection, 403 and
    429 messages for those four failures. *)
Theorem request_new_token_outcome (self : manager) (w : world) :
  let answer := http_answers w (length (posts w)) in
  let r := _request_new_token isoformat self w in
  posts (snd r) = posts w ++ [token_post self] /\
  (forall token, fst r = Ok token <-> grants (clock w) answer token) /\
  (forall e, fst r = Err e -> exists m, e = KISTokenError m) /\
  (answer = HttpTimeout -> fst r = Err (KISTokenError MsgTimeout)) /\
  (answer = HttpConnectionError -> fst r = Err (KISTokenError MsgConnection)) /\
  (forall body, answer = HttpResponse 403 body ->
     fst r = Err (KISTokenError MsgForbidden)) /\
  (forall body, answer = HttpResponse 429 body ->
     fst r = Err (KISTokenError MsgTooMany)).
Proof.
  intros answer r. subst r. rewrite (request_new_token_result self w). fold answer.
  split; [| split; [| split; [| split; [| split; [| split]]]]].
  - unfold _request_new_token, try_except.
    pose proof (request_and_cache_posts self w) as Hp.
    destruct (request_and_cache isoformat self w) as [[token | e] w']; exact Hp.
  - intros token. rewrite <- token_outcome_grants.
    destruct (token_outcome _ _); split; congruence.
  - intros e. destruct (token_outcome _ _) as [token | e0]; [discriminate |].
    intros [= <-]. unfold as_token_error.
    destruct e0; eauto. destruct (_ =? 403); eauto. destruct (_ =? 429); eauto.
  - intros ->. reflexivity.
  - intros ->. reflexivity.
  - intros body ->. reflexivity.
  - intros body ->. reflexivity.
Qed.

(** C5 as stated fails: a 200 answer whose body has a non-empty access_token
    and a textual expires_in ("86400") makes [expires_in - 300] a TypeError,
    which the last [except] clause turns into KISTokenError. *)
Lemma request_new_token_text_expiry :
  let answer :=
    HttpResponse 200 (Ok (VDict [("access_token", VStr "eyJ0eXAi");
                                 ("expires_in", VStr "86400")])) in
  let w := sample_world ∅ [answer] in
  answers_with_token (http_answers w (length (posts w))) (VStr "eyJ0eXAi") /\
  fst (_request_new_token sample_isoformat sample_manager w)
  = Err (KISTokenError (MsgUnexpected TypeError)).
Proof.
  split.
  - exists 200, [("access_token", VStr "eyJ0eXAi"); ("expires_in", VStr "86400")].
    repeat split. lia.
  - reflexivity.
Qed.

End TokenFacts.

(** ** The OTP manager *)

Section OTPFacts.
Import OTP.

Variable pbkdf2_hmac_sha256 : string -> string -> N -> string.
Variable json_dumps : pyval -> string.
Variable json_loads : string -> option pyval.
Variable isoformat_utc : Z -> string.

(** *** Hex text has no colon, so the stored hash splits where it was joined *)

Lemma hex_digit_not_colon n : (n < 16)%N -> Ascii.eqb (hex_digit n) colon = false.
Proof.
  intros Hn. apply Ascii.eqb_neq. intros Heq.
  apply (f_equal N_of_ascii) in Heq. unfold hex_digit in Heq.
  destruct (N.ltb_spec n 10);
    rewrite N_ascii_embedding in Heq by lia; cbn in Heq; lia.
Qed.

Lemma hex_colon_free b : colon_free (hex b) = true.
Proof.
  induction b as [| c r IH]; [reflexivity |].
  cbn [hex colon_free].
  pose proof (N_ascii_bounded c) as Hc.
  rewrite !hex_digit_not_colon; [exact IH | |].
  - apply N.mod_lt. lia.
  - apply N.Div0.div_lt_upper_bound. lia.
Qed.

Lemma split_once_joined a b :
  colon_free a = true ->
  split_once (String.append a (String.append ":" b)) = [a; b].
Proof.
  induction a as [| c r IH]; intros Hfree.
  - reflexivity.
  - cbn [colon_free] in Hfree. apply andb_prop in Hfree as [Hc Hr].
    apply negb_true_iff in Hc. simpl. rewrite Hc.
    specialize (IH Hr). simpl in IH. now rewrite IH.
Qed.

Lemma split_once_colon_free s : colon_free s = true -> split_once s = [s].
Proof.
  induction s as [| c r IH]; intros Hfree; [reflexivity |].
  cbn [colon_free] in Hfree. apply andb_prop in Hfree as [Hc Hr].
  apply negb_true_iff in Hc. cbn [split_once]. rewrite Hc. now rewrite (IH Hr).
Qed.

Lemma verify_salted_hash code salt :
  _verify_hash pbkdf2_hmac_sha256 code (VStr (salted_hash pbkdf2_hmac_sha256 code salt))
  = Ok true.
Proof.
  unfold _verify_hash, salted_hash, py_split, result_bind.
  rewrite split_once_joined by apply hex_colon_free.
  cbn [unpack_pair]. now rewrite String.eqb_refl.
Qed.

(** C9: the hashing pair.  Whatever salt [_hash] draws, [_verify_hash] accepts
    the code against the hash [_hash] made of it; and [_verify_hash] returns a
    boolean on every stored value and never raises: a value that is not text,
    or text without a colon, gives False. *)
Theorem verify_hash_roundtrip_total (code : string) :
  (forall w, exists h w',
     _hash pbkdf2_hmac_sha256 code w = (Ok h, w') /\
     _verify_hash pbkdf2_hmac_sha256 code (VStr h) = Ok true) /\
  (forall salt,
     _verify_hash pbkdf2_hmac_sha256 code
       (VStr (salted_hash pbkdf2_hmac_sha256 code salt)) = Ok true) /\
  (forall stored_hash, exists b,
     _verify_hash pbkdf2_hmac_sha256 code stored_hash = Ok b) /\
  (forall stored_hash,
     (forall s, stored_hash <> VStr s) ->
     _verify_hash pbkdf2_hmac_sha256 code stored_hash = Ok false) /\
  (forall s,
     colon_free s = true ->
     _verify_hash pbkdf2_hmac_sha256 code (VStr s) = Ok false).
Proof.
  split; [| split; [| split; [| split]]].
  - intros w. unfold _hash, bind, token_hex, ret. do 2 eexists. split; [reflexivity |].
    apply verify_salted_hash.
  - apply verify_salted_hash.
  - intros stored_hash. unfold _verify_hash, py_split, result_bind.
    destruct stored_hash; try (now exists false).
    destruct (split_once s) as [| a [| b [| c rest]]]; cbn [unpack_pair];
      try (now exists false).
    eexists. reflexivity.
  - intros stored_hash Hnot. unfold _verify_hash, py_split, result_bind.
    destruct stored_hash; try reflexivity. now destruct (Hnot s).
  - intros s Hfree. unfold _verify_hash, py_split, result_bind.
    now rewrite split_once_colon_free.
Qed.

Lemma issue_run email purpose ttl_minutes w :
  let text := json_dumps (VDict (otp_record (issued_hash pbkdf2_hmac_sha256 w)
                                   (isoformat_utc (clock w)) purpose email)) in
  issue pbkdf2_hmac_sha256 json_dumps isoformat_utc email purpose ttl_minutes w
  = (Ok (text, issued_code w),
     with_redis (Redis.set (clock w) (redis w) (_generate_key email purpose) (VStr text)
                   (Some (inject_Z (default 10 ttl_minutes * 60))))
       (with_drawn (S (S (drawn w))) w)).
Proof. reflexivity. Qed.

(** C4: [issue] stores every OTP in Redis with a TTL.  The plain code is the
    number drawn below 1_000_000 written as six zero-padded decimal digits:
    it has six characters, all decimal digits, and read as a decimal number
    it is the number drawn.  The value passed to [cache.set] under
    "otp:{email}:{purpose}" is the JSON text of a dict with the fields
    code_hash, attempts, verified, created_at, purpose and email in that
    order, where code_hash holds a hash that [_verify_hash] accepts for the
    plain code, attempts is 0, verified False, created_at the text of the
    instant of the call; the timeout is ttl_minutes * 60 seconds, ttl_minutes
    being 10 when not given; for a positive ttl_minutes the key then holds
    that text until that many seconds from now; and the call returns that
    same text with the plain code. *)
Theorem issue_stores_otp (email purpose : string) (ttl_minutes : option Z) (w : world) :
  let ttl := default 10 ttl_minutes in
  let key := String.append "otp:" (String.append email (String.append ":" purpose)) in
  let number := (entropy w (drawn w) mod 1000000)%N in
  exists code code_hash w',
    let record := otp_record code_hash (isoformat_utc (clock w)) purpose email in
    let text := json_dumps (VDict record) in
    issue pbkdf2_hmac_sha256 json_dumps isoformat_utc email purpose ttl_minutes w
    = (Ok (text, code), w') /\
    code = format_06d number /\
    code_hash = issued_hash pbkdf2_hmac_sha256 w /\
    (number < 1000000)%N /\
    String.length code = 6%nat /\
    all_chars is_decimal_digit code = true /\
    decimal_value code = number /\
    dict_get record "code_hash" = Some (VStr code_hash) /\
    _verify_hash pbkdf2_hmac_sha256 code (VStr code_hash) = Ok true /\
    result_bind (py_item record "code_hash") (_verify_hash pbkdf2_hmac_sha256 code)
    = Ok true /\
    dict_get record "attempts" = Some (VInt 0) /\
    dict_get record "verified" = Some (VBool false) /\
    dict_get record "created_at" = Some (VStr (isoformat_utc (clock w))) /\
    dict_get record "purpose" = Some (VStr purpose) /\
    dict_get record "email" = Some (VStr email) /\
    map fst record = ["code_hash"; "attempts"; "verified"; "created_at"; "purpose"; "email"] /\
    redis w' = Redis.set (clock w) (redis w) key (VStr text) (Some (inject_Z (ttl * 60))) /\
    clock w' = clock w /\
    (0 < ttl ->
     redis w' !! key
     = Some {| Redis.value := VStr text;
               Redis.deadline := Some (clock w + ttl * 60 * Time.usec_per_sec) |}).
Proof.
  intros ttl key number.
  assert (Hbelow : (number < 1000000)%N) by (apply N.mod_lt; lia).
  destruct (format_06d_six_digits number Hbelow) as [Hlen Hdigits].
  pose proof (format_06d_value number Hbelow) as Hvalue.
  set (code := format_06d number) in *.
  set (code_hash := salted_hash pbkdf2_hmac_sha256 code
                      (hex (bytes_of_N 16 (entropy w (S (drawn w)))))).
  set (text := json_dumps (VDict (otp_record code_hash (isoformat_utc (clock w))
                                    purpose email))).
  exists code, code_hash,
    (with_redis (Redis.set (clock w) (redis w) key (VStr text)
                   (Some (inject_Z (ttl * 60))))
       (with_drawn (S (S (drawn w))) w)).
  cbn zeta. fold text.
  split; [reflexivity |].
  split; [reflexivity |].
  split; [reflexivity |].
  split; [exact Hbelow |].
  split; [exact Hlen |].
  split; [exact Hdigits |].
  split; [exact Hvalue |].
  split; [reflexivity |].
  split; [apply verify_salted_hash |].
  split; [cbn [py_item dict_get otp_record result_bind]; apply verify_salted_hash |].
  do 6 (split; [reflexivity |]).
  split; [reflexivity |].
  split; [reflexivity |].
  intros Hpos. cbn [redis with_redis]. unfold Redis.set.
  rewrite timeout_ms_integer.
  destruct (Z.leb_spec (ttl * 60 * 1000) 0); [lia |].
  rewrite lookup_insert_eq. do 3 f_equal. unfold Time.usec_per_sec. lia.
Qed.

(** *** One call of [verify] on a stored record *)

Lemma verify_hash_total code stored_hash :
  exists b, _verify_hash pbkdf2_hmac_sha256 code stored_hash = Ok b.
Proof.
  unfold _verify_hash, py_split, result_bind.
  destruct stored_hash; try (now exists false).
  destruct (split_once s) as [| a [| b [| c rest]]]; cbn [unpack_pair];
    try (now exists false).
  eexists. reflexivity.
Qed.

Lemma verify_nothing_cached email purpose code w :
  truthy (Redis.get (clock w) (redis w) (_generate_key email purpose)) = false ->
  verify pbkdf2_hmac_sha256 json_dumps json_loads email purpose code w
  = (Ok (false, RequestFirst, None), w).
Proof.
  intros H. unfold verify, bind, cache_get. now rewrite H.
Qed.

Lemma verify_on_record email purpose code w text d n h :
  let key := _generate_key email purpose in
  Redis.get (clock w) (redis w) key = VStr text ->
  text <> "" ->
  json_loads text = Some (VDict d) ->
  dict_get d "attempts" = Some (VInt n) ->
  dict_get d "code_hash" = Some h ->
  verify pbkdf2_hmac_sha256 json_dumps json_loads email purpose code w
  = if 5 <=? n
    then (Ok (false, TooManyAttempts, None), with_redis (delete key (redis w)) w)
    else
      let remaining := option_map inject_Z (Redis.ttl (clock w) (redis w) key) in
      match _verify_hash pbkdf2_hmac_sha256 code h with
      | Ok false =>
          let d' := dict_set d "attempts" (VInt (n + 1)) in
          (Ok (false, WrongCode, None),
           with_redis (Redis.set (clock w) (redis w) key
                         (VStr (json_dumps (VDict d'))) remaining) w)
      | Ok true =>
          let d' := dict_set d "verified" (VBool true) in
          (Ok (true, Verified, Some d'),
           with_redis (Redis.set (clock w) (redis w) key
                         (VStr (json_dumps (VDict d'))) remaining) w)
      | Err e => (Err e, w)
      end.
Proof.
  intros key Hget Hne Hloads Hattempts Hhash.
  unfold verify, bind at 1. unfold cache_get at 1. fold key. rewrite Hget.
  cbn [truthy]. apply String.eqb_neq in Hne. rewrite Hne. cbn [negb].
  cbn [py_json_loads]. rewrite Hloads.
  unfold bind at 1. unfold lift at 1.
  unfold bind at 1. unfold lift at 1.
  unfold dict_get_default. rewrite Hattempts.
  unfold py_ge, as_number, MAX_ATTEMPTS. rewrite Qle_bool_integers.
  destruct (5 <=? n).
  - reflexivity.
  - unfold bind at 1. unfold lift at 1. unfold py_item. rewrite Hhash.
    unfold bind at 1. unfold lift at 1.
    destruct (_verify_hash pbkdf2_hmac_sha256 code h) as [[|] | e]; [| | reflexivity].
    + reflexivity.
    + cbn [negb]. unfold bind at 1. unfold lift at 1. rewrite Hattempts.
      reflexivity.
Qed.

(** *** Many calls of [verify] against one issued OTP *)

Section OneIssuedOTP.

Variables code_hash created_at purpose email : string.

(** [json.loads] reads back what [json.dumps] wrote, on the records of this
    OTP. *)
Hypothesis loads_dumps : forall n verified,
  0 <= n <= 5 ->
  json_loads (json_dumps (VDict (otp_state code_hash created_at purpose email n verified)))
  = Some (VDict (otp_state code_hash created_at purpose email n verified)).

Let key := _generate_key email purpose.
Let is_tracked := tracked json_dumps code_hash created_at purpose email.
Let is_gone := gone purpose email.

Lemma set_tracked_or_gone n verified w timeout :
  let w' := with_redis
              (Redis.set (clock w) (redis w) key
                 (VStr (json_dumps (VDict (otp_state code_hash created_at purpose
                                             email n verified))))
                 timeout) w in
  is_tracked n w' \/ is_gone w'.
Proof.
  intros w'. subst w'. unfold is_tracked, is_gone, tracked, gone, Redis.set.
  fold key. cbn [redis with_redis].
  destruct timeout as [t |].
  - destruct (Redis.timeout_ms t <=? 0).
    + right. apply lookup_delete_eq.
    + left. do 2 eexists. rewrite lookup_insert_eq. split; reflexivity.
  - left. do 2 eexists. rewrite lookup_insert_eq. split; reflexivity.
Qed.

Lemma verify_gone w dt code :
  is_gone w ->
  verify pbkdf2_hmac_sha256 json_dumps json_loads email purpose code (elapse dt w)
  = (Ok (false, RequestFirst, None), elapse dt w).
Proof.
  intros Hgone. apply verify_nothing_cached.
  unfold Redis.get, Redis.lookup. cbn [redis elapse with_clock].
  unfold is_gone, gone in Hgone. now rewrite Hgone.
Qed.

(** One more call: either it does not answer "wrong code" and the count of
    failed attempts stays, or it does, the count was below 5 and is now one
    more; in both cases the key may also have gone. *)
Lemma verify_step n w dt code :
  0 <= n <= 5 ->
  is_tracked n w ->
  exists r w',
    verify pbkdf2_hmac_sha256 json_dumps json_loads email purpose code (elapse dt w)
    = (r, w') /\
    ((answered_wrong r = false /\ (is_tracked n w' \/ is_gone w')) \/
     (answered_wrong r = true /\ n < 5 /\ (is_tracked (n + 1) w' \/ is_gone w'))).
Proof.
  intros Hn (e & verified & Hlook & Hval).
  set (w1 := elapse dt w).
  assert (Hsame : is_tracked n w1).
  { exists e, verified. split; assumption. }
  destruct (truthy (Redis.get (clock w1) (redis w1) key)) eqn:Htruthy.
  - (* the key is live and holds text *)
    assert (Hget : Redis.get (clock w1) (redis w1) key = Redis.value e).
    { revert Htruthy. unfold Redis.get, Redis.lookup. cbn [redis w1 elapse with_clock].
      fold key in Hlook. rewrite Hlook. destruct (Redis.live _ e); [reflexivity | discriminate]. }
    rewrite Hval in Hget.
    assert (Hne : json_dumps (VDict (otp_state code_hash created_at purpose email n verified)) <> "").
    { intros Hempty. rewrite Hget, Hempty in Htruthy. discriminate. }
    rewrite (verify_on_record email purpose code w1 _ _ n (VStr code_hash)
               Hget Hne (loads_dumps n verified Hn) eq_refl eq_refl).
    destruct (Z.leb_spec 5 n).
    + do 2 eexists. split; [reflexivity |]. left. split; [reflexivity |].
      right. apply lookup_delete_eq.
    + cbn zeta.
      destruct (verify_hash_total code (VStr code_hash)) as [[|] ->].
      * do 2 eexists. split; [reflexivity |]. left. split; [reflexivity |].
        apply (set_tracked_or_gone n true w1).
      * do 2 eexists. split; [reflexivity |]. right. split; [reflexivity |].
        split; [assumption |].
        apply (set_tracked_or_gone (n + 1) verified w1).
  - rewrite verify_nothing_cached by exact Htruthy.
    do 2 eexists. split; [reflexivity |]. left. split; [reflexivity |]. now left.
Qed.

Lemma wrong_answers_gone tries : forall w,
  is_gone w ->
  wrong_answers (verify_each pbkdf2_hmac_sha256 json_dumps json_loads
                   email purpose tries w) = 0%nat.
Proof.
  induction tries as [| [dt code] rest IH]; intros w Hgone; [reflexivity |].
  cbn [verify_each]. rewrite verify_gone by exact Hgone.
  unfold wrong_answers. cbn [List.filter answered_wrong].
  apply (IH (elapse dt w)). exact Hgone.
Qed.

Lemma wrong_answers_bound tries : forall n w,
  0 <= n <= 5 ->
  is_tracked n w ->
  (wrong_answers (verify_each pbkdf2_hmac_sha256 json_dumps json_loads
                    email purpose tries w) <= Z.to_nat (5 - n))%nat.
Proof.
  induction tries as [| [dt code] rest IH]; intros n w Hn Htracked.
  - cbn. lia.
  - cbn [verify_each].
    destruct (verify_step n w dt code Hn Htracked)
      as (r & w' & -> & [[Hr Hnext] | (Hr & Hlt & Hnext)]);
      unfold wrong_answers; cbn [List.filter]; rewrite Hr.
    + destruct Hnext as [Ht | Hg].
      * apply (IH n w' Hn Ht).
      * fold (wrong_answers (verify_each pbkdf2_hmac_sha256 json_dumps json_loads
                               email purpose rest w')).
        rewrite wrong_answers_gone by exact Hg. lia.
    + cbn [length]. destruct Hnext as [Ht | Hg].
      * pose proof (IH (n + 1) w' ltac:(lia) Ht) as Hb.
        unfold wrong_answers in Hb. lia.
      * fold (wrong_answers (verify_each pbkdf2_hmac_sha256 json_dumps json_loads
                               email purpose rest w')).
        rewrite wrong_answers_gone by exact Hg. lia.
Qed.

End OneIssuedOTP.

Lemma ttl_of_live_key now db key e d :
  Redis.lookup now db key = Some e ->
  Redis.deadline e = Some d ->
  exists t, Redis.ttl now db key = Some t /\ 0 <= t.
Proof.
  intros Hlook Hd. unfold Redis.ttl. rewrite Hlook, Hd.
  eexists. split; [reflexivity |].
  unfold Redis.lookup in Hlook. destruct (db !! key) as [e0 |]; [| discriminate].
  destruct (Redis.live now e0) eqn:Hlive; [| discriminate].
  injection Hlook as ->. unfold Redis.live in Hlive. rewrite Hd in Hlive.
  apply Z.leb_le in Hlive.
  apply Z.div_pos; [| lia].
  assert (0 <= (d - now) `div` 1000) by (apply Z.div_pos; lia). lia.
Qed.

(** While the remaining life does not round to zero seconds, what [verify]
    writes is what the cache then holds. *)
Lemma rewrite_keeps_key w key v :
  Redis.get (clock w) (redis w) key <> VNone ->
  Redis.ttl (clock w) (redis w) key <> Some 0 ->
  Redis.get (clock w)
    (Redis.set (clock w) (redis w) key v
       (option_map inject_Z (Redis.ttl (clock w) (redis w) key))) key = v.
Proof.
  intros Hget Httl.
  destruct (Redis.lookup (clock w) (redis w) key) as [e |] eqn:Hlook.
  2:{ unfold Redis.get in Hget. rewrite Hlook in Hget. congruence. }
  destruct (Redis.deadline e) as [d |] eqn:Hd.
  - destruct (ttl_of_live_key _ _ _ _ _ Hlook Hd) as (t & Ht & Hpos).
    rewrite Ht in *. cbn [option_map]. unfold Redis.set.
    rewrite timeout_ms_integer.
    assert (t <> 0) by congruence.
    destruct (Z.leb_spec (t * 1000) 0); [lia |].
    unfold Redis.get, Redis.lookup. rewrite lookup_insert_eq.
    unfold Redis.live. cbn [Redis.deadline Redis.value].
    destruct (Z.leb_spec (clock w) (clock w + t * 1000 * 1000)); [reflexivity | lia].
  - unfold Redis.ttl. rewrite Hlook, Hd. cbn [option_map]. unfold Redis.set.
    unfold Redis.get, Redis.lookup. rewrite lookup_insert_eq. reflexivity.
Qed.

(** C8: the attempt limit of [verify].  MAX_ATTEMPTS is 5.  On a stored record
    whose attempts counter is n: with n >= 5 the call deletes the key and
    fails; with n < 5 and a code that does not match, it fails, and the
    record it writes back has attempts n + 1 and every other field as before
    (and is what the cache holds afterwards unless the key's remaining life
    rounds to zero seconds); with n < 5 and the matching code it succeeds,
    returns the record with verified True and writes it back.  Hence, if
    [json.loads] reads back what [json.dumps] wrote for the records of one
    issued OTP, no sequence of [verify] calls after [issue], whatever the
    codes and the time between them, gets more than 5 "wrong code" answers. *)
Theorem verify_attempt_limit (email purpose : string) :
  let key := _generate_key email purpose in
  MAX_ATTEMPTS = 5 /\
  (forall code w text d n h,
     Redis.get (clock w) (redis w) key = VStr text ->
     text <> "" ->
     json_loads text = Some (VDict d) ->
     dict_get d "attempts" = Some (VInt n) ->
     dict_get d "code_hash" = Some h ->
     let run := verify pbkdf2_hmac_sha256 json_dumps json_loads email purpose code w in
     let remaining := option_map inject_Z (Redis.ttl (clock w) (redis w) key) in
     (5 <= n ->
        run = (Ok (false, TooManyAttempts, None), with_redis (delete key (redis w)) w)) /\
     (n < 5 -> _verify_hash pbkdf2_hmac_sha256 code h = Ok false ->
        let d' := dict_set d "attempts" (VInt (n + 1)) in
        let text' := VStr (json_dumps (VDict d')) in
        run = (Ok (false, WrongCode, None),
               with_redis (Redis.set (clock w) (redis w) key text' remaining) w) /\
        dict_get d' "attempts" = Some (VInt (n + 1)) /\
        (forall field, field <> "attempts" -> dict_get d' field = dict_get d field) /\
        (Redis.ttl (clock w) (redis w) key <> Some 0 ->
         Redis.get (clock w) (redis (snd run)) key = text')) /\
     (n < 5 -> _verify_hash pbkdf2_hmac_sha256 code h = Ok true ->
        let d' := dict_set d "verified" (VBool true) in
        let text' := VStr (json_dumps (VDict d')) in
        run = (Ok (true, Verified, Some d'),
               with_redis (Redis.set (clock w) (redis w) key text' remaining) w) /\
        dict_get d' "verified" = Some (VBool true) /\
        (forall field, field <> "verified" -> dict_get d' field = dict_get d field))) /\
  (forall ttl_minutes w tries,
     (forall n verified,
        0 <= n <= 5 ->
        let d := otp_state (issued_hash pbkdf2_hmac_sha256 w) (isoformat_utc (clock w))
                   purpose email n verified in
        json_loads (json_dumps (VDict d)) = Some (VDict d)) ->
     let w1 := snd (issue pbkdf2_hmac_sha256 json_dumps isoformat_utc
                      email purpose ttl_minutes w) in
     (wrong_answers (verify_each pbkdf2_hmac_sha256 json_dumps json_loads
                       email purpose tries w1) <= 5)%nat).
Proof.
  intros key. split; [reflexivity |]. split.
  - intros code w text d n h Hget Hne Hloads Hattempts Hhash run remaining.
    pose proof (verify_on_record email purpose code w text d n h
                  Hget Hne Hloads Hattempts Hhash) as Hrun.
    fold key in Hrun. cbn zeta in Hrun. fold run in Hrun.
    split; [| split].
    + intros Hn. rewrite Hrun. destruct (Z.leb_spec 5 n); [reflexivity | lia].
    + intros Hn Hwrong d' text'. rewrite Hwrong in Hrun.
      destruct (Z.leb_spec 5 n); [lia |].
      split; [exact Hrun |].
      split; [apply dict_get_set_eq |].
      split; [intros field Hf; apply dict_get_set_ne; congruence |].
      intros Httl. rewrite Hrun. cbn [snd redis with_redis].
      apply rewrite_keeps_key; [rewrite Hget; discriminate | exact Httl].
    + intros Hn Hright d' text'. rewrite Hright in Hrun.
      destruct (Z.leb_spec 5 n); [lia |].
      split; [exact Hrun |].
      split; [apply dict_get_set_eq |].
      intros field Hf. apply dict_get_set_ne. congruence.
  - intros ttl_minutes w tries Hcodec w1.
    set (created_at := isoformat_utc (clock w)) in *.
    set (code_hash := issued_hash pbkdf2_hmac_sha256 w) in *.
    assert (Hstep : tracked json_dumps code_hash created_at purpose email 0 w1
                    \/ gone purpose email w1).
    { subst w1. rewrite issue_run. cbn [snd]. unfold tracked, gone.
      cbn [redis with_redis]. unfold Redis.set.
      destruct (Redis.timeout_ms _ <=? 0).
      - right. apply lookup_delete_eq.
      - left. do 2 eexists. rewrite lookup_insert_eq. split; reflexivity. }
    destruct Hstep as [Ht | Hg].
    + apply (wrong_answers_bound code_hash created_at purpose email Hcodec tries 0 w1);
        [lia | exact Ht].
    + rewrite (wrong_answers_gone purpose email tries w1 Hg). lia.
Qed.

End OTPFacts.

(** ** The retry decorator and the stock data *)

Section UtilsFacts.
Import Utils.

(** [str(e)] of the exceptions that carry no text of the program. *)
Variable interpreter_text : exn -> string.

Lemma unit_fraction_bounds raw : (0 <= unit_fraction raw)%Q /\ (unit_fraction raw < 1)%Q.
Proof.
  unfold unit_fraction, Qle, Qlt. cbn [Qnum Qden].
  pose proof (N.mod_lt raw (2 ^ 53) ltac:(discriminate)) as H.
  revert H. generalize (raw mod 2 ^ 53)%N. intros m H.
  change (2 ^ 53)%N with 9007199254740992%N in H.
  change (Z.pos (2 ^ 53)) with 9007199254740992.
  lia.
Qed.

Lemma jitter_bounds raw : (0 <= jitter_of raw)%Q /\ (jitter_of raw < 1)%Q.
Proof.
  destruct (unit_fraction_bounds raw) as [H0 H1].
  assert (jitter_of raw == unit_fraction raw)%Q as -> by (unfold jitter_of; ring).
  split; assumption.
Qed.

Lemma backoff_nonnegative base_delay k raw :
  (0 <= base_delay)%Q ->
  Qle_bool 0 (base_delay * inject_Z (2 ^ Z.of_nat k) + jitter_of raw) = true.
Proof.
  intros Hbase. apply Qle_bool_iff.
  destruct (jitter_bounds raw) as [Hj _].
  assert (0 <= inject_Z (2 ^ Z.of_nat k))%Q as Hp.
  { change 0%Q with (inject_Z 0). rewrite <- Zle_Qle. apply Z.pow_nonneg. lia. }
  pose proof (Qmult_le_0_compat _ _ Hbase Hp) as Hm.
  change 0%Q with (0 + 0)%Q. apply Qplus_le_compat; assumption.
Qed.

Lemma scripted_next r tail s :
  pending s = r :: tail -> scripted s = (r, with_pending tail s).
Proof. intros H. unfold scripted. now rewrite H. Qed.

(** A run of rate-limit failures: each one is followed by its wait, and the
    loop goes on with the attempts that are left. *)
Lemma retry_failures max_retries base_delay ent off errs : forall k m s tail,
  (0 <= base_delay)%Q ->
  entropy s = ent ->
  drawn s = (off + k)%nat ->
  pending s = map Err errs ++ tail ->
  Forall (fun e => is_rate_limited interpreter_text e = true) errs ->
  (k + length errs <= Z.to_nat max_retries)%nat ->
  (length errs <= m)%nat ->
  exists s',
    retry_loop interpreter_text max_retries base_delay scripted (map Z.of_nat (seq k m)) s
    = retry_loop interpreter_text max_retries base_delay scripted
        (map Z.of_nat (seq (k + length errs) (m - length errs))) s' /\
    entropy s' = ent /\
    drawn s' = (off + k + length errs)%nat /\
    pending s' = tail /\
    slept s' = slept s ++
      map (fun j => (base_delay * inject_Z (2 ^ Z.of_nat j) + jitter_of (ent (off + j)%nat))%Q)
          (seq k (length errs)).
Proof.
  induction errs as [| e errs IH]; intros k m s tail Hbase Hent Hdrawn Hpend Hall Hk Hm.
  - exists s. cbn [length seq map]. rewrite !Nat.add_0_r, Nat.sub_0_r, app_nil_r.
    repeat split; auto.
  - cbn [length] in *. destruct m as [| m]; [lia |].
    apply Forall_cons in Hall as [He Hall].
    cbn [map app] in Hpend.
    set (s1 := with_pending (map Err errs ++ tail) s).
    set (delay := (base_delay * inject_Z (2 ^ Z.of_nat k)
                   + jitter_of (ent (off + k)%nat))%Q).
    set (s2 := with_clock (clock s1 + Qfloor (delay * inject_Z Time.usec_per_sec)%Q)
                 (with_slept (slept s1 ++ [delay]) (with_drawn (S (drawn s1)) s1))).
    assert (H1 : entropy s2 = ent) by exact Hent.
    assert (H2 : drawn s2 = (off + S k)%nat).
    { subst s2 s1. cbn [drawn with_clock with_slept with_drawn with_pending]. lia. }
    assert (H3 : pending s2 = map Err errs ++ tail) by reflexivity.
    destruct (IH (S k) m s2 tail Hbase H1 H2 H3 Hall ltac:(lia) ltac:(lia))
      as (s' & Hrun & Hent' & Hdrawn' & Hpend' & Hslept').
    exists s'. split; [| split; [| split; [| split]]].
    + cbn [seq map retry_loop]. unfold try_except at 1. unfold bind at 1.
      rewrite (scripted_next _ _ _ Hpend). fold s1.
      cbn [any_exception]. rewrite He.
      assert ((Z.of_nat k <? max_retries) = true) as -> by (apply Z.ltb_lt; lia).
      unfold bind at 1. unfold random_uniform, bind at 1. unfold random_random, ret.
      unfold bind at 1.
      assert (entropy s1 (drawn s1) = ent (off + k)%nat) as Hraw.
      { subst s1. cbn. now rewrite Hent, Hdrawn. }
      rewrite Hraw. fold (jitter_of (ent (off + k)%nat)). fold delay.
      unfold time_sleep. cbn [slept clock with_drawn].
      unfold delay at 1. rewrite backoff_nonnegative by exact Hbase. fold delay.
      fold s2. rewrite Hrun.
      replace (S k + length errs)%nat with (k + S (length errs))%nat by lia.
      reflexivity.
    + exact Hent'.
    + rewrite Hdrawn'. lia.
    + exact Hpend'.
    + rewrite Hslept'. subst s2 s1. cbn [slept with_clock with_slept with_drawn with_pending].
      rewrite <- app_assoc. reflexivity.
Qed.

(** C3: [retry_on_429] around a callee whose calls fail and succeed as a
    script says.  After j <= max_retries failures that all read as rate-limit
    errors ("429", "too many requests" or "rate limit" in the lower-cased
    message), the wrapper has slept base_delay * 2^k plus a jitter in [0, 1)
    for each k < j, in that order, and then: if the next call fails with such
    an error again and j = max_retries (so max_retries + 1 attempts have
    failed), it returns None without another wait; if the next call fails
    with any other exception, it raises that exception at once, without a
    wait or a further call; and if the next call returns, it returns that
    value. *)
Theorem retry_on_429_backoff (max_retries : Z) (base_delay : Q) (s : state) :
  0 <= max_retries ->
  (0 <= base_delay)%Q ->
  (forall raw, (0 <= jitter_of raw)%Q /\ (jitter_of raw < 1)%Q) /\
  (forall errs next tail,
     pending s = map Err errs ++ next :: tail ->
     Forall (fun e => is_rate_limited interpreter_text e = true) errs ->
     (length errs <= Z.to_nat max_retries)%nat ->
     let run := retry_on_429 interpreter_text max_retries base_delay scripted s in
     let ends_with (r : result (option pyval)) :=
       fst run = r /\
       pending (snd run) = tail /\
       slept (snd run) = slept s ++ backoff_delays base_delay s (length errs) in
     length (backoff_delays base_delay s (length errs)) = length errs /\
     (forall e, next = Err e -> is_rate_limited interpreter_text e = true ->
        length errs = Z.to_nat max_retries -> ends_with (Ok None)) /\
     (forall e, next = Err e -> is_rate_limited interpreter_text e = false -> ends_with (Err e)) /\
     (forall v, next = Ok v -> ends_with (Ok (Some v)))).
Proof.
  intros Hmax Hbase. split; [apply jitter_bounds |].
  intros errs next tail Hpend Hall Hlen run ends_with.
  destruct (retry_failures max_retries base_delay (entropy s) (drawn s) errs
              0 (Z.to_nat (max_retries + 1)) s (next :: tail))
    as (s' & Hrun & _ & _ & Hpend' & Hslept'); auto; try lia.
  cbn [Nat.add] in Hrun.
  assert (Hleft : (Z.to_nat (max_retries + 1) - length errs
                   = S (Z.to_nat max_retries - length errs))%nat) by lia.
  rewrite Hleft in Hrun. cbn [seq map retry_loop] in Hrun.
  unfold try_except at 1 in Hrun. unfold bind at 1 in Hrun.
  rewrite (scripted_next _ _ _ Hpend') in Hrun.
  fold (backoff_delays base_delay s (length errs)) in Hslept'.
  assert (Hr : run = retry_loop interpreter_text max_retries base_delay scripted
                       (map Z.of_nat (seq 0 (Z.to_nat (max_retries + 1)))) s)
    by reflexivity.
  rewrite Hrun in Hr. clear Hrun.
  split; [unfold backoff_delays; now rewrite length_map, length_seq |].
  unfold ends_with. split; [| split].
  - intros e -> He Hlast. cbn [any_exception] in Hr. rewrite He in Hr.
    assert ((Z.of_nat (length errs) <? max_retries) = false) as Hno
      by (apply Z.ltb_ge; lia).
    rewrite Hno in Hr. rewrite Hr. cbn. auto.
  - intros e -> He. cbn [any_exception] in Hr. rewrite He in Hr.
    rewrite Hr. cbn. auto.
  - intros v ->. rewrite Hr. cbn. auto.
Qed.

(** *** [get_stock_data] *)

Lemma get_default_stock_data_keys symbol s :
  exists l s',
    get_default_stock_data symbol s = (Ok l, s') /\
    l = fresh_loc (heap s) /\
    (exists d, heap s' !! l = Some d /\ has_stock_keys d = true /\
               dict_get d "data_source" = Some (VStr "default") /\
               dict_get d "change" = Some (VFloat 0) /\
               dict_get d "change_percent" = Some (VFloat 0) /\
               dict_get d "volume" = Some (VInt 0) /\
               dict_get d "date" = Some (VStr "N/A")) /\
    _cache s' = _cache s /\ _cache_timestamps s' = _cache_timestamps s.
Proof.
  unfold get_default_stock_data, new_dict. do 2 eexists.
  split; [reflexivity |]. split; [reflexivity |]. split; [| split; reflexivity].
  eexists. cbn [heap with_heap]. rewrite lookup_insert_eq.
  split; [reflexivity |]. repeat split; reflexivity.
Qed.

Lemma quote_of_history_keys symbol hist d :
  quote_of_history symbol hist = Ok d -> has_stock_keys d = true.
Proof.
  unfold quote_of_history.
  destruct (rev (rows hist)) as [| latest before]; [discriminate |].
  repeat match goal with
         | |- context [result_bind ?r _] =>
             let E := fresh "E" in
             destruct r as [? | ?] eqn:E; cbn [result_bind]; [| discriminate]
         | |- context [let '(_, _) := ?p in _] => destruct p
         end.
  intros [= <-]. reflexivity.
Qed.

(** When the fetch succeeds, what it returns is a new dict with every stock
    key, cached under the symbol. *)
Lemma fetch_quote_ok symbol s l s' :
  fetch_quote symbol s = (Ok l, s') ->
  exists d, heap s' !! l = Some d /\ has_stock_keys d = true /\
            dict_get d "data_source" = Some (VStr "yfinance_download") /\
            _cache s' !! symbol = Some l.
Proof.
  unfold fetch_quote, bind at 1.
  destruct (YF_AVAILABLE s); cbn [negb]; [| discriminate].
  unfold bind at 1.
  destruct (try_except yf_download any_exception _ s) as [[hist | e] sh]; [| discriminate].
  destruct (frame_empty hist); [discriminate |].
  unfold bind at 1. unfold lift at 1.
  destruct (quote_of_history symbol hist) as [fields | e] eqn:Hq; [| discriminate].
  unfold bind at 1. unfold new_dict at 1.
  unfold bind at 1. unfold set_cached_data at 1. unfold ret.
  intros [= <- <-]. exists fields.
  cbn [heap _cache with_cache with_heap]. rewrite !lookup_insert_eq.
  split; [reflexivity |]. split; [exact (quote_of_history_keys _ _ _ Hq) |].
  split; [| reflexivity].
  revert Hq. unfold quote_of_history.
  destruct (rev (rows hist)) as [| latest before]; [discriminate |].
  repeat match goal with
         | |- context [result_bind ?r _] =>
             let E := fresh "E" in
             destruct r as [? | ?] eqn:E; cbn [result_bind]; [| discriminate]
         | |- context [let '(_, _) := ?p in _] => destruct p
         end.
  intros [= <-]. reflexivity.
Qed.

(** With no (fresh) entry for the symbol in the cache, the function under
    the decorators never raises: it returns a new dict that has every stock
    key and is now cached under the symbol; and when the fetch failed, that
    dict is the default one. *)
Lemma get_stock_data_body_on_miss symbol s :
  fst (get_cached_data symbol 15 s) = Ok None ->
  exists l s' d,
    get_stock_data_body symbol s = (Ok l, s') /\
    heap s' !! l = Some d /\
    has_stock_keys d = true /\
    _cache s' !! symbol = Some l /\
    (forall e, fst (fetch_quote symbol (snd (get_cached_data symbol 15 s))) = Err e ->
       dict_get d "data_source" = Some (VStr "default") /\
       dict_get d "change" = Some (VFloat 0) /\
       dict_get d "change_percent" = Some (VFloat 0) /\
       dict_get d "volume" = Some (VInt 0) /\
       dict_get d "date" = Some (VStr "N/A")).
Proof.
  intros Hmiss. unfold get_stock_data_body, bind at 1.
  destruct (get_cached_data symbol 15 s) as [r s0]. cbn [fst snd] in *. subst r.
  unfold try_except.
  destruct (fetch_quote symbol s0) as [[l | e] s1] eqn:Hfetch.
  - destruct (fetch_quote_ok _ _ _ _ Hfetch) as (d & Hd & Hkeys & _ & Hc).
    exists l, s1, d. repeat split; auto; discriminate.
  - cbn [any_exception]. unfold bind at 1.
    destruct (get_default_stock_data_keys symbol s1)
      as (l & s2 & -> & _ & (d & Hd & Hkeys & Hfields) & _).
    unfold bind at 1. unfold set_cached_data, ret.
    do 3 eexists. split; [reflexivity |].
    cbn [heap _cache with_cache]. rewrite lookup_insert_eq.
    split; [exact Hd |]. split; [exact Hkeys |]. split; [reflexivity |].
    intros _ _. exact Hfields.
Qed.

(** C10 at the input where it fails: [get_multiple_stocks_parallel] has just
    cached its six-field response for AAPL under the key "AAPL"; a minute
    later [get_stock_data("AAPL")] finds that entry and returns it, a dict
    with title, market, price, change, changeRate and sign, and with none of
    symbol, name, sector, open, high, low, volume, previous_close,
    change_percent, date and data_source. *)
Theorem get_stock_data_returns_foreign_entry :
  let s1 := snd (store_parallel_quote "AAPL" (Some sample_fast_info) sample_state) in
  let run := get_stock_data interpreter_text "AAPL" (elapse (60 * Time.usec_per_sec) s1) in
  exists l,
    fst run = Ok (Some l) /\
    heap (snd run) !! l
    = Some (create_standardized_response "Apple Inc" "US" "220.50" "1.50" "0.68" "1") /\
    (forall d, heap (snd run) !! l = Some d ->
       has_stock_keys d = false /\
       dict_get d "symbol" = None /\
       dict_get d "data_source" = None).
Proof.
  intros s1 run. exists 1%positive.
  assert (Hrun : fst run = Ok (Some 1%positive)) by (vm_compute; reflexivity).
  assert (Hheap : heap (snd run) !! 1%positive
                  = Some (create_standardized_response "Apple Inc" "US" "220.50"
                            "1.50" "0.68" "1")) by (vm_compute; reflexivity).
  split; [exact Hrun |]. split; [exact Hheap |].
  intros d Hd. pose proof (eq_trans (eq_sym Hheap) Hd) as Heq.
  injection Heq as <-. repeat split; reflexivity.
Qed.

End UtilsFacts.

(** ** The cache: writes touch one key *)

Lemma redis_set_other now (db : gmap string Redis.entry) key v t k :
  k <> key -> Redis.set now db key v t !! k = db !! k.
Proof.
  intros Hne. unfold Redis.set.
  destruct t as [t |]; [destruct (Redis.timeout_ms t <=? 0) |].
  - now rewrite lookup_delete_ne.
  - now rewrite lookup_insert_ne.
  - now rewrite lookup_insert_ne.
Qed.

Lemma redis_get_absent now (db : gmap string Redis.entry) key :
  Redis.lookup now db key = None ->
  Redis.get now db key = VNone /\ Redis.ttl now db key = Some 0.
Proof. intros H. unfold Redis.get, Redis.ttl. now rewrite H. Qed.

Lemma redis_lookup_deleted now (db : gmap string Redis.entry) key :
  Redis.lookup now (delete key db) key = None.
Proof. unfold Redis.lookup. now rewrite lookup_delete_eq. Qed.

(** A key stored with a deadline is there up to the deadline and not after
    it. *)
Lemma redis_lookup_stored now (db : gmap string Redis.entry) key v d :
  db !! key = Some {| Redis.value := v; Redis.deadline := Some d |} ->
  (now <= d -> Redis.get now db key = v) /\
  (d < now -> Redis.lookup now db key = None).
Proof.
  intros H. unfold Redis.get, Redis.lookup, Redis.live. rewrite H.
  cbn [Redis.deadline Redis.value].
  split; intros Hd; destruct (Z.leb_spec now d); (reflexivity || lia).
Qed.

(** ** Whole seconds *)

Lemma round_half_even_integer (x : Q) (a : Z) :
  (x == inject_Z a)%Q -> Time.round_half_even x = a.
Proof.
  intros Hx. unfold Time.round_half_even.
  rewrite (Qfloor_comp _ _ Hx), Qfloor_Z.
  assert (Hlt : (x - inject_Z a ?= 1 # 2)%Q = Lt).
  { apply Qlt_alt.
    assert (Hzero : (x - inject_Z a == 0)%Q) by (rewrite Hx; ring).
    rewrite Hzero. reflexivity. }
  now rewrite Hlt.
Qed.

(** [timedelta(seconds=n - 300)] for an int [n]. *)
Lemma timedelta_seconds_whole (n b : Z) :
  Time.timedelta_seconds (inject_Z n - inject_Z b)
  = Time.timedelta_of_usec ((n - b) * Time.usec_per_sec).
Proof.
  unfold Time.timedelta_seconds. f_equal.
  apply round_half_even_integer.
  rewrite inject_Z_mult. unfold Zminus. rewrite inject_Z_plus, inject_Z_opp.
  reflexivity.
Qed.

(** ** The token manager: whole calls *)

Section TokenCalls.
Import KIS.

Variable fromisoformat : string -> option datetime.
Variable isoformat : Z -> string.

Lemma as_token_error_kind e : exists m, as_token_error e = KISTokenError m.
Proof.
  destruct e; simpl; eauto.
  destruct (_ =? 403); eauto. destruct (_ =? 429); eauto.
Qed.

Lemma direct_raises_token_error self w e :
  fst (_request_new_token_direct isoformat self w) = Err e ->
  exists m, e = KISTokenError m.
Proof.
  unfold _request_new_token_direct, try_except.
  destruct (request_and_cache isoformat self w) as [[tok | e0] w']; cbn; [discriminate |].
  intros [= <-]. destruct (as_token_error_kind e0) as [m ->]. now exists m.
Qed.

(** X1: whatever the cache and the network do, the only exception
    [get_token] lets out is KISTokenError: every other failure ends in the
    direct request, whose [except] clauses re-raise as KISTokenError. *)
Theorem get_token_raises_only_token_error (self : manager) (w : world) (e : exn) :
  fst (get_token fromisoformat isoformat self w) = Err e ->
  exists m, e = KISTokenError m.
Proof.
  unfold get_token, try_except.
  match goal with
  | |- context [match ?t with pair _ _ => _ end] => destruct t as [[tok | e0] w1]
  end.
  - discriminate.
  - cbn [any_exception]. apply direct_raises_token_error.
Qed.

(** *** How many requests a call can post *)

Section PostsBound.

Variable self : manager.

Lemma posts_at_most_quiet {A} (m : Py A) n :
  (forall w, posts (snd (m w)) = posts w) -> posts_at_most self n m.
Proof.
  intros H w. exists 0%nat. split; [lia |]. cbn [repeat]. now rewrite app_nil_r.
Qed.

Lemma posts_at_most_bind {A B} a b n (m : Py A) (k : A -> Py B) :
  posts_at_most self a m ->
  (forall x, posts_at_most self b (k x)) ->
  (a + b <= n)%nat ->
  posts_at_most self n (bind m k).
Proof.
  intros Hm Hk Hn w. unfold bind.
  destruct (Hm w) as (k1 & Hk1 & Hp1).
  destruct (m w) as [[x | e] w1]; cbn [snd] in *.
  - destruct (Hk x w1) as (k2 & Hk2 & Hp2).
    exists (k1 + k2)%nat. split; [lia |].
    now rewrite Hp2, Hp1, repeat_app, app_assoc.
  - exists k1. split; [lia | exact Hp1].
Qed.

Lemma posts_at_most_try_except {A} a b n (m : Py A) catches (h : exn -> Py A) :
  posts_at_most self a m ->
  (forall e, posts_at_most self b (h e)) ->
  (a + b <= n)%nat ->
  posts_at_most self n (try_except m catches h).
Proof.
  intros Hm Hh Hn w. unfold try_except.
  destruct (Hm w) as (k1 & Hk1 & Hp1).
  destruct (m w) as [[x | e] w1]; cbn [snd] in *.
  - exists k1. split; [lia | exact Hp1].
  - destruct (catches e).
    + destruct (Hh e w1) as (k2 & Hk2 & Hp2).
      exists (k1 + k2)%nat. split; [lia |].
      now rewrite Hp2, Hp1, repeat_app, app_assoc.
    + exists k1. split; [lia | exact Hp1].
Qed.

Lemma posts_at_most_try_finally {A} a b n (m : Py A) (cleanup : Py unit) :
  posts_at_most self a m ->
  posts_at_most self b cleanup ->
  (a + b <= n)%nat ->
  posts_at_most self n (try_finally m cleanup).
Proof.
  intros Hm Hc Hn w. unfold try_finally.
  destruct (Hm w) as (k1 & Hk1 & Hp1).
  destruct (m w) as [r w1]; cbn [snd] in *.
  destruct (Hc w1) as (k2 & Hk2 & Hp2).
  destruct (cleanup w1) as [[[] | e] w2]; cbn [snd] in *;
    (exists (k1 + k2)%nat; split; [lia |];
     now rewrite Hp2, Hp1, repeat_app, app_assoc).
Qed.

Lemma cache_get_quiet key w : snd (cache_get key w) = w.
Proof. unfold cache_get. now destruct (redis_down w (clock w)). Qed.

Lemma cached_token_usable_quiet token expires_str w :
  snd (cached_token_usable fromisoformat token expires_str w) = w.
Proof.
  unfold cached_token_usable.
  destruct (truthy token && truthy expires_str); [| reflexivity].
  unfold try_except, bind, lift, datetime_now.
  destruct (parse_expiry fromisoformat expires_str) as [[t | t off] | e];
    cbn; try reflexivity.
  now destruct (value_or_type_error e).
Qed.

Lemma cache_delete_posts key w : posts (snd (cache_delete key w)) = posts w.
Proof. unfold cache_delete. now destruct (redis_down w (clock w)). Qed.

Lemma cache_add_posts key v timeout w : posts (snd (cache_add key v timeout w)) = posts w.
Proof.
  unfold cache_add. destruct (redis_down w (clock w)); [reflexivity |].
  now destruct (Redis.add _ _ _ _ _).
Qed.

Lemma read_and_test_posts {A} n (k : bool -> pyval -> Py A) :
  (forall usable token, posts_at_most self n (k usable token)) ->
  posts_at_most self n
    (token <- cache_get TOKEN_KEY ;;
     expires_str <- cache_get TOKEN_EXPIRES_KEY ;;
     usable <- cached_token_usable fromisoformat token expires_str ;;
     k usable token).
Proof.
  intros Hk.
  apply (posts_at_most_bind 0 n);
    [apply posts_at_most_quiet; intros w; now rewrite cache_get_quiet | | lia].
  intros token.
  apply (posts_at_most_bind 0 n);
    [apply posts_at_most_quiet; intros w; now rewrite cache_get_quiet | | lia].
  intros expires_str.
  apply (posts_at_most_bind 0 n);
    [apply posts_at_most_quiet; intros w; now rewrite cached_token_usable_quiet | | lia].
  intros usable. apply Hk.
Qed.

Lemma request_posts_once : posts_at_most self 1 (_request_new_token isoformat self).
Proof.
  intros w. exists 1%nat. split; [lia |].
  unfold _request_new_token, try_except.
  pose proof (request_and_cache_posts isoformat self w) as Hp.
  destruct (request_and_cache isoformat self w) as [[token | e] w']; exact Hp.
Qed.

Lemma direct_posts_once : posts_at_most self 1 (_request_new_token_direct isoformat self).
Proof. exact request_posts_once. Qed.

Lemma wait_for_refresh_posts retries :
  posts_at_most self 0 (wait_for_refresh fromisoformat retries).
Proof.
  induction retries as [| retry rest IH]; cbn [wait_for_refresh].
  - now apply posts_at_most_quiet.
  - apply (posts_at_most_bind 0 0); [now apply posts_at_most_quiet | | lia].
    intros _. apply read_and_test_posts. intros usable token.
    destruct usable; [now apply posts_at_most_quiet | exact IH].
Qed.

Lemma refresh_posts_at_most_two :
  posts_at_most self 2 (_refresh_token fromisoformat isoformat self).
Proof.
  unfold _refresh_token.
  apply (posts_at_most_try_except 1 1); [| intros _; apply direct_posts_once | lia].
  apply (posts_at_most_bind 0 1);
    [apply posts_at_most_quiet; apply cache_add_posts | | lia].
  intros lock_acquired. destruct lock_acquired; cbn [negb].
  - apply (posts_at_most_try_finally 1 0); [| | lia].
    + apply read_and_test_posts. intros usable token.
      destruct usable; [now apply posts_at_most_quiet | apply request_posts_once].
    + apply (posts_at_most_try_except 0 0); [| | lia].
      * apply posts_at_most_quiet. apply cache_delete_posts.
      * intros _. now apply posts_at_most_quiet.
  - apply (posts_at_most_bind 0 1); [apply wait_for_refresh_posts | | lia].
    intros [token |]; [now apply posts_at_most_quiet | apply direct_posts_once].
Qed.

End PostsBound.

(** X2: one call of [get_token] posts the token request at most three times
    (the locked request, the direct request of [_refresh_token]'s handler and
    the direct request of its own handler) and posts nothing else. *)
Theorem get_token_posts_at_most_three (self : manager) (w : world) :
  exists k,
    (k <= 3)%nat /\
    posts (snd (get_token fromisoformat isoformat self w))
    = posts w ++ repeat (token_post self) k.
Proof.
  revert w. change (posts_at_most self 3 (get_token fromisoformat isoformat self)).
  unfold get_token.
  apply (posts_at_most_try_except self 2 1); [| intros _; apply direct_posts_once | lia].
  apply read_and_test_posts. intros usable token.
  destruct usable; [now apply posts_at_most_quiet | apply refresh_posts_at_most_two].
Qed.

(** *** What a request leaves behind *)

Lemma cache_set_frame key v timeout w :
  let w' := snd (cache_set key v timeout w) in
  clock w' = clock w /\ redis_down w' = redis_down w /\ slept w' = slept w /\
  (forall k, k <> key -> redis w' !! k = redis w !! k) /\
  (redis_down w (clock w) = true -> redis w' = redis w).
Proof.
  unfold cache_set. destruct (redis_down w (clock w)) eqn:Hdown; cbn zeta.
  - repeat split; auto.
  - destruct timeout; cbn [as_number snd clock redis redis_down slept with_redis
                           with_clock_redis];
      repeat split; auto; try discriminate;
      intros k Hk; now apply redis_set_other.
Qed.

Lemma best_effort_caching_frame token expires_in text w :
  wrote_token_at_most w
    (snd (try_except
            (cache_set TOKEN_KEY token expires_in ;;;
             cache_set TOKEN_EXPIRES_KEY (VStr text) expires_in)
            any_exception (fun _ => ret tt) w)).
Proof.
  unfold wrote_token_at_most, try_except, bind.
  destruct (cache_set_frame TOKEN_KEY token expires_in w) as (Hc1 & Hd1 & Hs1 & Hf1 & Hk1).
  destruct (cache_set TOKEN_KEY token expires_in w) as [[[] | e] w1]; cbn [snd] in *.
  - destruct (cache_set_frame TOKEN_EXPIRES_KEY (VStr text) expires_in w1)
      as (Hc2 & Hd2 & Hs2 & Hf2 & Hk2).
    destruct (cache_set TOKEN_EXPIRES_KEY (VStr text) expires_in w1) as [[[] | e] w2];
      cbn [snd any_exception ret] in *.
    all: repeat split; try congruence.
    all: try (intros k Hk; unfold is_token_key in Hk; apply orb_false_elim in Hk as [Ha Hb];
              apply String.eqb_neq in Ha; apply String.eqb_neq in Hb;
              rewrite Hf2, Hf1 by assumption; reflexivity).
    all: intros Hdown; rewrite Hk2, Hk1; congruence.
  - cbn [any_exception ret snd]. repeat split; auto.
    intros k Hk. unfold is_token_key in Hk. apply orb_false_elim in Hk as [Ha Hb].
    apply String.eqb_neq in Ha. now apply Hf1.
Qed.

Lemma request_and_cache_frame self w :
  wrote_token_at_most w (snd (request_and_cache isoformat self w)).
Proof.
  assert (Hsame : forall p r, wrote_token_at_most w (snd (r : result pyval, with_posts p w))).
  { intros p r. unfold wrote_token_at_most. cbn. repeat split; auto. }
  unfold request_and_cache, bind at 1. unfold requests_post.
  destruct (http_answers w _) as [| | msg | status body]; try apply Hsame.
  unfold bind at 1. unfold raise_for_status.
  destruct (_ && _); [apply Hsame |]. unfold ret at 1.
  unfold bind at 1. unfold lift at 1. cbn [snd].
  destruct body as [v | e]; [| apply Hsame].
  unfold bind at 1. unfold lift at 1.
  destruct (py_get v _ _) as [token | e]; [| apply Hsame].
  destruct (negb (truthy token)); [apply Hsame |].
  unfold bind at 1. unfold lift at 1.
  destruct (py_get v _ _) as [expires_in | e]; [| apply Hsame].
  unfold bind at 1. unfold datetime_now at 1.
  unfold bind at 1. unfold lift at 1.
  destruct (as_number expires_in) as [x | e]; [| apply Hsame].
  unfold bind at 1. unfold lift at 1.
  destruct (Time.timedelta_seconds _) as [delta | e]; [| apply Hsame].
  unfold bind at 1. unfold lift at 1.
  destruct (Time.datetime_add _ _) as [t | e]; [| apply Hsame].
  unfold bind at 1.
  match goal with |- context [try_except ?m _ _ ?w0] =>
    pose proof (best_effort_caching_frame token expires_in (isoformat t) w0) as Hb;
    destruct (try_except m any_exception (fun _ => ret tt) w0) as [[[] | e] w1]
  end; cbn [snd ret] in *; exact Hb.
Qed.

Lemma request_frame self w :
  wrote_token_at_most w (snd (_request_new_token isoformat self w)).
Proof.
  unfold _request_new_token, try_except.
  pose proof (request_and_cache_frame self w) as H.
  destruct (request_and_cache isoformat self w) as [[token | e] w']; exact H.
Qed.

(** *** The refresh lock *)

Lemma cache_add_taken w :
  redis_down w (clock w) = false ->
  Redis.lookup (clock w) (redis w) TOKEN_LOCK_KEY = None ->
  cache_add TOKEN_LOCK_KEY (VStr "locked") LOCK_TIMEOUT w
  = (Ok true,
     with_redis (<[TOKEN_LOCK_KEY :=
                     {| Redis.value := VStr "locked";
                        Redis.deadline := Some (clock w + 30 * 1000 * 1000) |}]> (redis w)) w).
Proof.
  intros Hup Hfree. unfold cache_add, Redis.add. rewrite Hup, Hfree.
  now rewrite timeout_ms_integer.
Qed.

Lemma release_lock w :
  redis_down w (clock w) = false ->
  try_except (cache_delete TOKEN_LOCK_KEY) any_exception (fun _ => ret tt) w
  = (Ok tt, with_redis (delete TOKEN_LOCK_KEY (redis w)) w).
Proof. intros Hup. unfold try_except, cache_delete. now rewrite Hup. Qed.

(** X3: [_refresh_token] never leaves its lock behind.  When Redis is
    reachable and the lock is free, whatever the network answers and whether
    the call returns a token or raises, Redis holds no TOKEN_LOCK_KEY when
    the call ends; and the call has not slept. *)
Theorem refresh_token_releases_lock (self : manager) (w : world) :
  redis_down w (clock w) = false ->
  Redis.lookup (clock w) (redis w) TOKEN_LOCK_KEY = None ->
  let run := _refresh_token fromisoformat isoformat self w in
  redis (snd run) !! TOKEN_LOCK_KEY = None /\
  slept (snd run) = slept w /\
  clock (snd run) = clock w.
Proof.
  intros Hup Hfree run.
  set (released := fun w' : world =>
         redis w' !! TOKEN_LOCK_KEY = None /\ slept w' = slept w /\ clock w' = clock w).
  change (released (snd run)). subst run.
  unfold _refresh_token. unfold try_except at 1. unfold bind at 1.
  rewrite (cache_add_taken w Hup Hfree). cbn [negb].
  set (wl := with_redis _ w).
  assert (Hupl : redis_down wl (clock wl) = false) by exact Hup.
  unfold try_finally. rewrite (read_and_test fromisoformat) by exact Hupl.
  destruct (holds_usable_token fromisoformat wl).
  - unfold ret at 1. rewrite (release_lock wl Hupl).
    cbn [snd]. split; [apply lookup_delete_eq | split; reflexivity].
  - destruct (request_frame self wl) as (Hc & Hd & Hs & _ & _).
    destruct (_request_new_token isoformat self wl) as [r wr]. cbn [snd] in *.
    assert (Hupr : redis_down wr (clock wr) = false) by (rewrite Hd, Hc; exact Hupl).
    rewrite (release_lock wr Hupr).
    set (wc := with_redis _ wr).
    assert (Hlock : redis wc !! TOKEN_LOCK_KEY = None) by apply lookup_delete_eq.
    destruct r as [token | e]; cbn [snd any_exception].
    + split; [exact Hlock |]. split; [exact Hs | exact Hc].
    + destruct (request_frame self wc) as (Hc' & _ & Hs' & Hf' & _).
      change (_request_new_token_direct isoformat self wc)
        with (_request_new_token isoformat self wc).
      split; [rewrite Hf' by reflexivity; exact Hlock |].
      split; [rewrite Hs'; exact Hs | rewrite Hc'; exact Hc].
Qed.

(** X4: with Redis unreachable, [get_token] is the direct request: one post,
    Redis as it was, and the token is returned exactly when the network
    grants one. *)
Theorem get_token_without_redis (self : manager) (w : world) :
  redis_down w (clock w) = true ->
  let run := get_token fromisoformat isoformat self w in
  run = _request_new_token_direct isoformat self w /\
  posts (snd run) = posts w ++ [token_post self] /\
  redis (snd run) = redis w /\
  (forall token,
     fst run = Ok token
     <-> grants (clock w) (http_answers w (length (posts w))) token).
Proof.
  intros Hdown run.
  assert (Hrun : run = _request_new_token_direct isoformat self w).
  { subst run. unfold get_token, try_except at 1. unfold bind at 1.
    unfold cache_get at 1. now rewrite Hdown. }
  rewrite Hrun. split; [reflexivity |].
  change (_request_new_token_direct isoformat self w)
    with (_request_new_token isoformat self w).
  split; [| split].
  - unfold _request_new_token, try_except.
    pose proof (request_and_cache_posts isoformat self w) as Hp.
    destruct (request_and_cache isoformat self w) as [[token | e] w']; exact Hp.
  - destruct (request_frame self w) as (_ & _ & _ & _ & Hsame). now apply Hsame.
  - intros token. rewrite (request_new_token_result isoformat self w).
    rewrite <- token_outcome_grants.
    destruct (token_outcome _ _); split; congruence.
Qed.

(** *** A granted request, step by step *)

Lemma request_granted self w status d n :
  redis_down w (clock w) = false ->
  http_answers w (length (posts w)) = HttpResponse status (Ok (VDict d)) ->
  ~ (400 <= status < 600) ->
  truthy (dict_get_default d "access_token" VNone) = true ->
  dict_get_default d "expires_in" (VInt 86400) = VInt n ->
  Time.datetime_in_range (clock w) = true ->
  Time.datetime_in_range (clock w + (n - 300) * Time.usec_per_sec) = true ->
  let token := dict_get_default d "access_token" VNone in
  let expiry := clock w + (n - 300) * Time.usec_per_sec in
  _request_new_token isoformat self w
  = (Ok token,
     with_redis (token_stored (clock w) (redis w) token (isoformat expiry) n)
       (with_posts (posts w ++ [token_post self]) w)).
Proof.
  intros Hup Hans Hst Htok Hexp Hnow Hthen token expiry.
  unfold _request_new_token, try_except, request_and_cache.
  unfold bind at 1. unfold requests_post. rewrite Hans.
  unfold bind at 1. unfold raise_for_status. cbn [fst snd].
  assert ((400 <=? status) && (status <? 600) = false) as ->.
  { apply andb_false_iff. lia. }
  unfold ret at 1. unfold bind at 1. unfold lift at 1.
  unfold bind at 1. unfold lift at 1. cbn [py_get].
  rewrite Htok. cbn [negb].
  unfold bind at 1. unfold lift at 1. rewrite Hexp.
  unfold bind at 1. unfold datetime_now at 1.
  unfold bind at 1. unfold lift at 1. cbn [as_number].
  unfold bind at 1. unfold lift at 1.
  unfold TOKEN_BUFFER_TIME. rewrite timedelta_seconds_whole.
  assert (Hdelta : Time.timedelta_of_usec ((n - 300) * Time.usec_per_sec)
                   = Ok ((n - 300) * Time.usec_per_sec)).
  { pose proof Hnow as Ha. pose proof Hthen as Hb.
    unfold Time.datetime_in_range in Ha, Hb.
    apply andb_prop in Ha as [Ha1 Ha2]. apply andb_prop in Hb as [Hb1 Hb2].
    apply Z.leb_le in Ha1, Hb1. apply Z.ltb_lt in Ha2, Hb2.
    unfold Time.timedelta_of_usec.
    match goal with |- (if ?c then _ else _) = _ => assert (c = true) as -> end;
      [| reflexivity].
    apply andb_true_intro.
    unfold Time.max_delta_days, Time.usec_per_day, Time.usec_per_sec, Time.max_ordinal in *.
    split; [apply Z.leb_le | apply Z.ltb_lt]; lia. }
  rewrite Hdelta.
  unfold bind at 1. unfold lift at 1. cbn [clock with_posts].
  unfold Time.datetime_add. rewrite Hthen.
  unfold bind at 1. unfold try_except at 1. unfold bind at 1.
  unfold cache_set at 1. cbn [clock redis_down with_posts]. rewrite Hup.
  cbn [as_number]. unfold cache_set at 1.
  cbn [clock redis_down with_posts with_redis with_clock_redis]. rewrite Hup.
  cbn [as_number]. reflexivity.
Qed.

Lemma token_keys_apart :
  TOKEN_LOCK_KEY <> TOKEN_KEY /\ TOKEN_LOCK_KEY <> TOKEN_EXPIRES_KEY /\
  TOKEN_KEY <> TOKEN_EXPIRES_KEY.
Proof. repeat split; discriminate. Qed.

(** Reading the two keys of a stored token. *)
Lemma token_stored_lookup now db token text n :
  let kept v := {| Redis.value := v; Redis.deadline := Some (now + n * 1000 * 1000) |} in
  token_stored now db token text n !! TOKEN_LOCK_KEY = db !! TOKEN_LOCK_KEY /\
  (0 < n ->
   token_stored now db token text n !! TOKEN_KEY = Some (kept token) /\
   token_stored now db token text n !! TOKEN_EXPIRES_KEY = Some (kept (VStr text))) /\
  (n <= 0 ->
   token_stored now db token text n !! TOKEN_KEY = None /\
   token_stored now db token text n !! TOKEN_EXPIRES_KEY = None).
Proof.
  intros kept. destruct token_keys_apart as (H1 & H2 & H3).
  unfold token_stored. split; [| split].
  - now rewrite !redis_set_other by assumption.
  - intros Hn. rewrite redis_set_other by assumption.
    unfold Redis.set. rewrite timeout_ms_integer.
    destruct (Z.leb_spec (n * 1000) 0); [lia |].
    now rewrite !lookup_insert_eq.
  - intros Hn. rewrite redis_set_other by assumption.
    unfold Redis.set. rewrite timeout_ms_integer.
    destruct (Z.leb_spec (n * 1000) 0); [| lia].
    now rewrite !lookup_delete_eq.
Qed.

(** Taking the lock does not change what the cache says about the token. *)
Lemma holds_usable_token_lock w e :
  holds_usable_token fromisoformat (with_redis (<[TOKEN_LOCK_KEY := e]> (redis w)) w)
  = holds_usable_token fromisoformat w.
Proof.
  destruct token_keys_apart as (H1 & H2 & _).
  unfold holds_usable_token, Redis.get, Redis.lookup.
  cbn [redis clock with_redis with_clock_redis].
  now rewrite !lookup_insert_ne by assumption.
Qed.

(** The first [get_token] on a cache without a usable token, the lock being
    free and the service granting a token: the world it leaves. *)
Lemma get_token_first_run self w status d n :
  redis_down w (clock w) = false ->
  holds_usable_token fromisoformat w = false ->
  Redis.lookup (clock w) (redis w) TOKEN_LOCK_KEY = None ->
  http_answers w (length (posts w)) = HttpResponse status (Ok (VDict d)) ->
  ~ (400 <= status < 600) ->
  truthy (dict_get_default d "access_token" VNone) = true ->
  dict_get_default d "expires_in" (VInt 86400) = VInt n ->
  Time.datetime_in_range (clock w) = true ->
  Time.datetime_in_range (clock w + (n - 300) * Time.usec_per_sec) = true ->
  let token := dict_get_default d "access_token" VNone in
  let expiry := clock w + (n - 300) * Time.usec_per_sec in
  let lock := {| Redis.value := VStr "locked";
                 Redis.deadline := Some (clock w + 30 * 1000 * 1000) |} in
  get_token fromisoformat isoformat self w
  = (Ok token,
     with_redis
       (delete TOKEN_LOCK_KEY
          (token_stored (clock w) (<[TOKEN_LOCK_KEY := lock]> (redis w))
             token (isoformat expiry) n))
       (with_posts (posts w ++ [token_post self]) w)).
Proof.
  intros Hup Hmiss Hfree Hans Hst Htok Hexp Hnow Hthen token expiry lock.
  unfold get_token, try_except at 1.
  rewrite (read_and_test fromisoformat) by exact Hup. rewrite Hmiss.
  unfold _refresh_token. unfold try_except at 1. unfold bind at 1.
  rewrite (cache_add_taken w Hup Hfree). cbn [negb]. fold lock.
  set (wl := with_redis (<[TOKEN_LOCK_KEY := lock]> (redis w)) w).
  unfold try_finally.
  rewrite (read_and_test fromisoformat) by exact Hup.
  unfold wl at 1. rewrite holds_usable_token_lock, Hmiss.
  rewrite (request_granted self wl status d n Hup Hans Hst Htok Hexp Hnow Hthen).
  rewrite release_lock by exact Hup. reflexivity.
Qed.

(** X5: the token round trip.  Redis is reachable, the cache holds no usable
    token, the lock is free and the service grants a token with an integer
    expires_in of more than 300 seconds.  Then [get_token] posts once,
    returns the token and releases the lock; and, isoformat text being read
    back by fromisoformat, every [get_token] made less than expires_in - 300
    seconds later returns that token from the cache and changes nothing: no
    further request is posted. *)
Theorem get_token_then_cached (self : manager) (w : world) (status : Z)
    (d : pydict) (n : Z) :
  redis_down w (clock w) = false ->
  holds_usable_token fromisoformat w = false ->
  Redis.lookup (clock w) (redis w) TOKEN_LOCK_KEY = None ->
  http_answers w (length (posts w)) = HttpResponse status (Ok (VDict d)) ->
  ~ (400 <= status < 600) ->
  truthy (dict_get_default d "access_token" VNone) = true ->
  dict_get_default d "expires_in" (VInt 86400) = VInt n ->
  300 < n ->
  Time.datetime_in_range (clock w) = true ->
  Time.datetime_in_range (clock w + (n - 300) * Time.usec_per_sec) = true ->
  fromisoformat (isoformat (clock w + (n - 300) * Time.usec_per_sec))
  = Some (Naive (clock w + (n - 300) * Time.usec_per_sec)) ->
  isoformat (clock w + (n - 300) * Time.usec_per_sec) <> "" ->
  let token := dict_get_default d "access_token" VNone in
  let run := get_token fromisoformat isoformat self w in
  fst run = Ok token /\
  posts (snd run) = posts w ++ [token_post self] /\
  redis (snd run) !! TOKEN_LOCK_KEY = None /\
  (forall dt,
     0 <= dt < (n - 300) * Time.usec_per_sec ->
     redis_down w (clock w + dt) = false ->
     get_token fromisoformat isoformat self (later dt (snd run))
     = (Ok token, later dt (snd run))).
Proof.
  intros Hup Hmiss Hfree Hans Hst Htok Hexp Hn Hnow Hthen Hcodec Htext token run.
  destruct token_keys_apart as (H1 & H2 & H3).
  pose proof (get_token_first_run self w status d n
                Hup Hmiss Hfree Hans Hst Htok Hexp Hnow Hthen) as Hrun.
  cbn zeta in Hrun. fold token run in Hrun.
  set (expiry := clock w + (n - 300) * Time.usec_per_sec) in *.
  rewrite Hrun. cbn [fst snd].
  match goal with |- context [with_redis (delete TOKEN_LOCK_KEY ?db) ?w0] =>
    set (stored := db); set (w1 := with_redis (delete TOKEN_LOCK_KEY stored) w0)
  end.
  split; [reflexivity |]. split; [reflexivity |].
  split; [apply lookup_delete_eq |].
  intros dt Hdt Hlater.
  destruct (token_stored_lookup (clock w)
              (<[TOKEN_LOCK_KEY := {| Redis.value := VStr "locked";
                                      Redis.deadline := Some (clock w + 30 * 1000 * 1000) |}]>
                 (redis w))
              token (isoformat expiry) n) as (_ & Hstored & _).
  destruct (Hstored ltac:(lia)) as [Htoken Hexpiry].
  assert (Htoken1 : redis w1 !! TOKEN_KEY
                    = Some {| Redis.value := token;
                              Redis.deadline := Some (clock w + n * 1000 * 1000) |}).
  { cbn [w1 redis with_redis with_clock_redis].
    rewrite lookup_delete_ne by assumption. exact Htoken. }
  assert (Hexpiry1 : redis w1 !! TOKEN_EXPIRES_KEY
                     = Some {| Redis.value := VStr (isoformat expiry);
                               Redis.deadline := Some (clock w + n * 1000 * 1000) |}).
  { cbn [w1 redis with_redis with_clock_redis].
    rewrite lookup_delete_ne by assumption. exact Hexpiry. }
  assert (Hlive : clock w + dt < clock w + n * 1000 * 1000).
  { unfold Time.usec_per_sec in Hdt. lia. }
  destruct (redis_lookup_stored (clock w + dt) _ _ _ _ Htoken1) as [Hget1 _].
  destruct (redis_lookup_stored (clock w + dt) _ _ _ _ Hexpiry1) as [Hget2 _].
  specialize (Hget1 ltac:(lia)). specialize (Hget2 ltac:(lia)).
  unfold get_token, try_except.
  rewrite (read_and_test fromisoformat) by exact Hlater.
  assert (Husable : holds_usable_token fromisoformat (later dt w1) = true).
  { unfold holds_usable_token.
    change (clock (later dt w1)) with (clock w + dt).
    change (redis (later dt w1)) with (redis w1).
    rewrite Hget1, Hget2. fold token in Htok. rewrite Htok.
    cbn [truthy parse_expiry]. rewrite Hcodec.
    apply String.eqb_neq in Htext. rewrite Htext. cbn [negb andb].
    apply Z.ltb_lt. unfold expiry. lia. }
  rewrite Husable.
  change (clock (later dt w1)) with (clock w + dt).
  change (redis (later dt w1)) with (redis w1).
  now rewrite Hget1.
Qed.

(** X6: the five-minute buffer.  In the same situation, whatever the
    integer expires_in, from expires_in - 300 seconds after the request on
    the cache no longer serves the token (the stored expiry has passed, or
    Redis has dropped the keys): [get_token] then goes to [_refresh_token]
    instead of returning a token that is about to expire. *)
Theorem get_token_buffer (self : manager) (w : world) (status : Z)
    (d : pydict) (n : Z) :
  redis_down w (clock w) = false ->
  holds_usable_token fromisoformat w = false ->
  Redis.lookup (clock w) (redis w) TOKEN_LOCK_KEY = None ->
  http_answers w (length (posts w)) = HttpResponse status (Ok (VDict d)) ->
  ~ (400 <= status < 600) ->
  truthy (dict_get_default d "access_token" VNone) = true ->
  dict_get_default d "expires_in" (VInt 86400) = VInt n ->
  Time.datetime_in_range (clock w) = true ->
  Time.datetime_in_range (clock w + (n - 300) * Time.usec_per_sec) = true ->
  fromisoformat (isoformat (clock w + (n - 300) * Time.usec_per_sec))
  = Some (Naive (clock w + (n - 300) * Time.usec_per_sec)) ->
  let run := get_token fromisoformat isoformat self w in
  fst run = Ok (dict_get_default d "access_token" VNone) /\
  (forall dt,
     0 <= dt -> (n - 300) * Time.usec_per_sec <= dt ->
     holds_usable_token fromisoformat (later dt (snd run)) = false /\
     (redis_down w (clock w + dt) = false ->
      get_token fromisoformat isoformat self (later dt (snd run))
      = try_except (_refresh_token fromisoformat isoformat self) any_exception
          (fun _ => _request_new_token_direct isoformat self) (later dt (snd run)))).
Proof.
  intros Hup Hmiss Hfree Hans Hst Htok Hexp Hnow Hthen Hcodec run.
  destruct token_keys_apart as (H1 & H2 & H3).
  pose proof (get_token_first_run self w status d n
                Hup Hmiss Hfree Hans Hst Htok Hexp Hnow Hthen) as Hrun.
  cbn zeta in Hrun. fold run in Hrun.
  set (token := dict_get_default d "access_token" VNone) in *.
  set (expiry := clock w + (n - 300) * Time.usec_per_sec) in *.
  rewrite Hrun. cbn [fst snd].
  match goal with |- context [with_redis (delete TOKEN_LOCK_KEY ?db) ?w0] =>
    set (stored := db); set (w1 := with_redis (delete TOKEN_LOCK_KEY stored) w0)
  end.
  split; [reflexivity |].
  intros dt Hdt Hlate.
  assert (Hstale : holds_usable_token fromisoformat (later dt w1) = false).
  { unfold holds_usable_token.
    change (clock (later dt w1)) with (clock w + dt).
    change (redis (later dt w1)) with (redis w1).
    destruct (token_stored_lookup (clock w)
                (<[TOKEN_LOCK_KEY := {| Redis.value := VStr "locked";
                                        Redis.deadline := Some (clock w + 30 * 1000 * 1000) |}]>
                   (redis w))
                token (isoformat expiry) n) as (_ & Hstored & Hdropped).
    fold stored in Hstored, Hdropped.
    assert (Hkey : redis w1 !! TOKEN_EXPIRES_KEY = stored !! TOKEN_EXPIRES_KEY).
    { cbn [w1 redis with_redis with_clock_redis]. now rewrite lookup_delete_ne. }
    destruct (Z.le_gt_cases n 0) as [Hle | Hgt].
    - destruct (Hdropped Hle) as [_ Hnone].
      assert (Redis.get (clock w + dt) (redis w1) TOKEN_EXPIRES_KEY = VNone) as ->.
      { unfold Redis.get, Redis.lookup. now rewrite Hkey, Hnone. }
      cbn [truthy]. now rewrite andb_false_r.
    - destruct (Hstored Hgt) as [_ Hsome]. rewrite <- Hkey in Hsome.
      destruct (redis_lookup_stored (clock w + dt) _ _ _ _ Hsome) as [Hlive Hdead].
      destruct (Z.le_gt_cases (clock w + dt) (clock w + n * 1000 * 1000)) as [Hlt | Hge].
      + rewrite (Hlive Hlt). cbn [parse_expiry]. rewrite Hcodec.
        assert ((clock w + dt <? expiry) = false) as ->
            by (apply Z.ltb_ge; unfold expiry; lia).
        now rewrite andb_false_r.
      + assert (Redis.get (clock w + dt) (redis w1) TOKEN_EXPIRES_KEY = VNone) as ->.
        { unfold Redis.get. now rewrite (Hdead Hge). }
        cbn [truthy]. now rewrite andb_false_r. }
  split; [exact Hstale |].
  intros Hlater. unfold get_token, try_except at 1.
  rewrite (read_and_test fromisoformat) by exact Hlater.
  now rewrite Hstale.
Qed.

(** X7: the double check under the lock.  When [_refresh_token] gets the
    lock and the cache by then holds a usable token (another process stored
    it in the meantime), it returns that token, posts nothing, sleeps not at
    all and releases the lock; apart from the lock Redis is as it was. *)
Theorem refresh_token_double_check (self : manager) (w : world) :
  redis_down w (clock w) = false ->
  Redis.lookup (clock w) (redis w) TOKEN_LOCK_KEY = None ->
  holds_usable_token fromisoformat w = true ->
  let run := _refresh_token fromisoformat isoformat self w in
  fst run = Ok (Redis.get (clock w) (redis w) TOKEN_KEY) /\
  posts (snd run) = posts w /\
  slept (snd run) = slept w /\
  redis (snd run) !! TOKEN_LOCK_KEY = None /\
  (forall k, k <> TOKEN_LOCK_KEY -> redis (snd run) !! k = redis w !! k).
Proof.
  intros Hup Hfree Husable run.
  assert (Hrun : exists lock,
            run = (Ok (Redis.get (clock w) (redis w) TOKEN_KEY),
                   with_redis (delete TOKEN_LOCK_KEY
                                 (<[TOKEN_LOCK_KEY := lock]> (redis w))) w)).
  { eexists. subst run.
    unfold _refresh_token. unfold try_except at 1. unfold bind at 1.
    rewrite (cache_add_taken w Hup Hfree). cbn [negb].
    unfold try_finally. rewrite (read_and_test fromisoformat) by exact Hup.
    rewrite holds_usable_token_lock, Husable. unfold ret at 1.
    rewrite release_lock by exact Hup.
    destruct token_keys_apart as (H1 & _).
    unfold Redis.get, Redis.lookup. cbn [redis clock with_redis with_clock_redis].
    rewrite lookup_insert_ne by assumption. reflexivity. }
  destruct Hrun as (lock & ->). cbn [fst snd].
  split; [reflexivity |]. split; [reflexivity |]. split; [reflexivity |].
  split; [apply lookup_delete_eq |].
  intros k Hk. cbn [redis with_redis with_clock_redis].
  rewrite lookup_delete_ne by congruence. now rewrite lookup_insert_ne by congruence.
Qed.

(** *** Redis failing during the wait *)

Lemma wait_step_fails k rest w :
  redis_down w (clock (after_waits (S k) w)) = true ->
  wait_for_refresh fromisoformat (Z.of_nat k :: rest) (after_waits k w)
  = (Err CacheError, after_waits (S k) w).
Proof.
  intros Hdown. cbn [wait_for_refresh].
  unfold bind at 1. unfold time_sleep at 1.
  change (with_clock_redis _ _ _) with (after_waits (S k) w).
  unfold bind at 1. unfold cache_get at 1.
  destruct (after_waits_fixed (S k) w) as [-> _]. now rewrite Hdown.
Qed.

Lemma wait_for_refresh_fails n : forall k m w,
  (k <= m < k + n)%nat ->
  (forall j, (k <= j < m)%nat ->
     redis_down w (clock (after_waits (S j) w)) = false /\
     holds_usable_token fromisoformat (after_waits (S j) w) = false) ->
  redis_down w (clock (after_waits (S m) w)) = true ->
  wait_for_refresh fromisoformat (map Z.of_nat (seq k n)) (after_waits k w)
  = (Err CacheError, after_waits (S m) w).
Proof.
  induction n as [| n IH]; intros k m w Hm Hbefore Hdown; [lia |].
  cbn [seq map]. destruct (decide (m = k)) as [-> | Hne].
  - now apply wait_step_fails.
  - destruct (Hbefore k ltac:(lia)) as [Hupk Hmiss].
    rewrite (wait_step fromisoformat) by exact Hupk. rewrite Hmiss.
    apply IH; auto; try lia. intros j Hj. apply Hbefore. lia.
Qed.

(** X8: Redis failing while [_refresh_token] waits for the lock holder.  If
    the first k waits found no usable token and Redis is unreachable when
    wait k + 1 is over (k < 5), the call stops waiting: it has slept
    2, 4, ..., 2 * 2^k seconds and goes to the direct request at once. *)
Theorem refresh_token_redis_fails_waiting (self : manager) (w : world) (k : nat) :
  redis_down w (clock w) = false ->
  Redis.lookup (clock w) (redis w) TOKEN_LOCK_KEY <> None ->
  (k < 5)%nat ->
  (forall j, (j < k)%nat ->
     redis_down w (clock (after_waits (S j) w)) = false /\
     holds_usable_token fromisoformat (after_waits (S j) w) = false) ->
  redis_down w (clock (after_waits (S k) w)) = true ->
  let w' := after_waits (S k) w in
  _refresh_token fromisoformat isoformat self w
  = _request_new_token_direct isoformat self w' /\
  slept w' = slept w ++ map (fun i => 2 * 2 ^ Z.of_nat i) (seq 0 (S k)) /\
  posts w' = posts w.
Proof.
  intros Hup Hheld Hk Hbefore Hdown w'. split; [| split].
  - unfold _refresh_token. unfold try_except at 1. unfold bind at 1.
    rewrite (cache_add_refused _ _ _ w Hup Hheld). cbn [negb]. unfold bind at 1.
    change (seqZ 0 max_retries) with (map Z.of_nat (seq 0 5)).
    change w with (after_waits 0 w) at 1.
    rewrite (wait_for_refresh_fails 5 0 k w ltac:(lia)); [reflexivity | | exact Hdown].
    intros j Hj. apply Hbefore. lia.
  - apply after_waits_slept.
  - apply after_waits_fixed.
Qed.

(** *** Invalidation and inspection *)

(** X9: [invalidate_token] never raises and posts nothing.  With Redis
    unreachable it changes nothing; with Redis reachable it deletes both
    token keys, after which the cache holds no usable token at any later
    instant, so [get_token] is not answered from the cache but goes to
    [_refresh_token]. *)
Theorem invalidate_token_effect (self : manager) (w : world) :
  let run := invalidate_token self w in
  fst run = Ok tt /\
  posts (snd run) = posts w /\
  (redis_down w (clock w) = true -> snd run = w) /\
  (redis_down w (clock w) = false ->
     redis (snd run) = delete TOKEN_EXPIRES_KEY (delete TOKEN_KEY (redis w)) /\
     (forall dt, holds_usable_token fromisoformat (later dt (snd run)) = false) /\
     (forall dt,
        redis_down w (clock w + dt) = false ->
        get_token fromisoformat isoformat self (later dt (snd run))
        = try_except (_refresh_token fromisoformat isoformat self) any_exception
            (fun _ => _request_new_token_direct isoformat self) (later dt (snd run)))).
Proof.
  intros run.
  destruct (redis_down w (clock w)) eqn:Hdown.
  - assert (Hrun : run = (Ok tt, w)).
    { subst run. unfold invalidate_token, try_except, bind, cache_delete.
      now rewrite Hdown. }
    rewrite Hrun. cbn [fst snd].
    split; [reflexivity |]. split; [reflexivity |]. split; [reflexivity | discriminate].
  - assert (Hrun : run = (Ok tt, with_redis (delete TOKEN_EXPIRES_KEY
                                               (delete TOKEN_KEY (redis w))) w)).
    { subst run. unfold invalidate_token, try_except, bind.
      unfold cache_delete at 1. rewrite Hdown.
      unfold cache_delete at 1. cbn [clock redis_down with_redis with_clock_redis].
      now rewrite Hdown. }
    rewrite Hrun. cbn [fst snd].
    split; [reflexivity |]. split; [reflexivity |]. split; [discriminate |].
    intros _. split; [reflexivity |].
    assert (Hgone : forall dt,
              holds_usable_token fromisoformat
                (later dt (with_redis (delete TOKEN_EXPIRES_KEY
                                         (delete TOKEN_KEY (redis w))) w)) = false).
    { intros dt. unfold holds_usable_token, Redis.get, Redis.lookup.
      cbn [redis later with_redis with_clock_redis].
      destruct token_keys_apart as (_ & _ & H3).
      rewrite lookup_delete_ne by congruence. now rewrite lookup_delete_eq. }
    split; [exact Hgone |].
    intros dt Hup. unfold get_token, try_except at 1.
    rewrite (read_and_test fromisoformat) by exact Hup.
    now rewrite Hgone.
Qed.

Variable timedelta_str : Z -> string.
Variable interpreter_text : exn -> string.

(** X10: [get_token_info] never raises and changes nothing.  With Redis
    unreachable it reports cache_available False and is_valid False.  When it
    reports is_valid True, [get_token] returns the cached token without a
    request.  And for a cached token that is text, with Redis reachable, it
    reports has_token (the text is not empty), the token's length,
    cache_available True, and is_valid exactly when the cache holds a usable
    token. *)
Theorem get_token_info_reading (self : manager) (w : world) :
  exists info,
    get_token_info fromisoformat timedelta_str interpreter_text self w = (Ok info, w) /\
    (redis_down w (clock w) = true ->
       dict_get info "cache_available" = Some (VBool false) /\
       dict_get info "is_valid" = Some (VBool false)) /\
    (dict_get info "is_valid" = Some (VBool true) ->
       get_token fromisoformat isoformat self w
       = (Ok (Redis.get (clock w) (redis w) TOKEN_KEY), w)) /\
    (forall s,
       redis_down w (clock w) = false ->
       Redis.get (clock w) (redis w) TOKEN_KEY = VStr s ->
       dict_get info "has_token" = Some (VBool (negb (String.eqb s ""))) /\
       dict_get info "token_length" = Some (VInt (Z.of_nat (code_points s))) /\
       dict_get info "cache_available" = Some (VBool true) /\
       dict_get info "is_valid" = Some (VBool (holds_usable_token fromisoformat w))).
Proof.
  unfold get_token_info. unfold try_except at 1. unfold bind at 1. unfold cache_get at 1.
  destruct (redis_down w (clock w)) eqn:Hdown.
  { cbn [any_exception ret]. eexists. split; [reflexivity |].
    split; [intros _; split; reflexivity |].
    split; [cbn; discriminate | discriminate]. }
  unfold bind at 1. unfold cache_get at 1. rewrite Hdown.
  assert (Hget : forall usable,
            holds_usable_token fromisoformat w = usable ->
            usable = true ->
            get_token fromisoformat isoformat self w
            = (Ok (Redis.get (clock w) (redis w) TOKEN_KEY), w)).
  { intros usable Hu ->. unfold get_token, try_except.
    rewrite (read_and_test fromisoformat) by exact Hdown. now rewrite Hu. }
  revert Hget. unfold holds_usable_token.
  set (token := Redis.get (clock w) (redis w) TOKEN_KEY).
  set (expires_str := Redis.get (clock w) (redis w) TOKEN_EXPIRES_KEY).
  intros Hget.
  unfold bind at 1. unfold lift at 1.
  destruct (truthy token) eqn:Ht.
  - destruct (py_len token) as [len | e] eqn:Hlen.
    + destruct (truthy expires_str) eqn:He; cbn [andb].
      * unfold try_except at 1. unfold bind at 1. unfold lift at 1.
        destruct (parse_expiry fromisoformat expires_str) as [[t | t off] | e] eqn:Hp.
        -- unfold bind at 1. unfold datetime_now at 1.
           unfold bind at 1. unfold lift at 1. cbn [naive_lt].
           destruct (clock w <? t) eqn:Hlt.
           ++ cbn. eexists. split; [reflexivity |].
              split; [discriminate |].
              split; [intros _; now apply (Hget true) |].
              intros s _ Hs. rewrite Hs in Hlen, Ht. cbn in Hlen, Ht.
              injection Hlen as <-. rewrite Ht. repeat split; reflexivity.
           ++ cbn. eexists. split; [reflexivity |].
              split; [discriminate |].
              split; [cbn; discriminate |].
              intros s _ Hs. rewrite Hs in Hlen, Ht. cbn in Hlen, Ht.
              injection Hlen as <-. rewrite Ht. repeat split; reflexivity.
        -- cbn. eexists. split; [reflexivity |].
           split; [discriminate |].
           split; [cbn; discriminate |].
           intros s _ Hs. rewrite Hs in Hlen, Ht. cbn in Hlen, Ht.
           injection Hlen as <-. rewrite Ht. repeat split; reflexivity.
        -- assert (Hve : value_or_type_error e = true).
           { unfold parse_expiry in Hp. destruct expires_str; try (now injection Hp as <-).
             destruct (fromisoformat s); [discriminate | now injection Hp as <-]. }
           cbn [fst snd]. rewrite Hve. cbn. eexists. split; [reflexivity |].
           split; [discriminate |].
           split; [cbn; discriminate |].
           intros s _ Hs. rewrite Hs in Hlen, Ht. cbn in Hlen, Ht.
           injection Hlen as <-. rewrite Ht. repeat split; reflexivity.
      * cbn. eexists. split; [reflexivity |].
        split; [discriminate |].
        split; [cbn; discriminate |].
        intros s _ Hs. rewrite Hs in Hlen, Ht. cbn in Hlen, Ht.
        injection Hlen as <-. rewrite Ht. repeat split; reflexivity.
    + cbn. eexists. split; [reflexivity |].
      split; [discriminate |].
      split; [cbn; discriminate |].
      intros s _ Hs. rewrite Hs in Hlen. discriminate.
  - cbn. eexists. split; [reflexivity |].
    split; [discriminate |].
    split; [cbn; discriminate |].
    intros s _ Hs. rewrite Hs in Ht. cbn in Ht.
    apply negb_false_iff in Ht. rewrite Ht. apply String.eqb_eq in Ht. subst s.
    repeat split; reflexivity.
Qed.

(** *** Construction *)

(** X11: what [KISTokenManager()] makes of the environment.  An unset or
    empty KIS_APP_KEY or KIS_APP_SECRET makes the constructor, and a first
    [get_token_manager], raise ValueError and change nothing.  With both
    set and not empty the instance holds them, with KIS_BASE_URL as its base
    URL or the default URL when that variable is unset; a first
    [get_token_manager] then returns a new object holding that instance and
    makes it the module global. *)
Theorem token_manager_init_outcome (w : world) :
  let key := environ w !! "KIS_APP_KEY" in
  let secret := environ w !! "KIS_APP_SECRET" in
  (env_missing key = true \/ env_missing secret = true ->
     KISTokenManager_init w = (Err ValueError, w) /\
     (_token_manager w = None -> get_token_manager w = (Err ValueError, w))) /\
  (forall k s,
     key = Some k -> secret = Some s -> k <> "" -> s <> "" ->
     let self := {| app_key := k; app_secret := s;
                    base_url := default default_base_url
                                  (environ w !! "KIS_BASE_URL") |} in
     KISTokenManager_init w = (Ok self, w) /\
     (_token_manager w = None ->
      exists l w',
        get_token_manager w = (Ok l, w') /\
        instances w !! l = None /\
        instances w' = <[l := self]> (instances w) /\
        _token_manager w' = Some l /\
        environ w' = environ w /\ redis w' = redis w /\ posts w' = posts w)).
Proof.
  intros key secret. split.
  - intros Hmissing.
    assert (Hinit : KISTokenManager_init w = (Err ValueError, w)).
    { unfold KISTokenManager_init, bind, getenv. fold key secret.
      assert (env_missing key || env_missing secret = true) as ->; [| reflexivity].
      apply orb_true_iff. exact Hmissing. }
    split; [exact Hinit |].
    intros Hnone. unfold get_token_manager, KISTokenManager_new, bind.
    now rewrite Hnone, Hinit.
  - intros k s Hk Hs Hkne Hsne self.
    assert (Hinit : KISTokenManager_init w = (Ok self, w)).
    { unfold KISTokenManager_init, bind, getenv. fold key secret.
      rewrite Hk, Hs. cbn [env_missing default].
      apply String.eqb_neq in Hkne, Hsne. now rewrite Hkne, Hsne. }
    split; [exact Hinit |].
    intros Hnone. unfold get_token_manager, KISTokenManager_new, bind.
    rewrite Hnone, Hinit. do 2 eexists. split; [reflexivity |].
    split; [apply not_elem_of_dom, is_fresh |].
    repeat split; reflexivity.
Qed.

End TokenCalls.

(** ** The OTP manager: keys, expiry and whole flows *)

Section OTPCalls.
Import OTP.

Variable pbkdf2_hmac_sha256 : string -> string -> N -> string.
Variable json_dumps : pyval -> string.
Variable json_loads : string -> option pyval.
Variable isoformat_utc : Z -> string.

(** *** Keys *)

Lemma colon_free_append_colon a b :
  colon_free (String.append a (String colon b)) = false.
Proof.
  induction a as [| c r IH]; simpl.
  - reflexivity.
  - simpl in IH. rewrite IH. apply andb_false_r.
Qed.

Lemma append_colon_inj e1 : forall e2 p1 p2,
  colon_free p1 = true -> colon_free p2 = true ->
  String.append e1 (String colon p1) = String.append e2 (String colon p2) ->
  e1 = e2 /\ p1 = p2.
Proof.
  induction e1 as [| c r IH]; intros [| c' r'] p1 p2 H1 H2; simpl;
    intros Heq.
  - now injection Heq as ->.
  - injection Heq as _ ->. now rewrite colon_free_append_colon in H1.
  - injection Heq as _ <-. now rewrite colon_free_append_colon in H2.
  - injection Heq as -> Hrest. destruct (IH _ _ _ H1 H2 Hrest) as [-> ->]. auto.
Qed.

Lemma generate_key_inj email1 purpose1 email2 purpose2 :
  colon_free purpose1 = true -> colon_free purpose2 = true ->
  _generate_key email1 purpose1 = _generate_key email2 purpose2 ->
  email1 = email2 /\ purpose1 = purpose2.
Proof.
  intros H1 H2 Heq. unfold _generate_key in Heq. simpl in Heq.
  injection Heq as Heq. now apply append_colon_inj.
Qed.

(** X12: the Redis key names its OTP.  For purposes without a colon, as the
    two purposes of the class are, "otp:{email}:{purpose}" is the same key
    only for the same address and the same purpose; with a colon in the
    purpose two different pairs can share a key. *)
Theorem generate_key_injective :
  colon_free PURPOSE_SIGNUP = true /\
  colon_free PURPOSE_PASSWORD_RESET = true /\
  (forall email1 purpose1 email2 purpose2,
     colon_free purpose1 = true -> colon_free purpose2 = true ->
     _generate_key email1 purpose1 = _generate_key email2 purpose2 ->
     email1 = email2 /\ purpose1 = purpose2) /\
  (exists email1 purpose1 email2 purpose2,
     (email1, purpose1) <> (email2, purpose2) /\
     _generate_key email1 purpose1 = _generate_key email2 purpose2).
Proof.
  split; [reflexivity |]. split; [reflexivity |]. split.
  - exact generate_key_inj.
  - exists "a", "b:c", "a:b", "c". split; [discriminate | reflexivity].
Qed.

(** *** Every call works on its own key *)

Lemma writes_only_ret {A} key (a : A) : writes_only key (ret a).
Proof. intros w. cbn. auto. Qed.

Lemma writes_only_raise {A} key e : writes_only key (raise e : Py A).
Proof. intros w. cbn. auto. Qed.

Lemma writes_only_lift {A} key (r : result A) : writes_only key (lift r).
Proof. intros w. cbn. auto. Qed.

Lemma writes_only_bind {A B} key (m : Py A) (k : A -> Py B) :
  writes_only key m -> (forall a, writes_only key (k a)) -> writes_only key (bind m k).
Proof.
  intros Hm Hk w. unfold bind.
  destruct (Hm w) as (Hc & Hd & Hf).
  destruct (m w) as [[a | e] w1]; cbn [snd] in *; [| auto].
  destruct (Hk a w1) as (Hc' & Hd' & Hf').
  split; [congruence |]. split; [congruence |].
  intros k0 Hk0. now rewrite Hf', Hf.
Qed.

Lemma writes_only_cache_get key : writes_only key (cache_get key).
Proof. intros w. cbn. auto. Qed.

Lemma writes_only_cache_ttl key : writes_only key (cache_ttl key).
Proof. intros w. cbn. auto. Qed.

Lemma writes_only_cache_set key v timeout : writes_only key (cache_set key v timeout).
Proof.
  intros w. cbn. split; [reflexivity |]. split; [reflexivity |].
  intros k Hk. now apply redis_set_other.
Qed.

Lemma writes_only_cache_delete key : writes_only key (cache_delete key).
Proof.
  intros w. cbn. split; [reflexivity |]. split; [reflexivity |].
  intros k Hk. unfold Redis.remove. now rewrite lookup_delete_ne.
Qed.

Lemma writes_only_verify email purpose code :
  writes_only (_generate_key email purpose)
    (verify pbkdf2_hmac_sha256 json_dumps json_loads email purpose code).
Proof.
  unfold verify.
  apply writes_only_bind; [apply writes_only_cache_get |]. intros cached_data.
  destruct (negb (truthy cached_data)); [apply writes_only_ret |].
  destruct (py_json_loads json_loads cached_data) as [loaded | e].
  2:{ destruct (value_or_type_error e); [apply writes_only_ret | apply writes_only_raise]. }
  apply writes_only_bind; [apply writes_only_lift |]. intros otp_data.
  apply writes_only_bind; [apply writes_only_lift |]. intros exhausted.
  destruct exhausted.
  - apply writes_only_bind; [apply writes_only_cache_delete |]. intros _.
    apply writes_only_ret.
  - apply writes_only_bind; [apply writes_only_lift |]. intros stored_hash.
    apply writes_only_bind; [apply writes_only_lift |]. intros matches.
    destruct matches; cbn [negb].
    + apply writes_only_bind; [apply writes_only_cache_ttl |]. intros remaining.
      apply writes_only_bind; [apply writes_only_cache_set |]. intros _.
      apply writes_only_ret.
    + apply writes_only_bind; [apply writes_only_lift |]. intros attempts.
      apply writes_only_bind; [apply writes_only_lift |]. intros bumped.
      apply writes_only_bind; [apply writes_only_cache_ttl |]. intros remaining.
      apply writes_only_bind; [apply writes_only_cache_set |]. intros _.
      apply writes_only_ret.
Qed.

(** X13: the calls for one address and purpose leave every other key of
    Redis as it is: [issue], [verify] and [delete] change at most the key
    "otp:{email}:{purpose}", and [get], [exists] and [get_ttl] change
    nothing at all. *)
Theorem otp_calls_touch_one_key (email purpose : string) (k : string) :
  k <> _generate_key email purpose ->
  (forall ttl_minutes w,
     redis (snd (issue pbkdf2_hmac_sha256 json_dumps isoformat_utc
                   email purpose ttl_minutes w)) !! k = redis w !! k) /\
  (forall code w,
     redis (snd (verify pbkdf2_hmac_sha256 json_dumps json_loads
                   email purpose code w)) !! k = redis w !! k) /\
  (forall w, redis (snd (RedisOTPManager.delete email purpose w)) !! k = redis w !! k) /\
  (forall w,
     snd (RedisOTPManager.get json_loads email purpose w) = w /\
     snd (RedisOTPManager.exists_ email purpose w) = w /\
     snd (RedisOTPManager.get_ttl email purpose w) = w).
Proof.
  intros Hk. split; [| split; [| split]].
  - intros ttl_minutes w.
    rewrite (issue_run pbkdf2_hmac_sha256 json_dumps isoformat_utc). cbn [snd redis with_redis].
    now apply redis_set_other.
  - intros code w.
    destruct (writes_only_verify email purpose code w) as (_ & _ & Hf). now apply Hf.
  - intros w. cbn. unfold Redis.remove. now rewrite lookup_delete_ne.
  - intros w. split; [| split; reflexivity].
    unfold RedisOTPManager.get, bind, cache_get.
    destruct (negb (truthy _)); [reflexivity |].
    destruct (py_json_loads _ _) as [v | e]; [reflexivity |].
    now destruct (value_or_type_error e).
Qed.

(** *** From [issue] to [verify] *)

(** What [issue] leaves under the key. *)
Lemma issue_entry email purpose ttl_minutes w :
  let ttl := default 10 ttl_minutes in
  let text := json_dumps (VDict (otp_record (issued_hash pbkdf2_hmac_sha256 w)
                                   (isoformat_utc (clock w)) purpose email)) in
  let w1 := snd (issue pbkdf2_hmac_sha256 json_dumps isoformat_utc
                   email purpose ttl_minutes w) in
  clock w1 = clock w /\
  (ttl <= 0 -> redis w1 !! _generate_key email purpose = None) /\
  (0 < ttl ->
   redis w1 !! _generate_key email purpose
   = Some {| Redis.value := VStr text;
             Redis.deadline := Some (clock w + ttl * 60 * 1000000) |}).
Proof.
  intros ttl text w1. subst w1.
  rewrite (issue_run pbkdf2_hmac_sha256 json_dumps isoformat_utc). cbn [snd].
  fold text. fold ttl. cbn [clock redis with_redis with_drawn].
  split; [reflexivity |].
  unfold Redis.set. rewrite timeout_ms_integer.
  split; intros Httl.
  - destruct (Z.leb_spec (ttl * 60 * 1000) 0); [| lia]. apply lookup_delete_eq.
  - destruct (Z.leb_spec (ttl * 60 * 1000) 0); [lia |].
    rewrite lookup_insert_eq. do 3 f_equal. lia.
Qed.

(** The seconds [cache.ttl] reports for a key that has [left] microseconds
    to live: Redis rounds the milliseconds to the nearest second. *)
Lemma ttl_of_stored now (db : gmap string Redis.entry) key v d :
  db !! key = Some {| Redis.value := v; Redis.deadline := Some d |} ->
  now <= d ->
  Redis.ttl now db key = Some (((d - now) `div` 1000 + 500) `div` 1000).
Proof.
  intros H Hlive. unfold Redis.ttl, Redis.lookup, Redis.live. rewrite H.
  cbn [Redis.deadline]. destruct (Z.leb_spec now d); [reflexivity | lia].
Qed.

Section IssuedOTP.

Variables (email purpose : string) (ttl_minutes : option Z) (w : world).

Let ttl := default 10 ttl_minutes.
Let key := _generate_key email purpose.
Let record (verified : bool) : pydict :=
  otp_state (issued_hash pbkdf2_hmac_sha256 w) (isoformat_utc (clock w))
    purpose email 0 verified.
Let w1 := snd (issue pbkdf2_hmac_sha256 json_dumps isoformat_utc
                 email purpose ttl_minutes w).

Hypothesis loads_empty : json_loads "" = None.
Hypothesis loads_dumps : forall verified,
  json_loads (json_dumps (VDict (record verified))) = Some (VDict (record verified)).

Lemma record_text_not_empty verified : json_dumps (VDict (record verified)) <> "".
Proof.
  intros Hempty. pose proof (loads_dumps verified) as H.
  rewrite Hempty, loads_empty in H. discriminate.
Qed.

(** The right code, while the OTP lives: accepted, and the record is written
    back with the seconds of life [cache.ttl] reported. *)
Lemma verify_issued_code dt :
  0 < ttl ->
  dt <= ttl * 60 * 1000000 ->
  let left := ttl * 60 * 1000000 - dt in
  verify pbkdf2_hmac_sha256 json_dumps json_loads email purpose (issued_code w)
    (elapse dt w1)
  = (Ok (true, Verified, Some (record true)),
     with_redis
       (Redis.set (clock w + dt) (redis w1) key
          (VStr (json_dumps (VDict (record true))))
          (Some (inject_Z ((left `div` 1000 + 500) `div` 1000))))
       (elapse dt w1)).
Proof.
  intros Hpos Hdt left.
  destruct (issue_entry email purpose ttl_minutes w) as (Hclock & _ & Hentry).
  fold ttl key w1 in Hclock, Hentry. specialize (Hentry Hpos).
  change (otp_record (issued_hash pbkdf2_hmac_sha256 w) (isoformat_utc (clock w))
            purpose email) with (record false) in Hentry.
  assert (Hnow : clock (elapse dt w1) = clock w + dt).
  { cbn [elapse clock with_clock]. now rewrite Hclock. }
  assert (Hlive : clock w + dt <= clock w + ttl * 60 * 1000000) by lia.
  destruct (redis_lookup_stored (clock w + dt) _ _ _ _ Hentry) as [Hget _].
  specialize (Hget Hlive).
  pose proof (ttl_of_stored (clock w + dt) _ _ _ _ Hentry Hlive) as Httl.
  replace (clock w + ttl * 60 * 1000000 - (clock w + dt)) with left in Httl
    by (unfold left; lia).
  rewrite (verify_on_record pbkdf2_hmac_sha256 json_dumps json_loads
             email purpose (issued_code w) (elapse dt w1)
             (json_dumps (VDict (record false))) (record false) 0
             (VStr (issued_hash pbkdf2_hmac_sha256 w))).
  - cbn zeta. fold key. rewrite Hnow.
    change (redis (elapse dt w1)) with (redis w1).
    rewrite Httl. cbn [option_map Z.leb Z.compare].
    unfold issued_hash at 1. rewrite verify_salted_hash. reflexivity.
  - rewrite Hnow. exact Hget.
  - apply record_text_not_empty.
  - apply loads_dumps.
  - reflexivity.
  - reflexivity.
Qed.

End IssuedOTP.

Lemma get_nothing_cached email purpose w :
  Redis.lookup (clock w) (redis w) (_generate_key email purpose) = None ->
  RedisOTPManager.get json_loads email purpose w = (Ok VNone, w) /\
  RedisOTPManager.exists_ email purpose w = (Ok false, w) /\
  RedisOTPManager.get_ttl email purpose w = (Ok (Some 0), w) /\
  forall code,
    verify pbkdf2_hmac_sha256 json_dumps json_loads email purpose code w
    = (Ok (false, RequestFirst, None), w).
Proof.
  intros Hnone. destruct (redis_get_absent _ _ _ Hnone) as [Hget Httl].
  split; [| split; [| split]].
  - unfold RedisOTPManager.get, bind, cache_get. now rewrite Hget.
  - unfold RedisOTPManager.exists_, bind, cache_get. now rewrite Hget.
  - unfold RedisOTPManager.get_ttl, cache_ttl. now rewrite Httl.
  - intros code. apply verify_nothing_cached. now rewrite Hget.
Qed.

Lemma get_cached_record email purpose w d :
  Redis.get (clock w) (redis w) (_generate_key email purpose)
  = VStr (json_dumps (VDict d)) ->
  json_dumps (VDict d) <> "" ->
  json_loads (json_dumps (VDict d)) = Some (VDict d) ->
  RedisOTPManager.get json_loads email purpose w = (Ok (VDict d), w) /\
  RedisOTPManager.exists_ email purpose w = (Ok true, w).
Proof.
  intros Hget Hne Hloads. apply String.eqb_neq in Hne. split.
  - unfold RedisOTPManager.get, bind, cache_get. rewrite Hget. cbn [truthy].
    rewrite Hne. cbn [negb py_json_loads]. now rewrite Hloads.
  - unfold RedisOTPManager.exists_, bind, cache_get. now rewrite Hget.
Qed.

(** X14: from [issue] to a verified address.  If [json.loads] reads back
    what [json.dumps] wrote for the record of the issued OTP (and rejects
    the empty text), then [verify] with the issued code, at any moment that
    leaves the OTP at least half a second to live, succeeds and returns the
    record with verified True; and right after it [get] returns that record
    and [exists] answers True, which is what the registration and
    password-reset serializers check. *)
Theorem issue_then_verify_accepts
    (email purpose : string) (ttl_minutes : option Z) (w : world) (dt : Z) :
  let ttl := default 10 ttl_minutes in
  let record verified :=
    otp_state (issued_hash pbkdf2_hmac_sha256 w) (isoformat_utc (clock w))
      purpose email 0 verified in
  json_loads "" = None ->
  (forall verified,
     json_loads (json_dumps (VDict (record verified))) = Some (VDict (record verified))) ->
  0 <= dt ->
  dt + 500000 <= ttl * 60 * 1000000 ->
  let w1 := snd (issue pbkdf2_hmac_sha256 json_dumps isoformat_utc
                   email purpose ttl_minutes w) in
  let run := verify pbkdf2_hmac_sha256 json_dumps json_loads
               email purpose (issued_code w) (elapse dt w1) in
  fst run = Ok (true, Verified, Some (record true)) /\
  dict_get (record true) "verified" = Some (VBool true) /\
  RedisOTPManager.get json_loads email purpose (snd run)
  = (Ok (VDict (record true)), snd run) /\
  RedisOTPManager.exists_ email purpose (snd run) = (Ok true, snd run).
Proof.
  intros ttl record Hempty Hcodec Hdt Hleft w1 run.
  assert (Hrun := verify_issued_code email purpose ttl_minutes w Hempty Hcodec dt
                    ltac:(fold ttl; lia) ltac:(fold ttl; lia)).
  cbn zeta in Hrun. fold ttl record w1 run in Hrun.
  set (left := ttl * 60 * 1000000 - dt) in *.
  set (t := (left `div` 1000 + 500) `div` 1000) in *.
  assert (Ht : 1 <= t).
  { unfold t. apply Z.div_le_lower_bound; [lia |].
    assert (500 <= left `div` 1000) by (apply Z.div_le_lower_bound; unfold left; lia).
    lia. }
  rewrite Hrun. cbn [fst snd].
  split; [reflexivity |]. split; [reflexivity |].
  apply get_cached_record.
  - cbn [clock redis with_redis elapse with_clock].
    unfold Redis.set. rewrite timeout_ms_integer.
    destruct (Z.leb_spec (t * 1000) 0); [lia |].
    eapply redis_lookup_stored; [apply lookup_insert_eq |].
    destruct (issue_entry email purpose ttl_minutes w) as (Hclock & _).
    fold w1 in Hclock. lia.
  - apply (record_text_not_empty email purpose w Hempty Hcodec).
  - apply Hcodec.
Qed.

(** X15: the last half second.  With less than 500 ms of life left, the
    instant of the deadline included, [cache.ttl] reports 0 seconds and
    writing the record back with that timeout deletes the key: [verify]
    with the issued code still answers that the address is verified, but
    the record is gone, and [get] right after it returns None. *)
Theorem verify_in_last_half_second
    (email purpose : string) (ttl_minutes : option Z) (w : world) (dt : Z) :
  let ttl := default 10 ttl_minutes in
  let record verified :=
    otp_state (issued_hash pbkdf2_hmac_sha256 w) (isoformat_utc (clock w))
      purpose email 0 verified in
  json_loads "" = None ->
  (forall verified,
     json_loads (json_dumps (VDict (record verified))) = Some (VDict (record verified))) ->
  0 < ttl ->
  0 <= dt <= ttl * 60 * 1000000 ->
  ttl * 60 * 1000000 - dt < 500000 ->
  let w1 := snd (issue pbkdf2_hmac_sha256 json_dumps isoformat_utc
                   email purpose ttl_minutes w) in
  let run := verify pbkdf2_hmac_sha256 json_dumps json_loads
               email purpose (issued_code w) (elapse dt w1) in
  fst run = Ok (true, Verified, Some (record true)) /\
  redis (snd run) !! _generate_key email purpose = None /\
  RedisOTPManager.get json_loads email purpose (snd run) = (Ok VNone, snd run) /\
  RedisOTPManager.exists_ email purpose (snd run) = (Ok false, snd run).
Proof.
  intros ttl record Hempty Hcodec Hpos Hdt Hleft w1 run.
  assert (Hrun := verify_issued_code email purpose ttl_minutes w Hempty Hcodec dt
                    Hpos ltac:(fold ttl; lia)).
  cbn zeta in Hrun. fold ttl record w1 run in Hrun.
  set (left := ttl * 60 * 1000000 - dt) in *.
  assert (Ht : (left `div` 1000 + 500) `div` 1000 = 0).
  { apply Z.div_small.
    assert (0 <= left `div` 1000) by (apply Z.div_pos; lia).
    assert (left `div` 1000 < 500) by (apply Z.div_lt_upper_bound; lia).
    lia. }
  rewrite Ht in Hrun. rewrite Hrun. cbn [fst snd].
  assert (Hgone : redis
                    (with_redis
                       (Redis.set (clock w + dt) (redis w1) (_generate_key email purpose)
                          (VStr (json_dumps (VDict (record true)))) (Some (inject_Z 0)))
                       (elapse dt w1)) !! _generate_key email purpose = None).
  { cbn [redis with_redis]. unfold Redis.set. rewrite timeout_ms_integer.
    cbn. apply lookup_delete_eq. }
  split; [reflexivity |]. split; [exact Hgone |].
  match goal with |- context [RedisOTPManager.get _ _ _ ?w2] =>
    destruct (get_nothing_cached email purpose w2) as (Hg & He & _)
  end.
  { unfold Redis.lookup. now rewrite Hgone. }
  split; assumption.
Qed.

(** X16: an OTP that is left alone expires.  [issue] with a positive
    ttl_minutes (10 when not given) arms the key for ttl_minutes * 60
    seconds.  As long as no [verify] has written the record back, the key
    is served up to and including that instant: [exists] answers True and
    [get_ttl] the seconds left, rounded to the nearest.  After that
    instant, or at once when ttl_minutes is not positive, [verify] answers
    "request a code first" for every code, even the issued one, and changes
    nothing; [get] returns None, [exists] False and [get_ttl] 0. *)
Theorem issued_otp_expires
    (email purpose : string) (ttl_minutes : option Z) (w : world) (dt : Z) :
  let ttl := default 10 ttl_minutes in
  let life := ttl * 60 * 1000000 in
  let w1 := elapse dt (snd (issue pbkdf2_hmac_sha256 json_dumps isoformat_utc
                              email purpose ttl_minutes w)) in
  (0 < ttl -> dt <= life ->
     RedisOTPManager.exists_ email purpose w1 = (Ok true, w1) /\
     RedisOTPManager.get_ttl email purpose w1
     = (Ok (Some (((life - dt) `div` 1000 + 500) `div` 1000)), w1)) /\
  (ttl <= 0 \/ life < dt ->
     (forall code,
        verify pbkdf2_hmac_sha256 json_dumps json_loads email purpose code w1
        = (Ok (false, RequestFirst, None), w1)) /\
     RedisOTPManager.get json_loads email purpose w1 = (Ok VNone, w1) /\
     RedisOTPManager.exists_ email purpose w1 = (Ok false, w1) /\
     RedisOTPManager.get_ttl email purpose w1 = (Ok (Some 0), w1)).
Proof.
  intros ttl life w1.
  destruct (issue_entry email purpose ttl_minutes w) as (Hclock & Hnone & Hsome).
  fold ttl in Hnone, Hsome.
  assert (Hnow : clock w1 = clock w + dt).
  { cbn [w1 elapse clock with_clock]. now rewrite Hclock. }
  split.
  - intros Hpos Hdt. specialize (Hsome Hpos).
    change (redis (snd (issue pbkdf2_hmac_sha256 json_dumps isoformat_utc
                          email purpose ttl_minutes w)))
      with (redis w1) in Hsome.
    split.
    + unfold RedisOTPManager.exists_, bind, cache_get. rewrite Hnow.
      rewrite (proj1 (redis_lookup_stored (clock w + dt) _ _ _ _ Hsome)) by lia.
      reflexivity.
    + unfold RedisOTPManager.get_ttl, cache_ttl. rewrite Hnow.
      rewrite (ttl_of_stored (clock w + dt) _ _ _ _ Hsome) by lia.
      replace (clock w + ttl * 60 * 1000000 - (clock w + dt)) with (life - dt)
        by (unfold life; lia).
      reflexivity.
  - intros Hover.
    assert (Hgone : Redis.lookup (clock w1) (redis w1) (_generate_key email purpose) = None).
    { rewrite Hnow. cbn [w1 elapse redis with_clock].
      destruct (Z.le_gt_cases ttl 0) as [Hle | Hgt].
      - unfold Redis.lookup. now rewrite (Hnone Hle).
      - apply (proj2 (redis_lookup_stored (clock w + dt) _ _ _ _ (Hsome Hgt))).
        unfold life in Hover. lia. }
    destruct (get_nothing_cached email purpose w1 Hgone) as (Hg & He & Ht & Hv).
    repeat split; assumption.
Qed.

(** X17: [delete] ends an OTP.  It answers whether the key was there, and
    from then on, until the next [issue], [verify] answers "request a code
    first" for every code, [get] returns None and [exists] False. *)
Theorem delete_then_nothing (email purpose : string) (w : world) (dt : Z) :
  let key := _generate_key email purpose in
  let run := RedisOTPManager.delete email purpose w in
  let w1 := elapse dt (snd run) in
  (fst run = Ok true <-> Redis.lookup (clock w) (redis w) key <> None) /\
  (fst run = Ok false <-> Redis.lookup (clock w) (redis w) key = None) /\
  redis (snd run) = delete key (redis w) /\
  (forall code,
     verify pbkdf2_hmac_sha256 json_dumps json_loads email purpose code w1
     = (Ok (false, RequestFirst, None), w1)) /\
  RedisOTPManager.get json_loads email purpose w1 = (Ok VNone, w1) /\
  RedisOTPManager.exists_ email purpose w1 = (Ok false, w1).
Proof.
  intros key run w1.
  assert (Hgone : Redis.lookup (clock w1) (redis w1) key = None)
    by apply redis_lookup_deleted.
  destruct (get_nothing_cached email purpose w1 Hgone) as (Hg & He & _ & Hv).
  split; [| split; [| split; [reflexivity | repeat split; assumption]]].
  - cbn. fold key. destruct (Redis.lookup (clock w) (redis w) key); split; congruence.
  - cbn. fold key. destruct (Redis.lookup (clock w) (redis w) key); split; congruence.
Qed.

(** X18: what [verify] and [get] make of a stored value they cannot read.
    A value that is not text, or text that is not JSON, is answered
    "corrupted" by [verify] and None by [get], and nothing changes.  JSON
    text that is not an object makes [verify] raise AttributeError (where
    [get] returns the value), and an object with neither attempts nor
    code_hash makes it raise KeyError. *)
Theorem verify_unreadable_record (email purpose code : string) (w : world) :
  let cached := Redis.get (clock w) (redis w) (_generate_key email purpose) in
  let run := verify pbkdf2_hmac_sha256 json_dumps json_loads email purpose code w in
  truthy cached = true ->
  ((forall s, cached <> VStr s) \/ (exists s, cached = VStr s /\ json_loads s = None) ->
     run = (Ok (false, Corrupted, None), w) /\
     RedisOTPManager.get json_loads email purpose w = (Ok VNone, w)) /\
  (forall s v,
     cached = VStr s -> json_loads s = Some v -> (forall d, v <> VDict d) ->
     run = (Err AttributeError, w) /\
     RedisOTPManager.get json_loads email purpose w = (Ok v, w)) /\
  (forall s d,
     cached = VStr s -> json_loads s = Some (VDict d) ->
     dict_get d "attempts" = None -> dict_get d "code_hash" = None ->
     run = (Err KeyError, w)).
Proof.
  intros cached run Htruthy.
  assert (Hget : RedisOTPManager.get json_loads email purpose w
                 = match py_json_loads json_loads cached with
                   | Ok v => (Ok v, w)
                   | Err e => if value_or_type_error e then (Ok VNone, w) else (Err e, w)
                   end).
  { unfold RedisOTPManager.get, bind, cache_get. fold cached. rewrite Htruthy.
    cbn [negb]. destruct (py_json_loads json_loads cached) as [v | e]; [reflexivity |].
    now destruct (value_or_type_error e). }
  rewrite Hget. clear Hget.
  assert (Hrun : run = match py_json_loads json_loads cached with
                       | Ok loaded =>
                           snd (verify pbkdf2_hmac_sha256 json_dumps json_loads
                                  email purpose code w,
                                run)
                       | Err e => if value_or_type_error e
                                  then (Ok (false, Corrupted, None), w) else (Err e, w)
                       end).
  { destruct (py_json_loads json_loads cached) as [loaded | e] eqn:Hl; [reflexivity |].
    subst run. unfold verify, bind at 1, cache_get at 1. fold cached.
    rewrite Htruthy, Hl. cbn [negb]. now destruct (value_or_type_error e). }
  assert (Hobject : forall s v,
            cached = VStr s -> json_loads s = Some v ->
            run = (otp_data <- lift (match v with
                                     | VDict d => Ok d
                                     | _ => Err AttributeError
                                     end) ;;
                   exhausted <- lift (py_ge (dict_get_default otp_data "attempts" (VInt 0))
                                            MAX_ATTEMPTS) ;;
                   if (exhausted : bool) then
                     cache_delete (_generate_key email purpose) ;;;
                     ret (false, TooManyAttempts, None)
                   else
                     stored_hash <- lift (py_item otp_data "code_hash") ;;
                     matches <- lift (_verify_hash pbkdf2_hmac_sha256 code stored_hash) ;;
                     if negb matches then
                       attempts <- lift (py_item otp_data "attempts") ;;
                       bumped <- lift (py_succ attempts) ;;
                       let otp_data := dict_set otp_data "attempts" bumped in
                       remaining <- cache_ttl (_generate_key email purpose) ;;
                       cache_set (_generate_key email purpose)
                         (VStr (json_dumps (VDict otp_data))) remaining ;;;
                       ret (false, WrongCode, None)
                     else
                       let otp_data := dict_set otp_data "verified" (VBool true) in
                       remaining <- cache_ttl (_generate_key email purpose) ;;
                       cache_set (_generate_key email purpose)
                         (VStr (json_dumps (VDict otp_data))) remaining ;;;
                       ret (true, Verified, Some otp_data)) w).
  { intros s v Hs Hloads. subst run.
    unfold verify, bind at 1, cache_get at 1. fold cached.
    rewrite Htruthy, Hs. cbn [negb py_json_loads]. now rewrite Hloads. }
  clearbody run cached.
  split; [| split].
  - intros [Hnot | (s & Hs & Hloads)].
    + rewrite Hrun.
      destruct cached as [| b | n | x | s | l | d]; try (split; reflexivity).
      now destruct (Hnot s).
    + rewrite Hrun, Hs. cbn [py_json_loads]. rewrite Hloads. split; reflexivity.
  - intros s v Hs Hloads Hnot. rewrite (Hobject s v Hs Hloads), Hs.
    cbn [py_json_loads]. rewrite Hloads.
    split; [| reflexivity].
    destruct v as [| b | n | x | t | l | d]; try reflexivity. now destruct (Hnot d).
  - intros s d Hs Hloads Hattempts Hhash. rewrite (Hobject s (VDict d) Hs Hloads).
    unfold bind at 1. unfold lift at 1.
    unfold bind at 1. unfold lift at 1.
    unfold dict_get_default. rewrite Hattempts. cbn [py_ge as_number].
    unfold MAX_ATTEMPTS. rewrite Qle_bool_integers. cbn [Z.leb Z.compare].
    unfold bind at 1. unfold lift at 1. unfold py_item. now rewrite Hhash.
Qed.

(** *** The deadline after [verify] *)

(** The seconds [cache.ttl] makes of [left] microseconds of life, against
    those microseconds. *)
Lemma rounded_seconds_bounds (left : Z) :
  0 <= left ->
  let t := (left `div` 1000 + 500) `div` 1000 in
  left - 501000 < t * 1000000 <= left + 500000 /\
  (500000 <= left `mod` 1000000 -> left < t * 1000000) /\
  (500000 <= left -> 1 <= t).
Proof.
  intros Hleft t. subst t.
  pose proof (Z.div_mod left 1000 ltac:(lia)) as E1.
  pose proof (Z.mod_pos_bound left 1000 ltac:(lia)) as B1.
  pose proof (Z.div_mod (left `div` 1000 + 500) 1000 ltac:(lia)) as E2.
  pose proof (Z.mod_pos_bound (left `div` 1000 + 500) 1000 ltac:(lia)) as B2.
  pose proof (Z.div_mod left 1000000 ltac:(lia)) as E3.
  pose proof (Z.mod_pos_bound left 1000000 ltac:(lia)) as B3.
  set (ms := left `div` 1000) in *. set (r1 := left `mod` 1000) in *.
  set (t := (ms + 500) `div` 1000) in *. set (r2 := (ms + 500) `mod` 1000) in *.
  set (q := left `div` 1000000) in *. set (m := left `mod` 1000000) in *.
  clearbody ms r1 t r2 q m.
  repeat split; try lia.
Qed.

(** X27: [verify] re-arms the deadline.  A call that compares the code
    writes the record back with timeout [cache.ttl(key)], the life left
    rounded to whole seconds, counted from the instant of the call.  So
    after a [verify] with any code, made while the OTP has at least half a
    second to live, the key expires within about half a second of the
    instant [issue] had set, before it or after it; when the life left has
    a fraction of 500 ms or more the new deadline is later, and the
    issued code is accepted up to the new deadline, that is, also more
    than ttl_minutes * 60 seconds after [issue]. *)
Theorem verify_rearms_deadline
    (email purpose : string) (ttl_minutes : option Z) (w : world)
    (code : string) (dt : Z) :
  let ttl := default 10 ttl_minutes in
  let life := ttl * 60 * 1000000 in
  let state n verified :=
    otp_state (issued_hash pbkdf2_hmac_sha256 w) (isoformat_utc (clock w))
      purpose email n verified in
  json_loads "" = None ->
  (forall n verified,
     0 <= n <= 5 ->
     json_loads (json_dumps (VDict (state n verified))) = Some (VDict (state n verified))) ->
  0 <= dt ->
  dt + 500000 <= life ->
  let t := ((life - dt) `div` 1000 + 500) `div` 1000 in
  let w1 := snd (issue pbkdf2_hmac_sha256 json_dumps isoformat_utc
                   email purpose ttl_minutes w) in
  let w2 := snd (verify pbkdf2_hmac_sha256 json_dumps json_loads
                   email purpose code (elapse dt w1)) in
  (exists e,
     redis w2 !! _generate_key email purpose = Some e /\
     Redis.deadline e = Some (clock w + dt + t * 1000000)) /\
  life - 501000 < dt + t * 1000000 <= life + 500000 /\
  (500000 <= (life - dt) `mod` 1000000 -> life < dt + t * 1000000) /\
  (forall dt2,
     dt <= dt2 <= dt + t * 1000000 ->
     exists n,
       fst (verify pbkdf2_hmac_sha256 json_dumps json_loads
              email purpose (issued_code w) (elapse (dt2 - dt) w2))
       = Ok (true, Verified, Some (state n true))).
Proof.
  intros ttl life state Hempty Hcodec Hdt Hleft t w1 w2.
  set (key := _generate_key email purpose).
  destruct (rounded_seconds_bounds (life - dt) ltac:(lia)) as (Hnear & Hlater & Hone).
  fold t in Hnear, Hlater, Hone. specialize (Hone ltac:(lia)).
  assert (Hpos : 0 < ttl) by (unfold life in Hleft; lia).
  destruct (issue_entry email purpose ttl_minutes w) as (Hclock & _ & Hentry).
  fold ttl w1 key in Hclock, Hentry. specialize (Hentry Hpos).
  change (otp_record (issued_hash pbkdf2_hmac_sha256 w) (isoformat_utc (clock w))
            purpose email) with (state 0 false) in Hentry.
  set (wa := elapse dt w1) in *.
  assert (Hnow : clock wa = clock w + dt).
  { cbn [wa elapse clock with_clock]. now rewrite Hclock. }
  assert (Hget : Redis.get (clock wa) (redis wa) key
                 = VStr (json_dumps (VDict (state 0 false)))).
  { rewrite Hnow. change (redis wa) with (redis w1).
    apply (proj1 (redis_lookup_stored (clock w + dt) _ _ _ _ Hentry)).
    unfold life in Hleft. lia. }
  assert (Httl : Redis.ttl (clock wa) (redis wa) key = Some t).
  { rewrite Hnow. change (redis wa) with (redis w1).
    rewrite (ttl_of_stored (clock w + dt) _ _ _ _ Hentry)
      by (unfold life in Hleft; lia).
    replace (clock w + ttl * 60 * 1000000 - (clock w + dt)) with (life - dt)
      by (unfold life; lia).
    reflexivity. }
  assert (Hne : forall n v, 0 <= n <= 5 -> json_dumps (VDict (state n v)) <> "").
  { intros n v Hn He. pose proof (Hcodec n v Hn) as H.
    rewrite He, Hempty in H. discriminate. }
  assert (Hset : forall v,
            Redis.set (clock wa) (redis wa) key v (Some (inject_Z t))
            = <[key := {| Redis.value := v;
                          Redis.deadline := Some (clock w + dt + t * 1000000) |}]>
                (redis w1)).
  { intros v. unfold Redis.set. rewrite timeout_ms_integer.
    destruct (Z.leb_spec (t * 1000) 0); [lia |].
    rewrite Hnow. change (redis wa) with (redis w1). do 3 f_equal. lia. }
  assert (Hfirst : exists n v,
            0 <= n < 5 /\
            w2 = with_redis
                   (<[key := {| Redis.value := VStr (json_dumps (VDict (state n v)));
                                Redis.deadline := Some (clock w + dt + t * 1000000) |}]>
                      (redis w1)) wa).
  { subst w2.
    rewrite (verify_on_record pbkdf2_hmac_sha256 json_dumps json_loads
               email purpose code wa _ (state 0 false) 0
               (VStr (issued_hash pbkdf2_hmac_sha256 w))
               Hget (Hne 0 false ltac:(lia)) (Hcodec 0 false ltac:(lia))
               eq_refl eq_refl).
    cbn zeta. fold key. rewrite Httl. cbn [option_map].
    destruct (Z.leb_spec 5 0); [lia |].
    destruct (verify_hash_total pbkdf2_hmac_sha256 code
                (VStr (issued_hash pbkdf2_hmac_sha256 w))) as [b Hb].
    rewrite Hb. destruct b; cbn [snd]; rewrite Hset.
    - exists 0, true. split; [lia | reflexivity].
    - exists 1, false. split; [lia | reflexivity]. }
  destruct Hfirst as (n & v & Hn & Hw2).
  split.
  { rewrite Hw2. cbn [redis with_redis]. rewrite lookup_insert_eq.
    eexists. split; reflexivity. }
  split; [lia |]. split; [intros Hfrac; specialize (Hlater Hfrac); lia |].
  intros dt2 Hdt2. exists n.
  set (wb := elapse (dt2 - dt) w2).
  assert (Hnow2 : clock wb = clock w + dt2).
  { unfold wb. rewrite Hw2. cbn [elapse clock with_clock with_redis].
    fold (clock wa). rewrite Hnow. lia. }
  assert (Hget2 : Redis.get (clock wb) (redis wb) key
                  = VStr (json_dumps (VDict (state n v)))).
  { rewrite Hnow2. unfold wb. rewrite Hw2. cbn [elapse redis with_clock with_redis].
    apply (proj1 (redis_lookup_stored (clock w + dt2) _ key _ _
                    (lookup_insert_eq _ _ _))). lia. }
  rewrite (verify_on_record pbkdf2_hmac_sha256 json_dumps json_loads
             email purpose (issued_code w) wb _ (state n v) n
             (VStr (issued_hash pbkdf2_hmac_sha256 w))
             Hget2 (Hne n v ltac:(lia)) (Hcodec n v ltac:(lia)) eq_refl eq_refl).
  destruct (Z.leb_spec 5 n); [lia |].
  assert (Hok : _verify_hash pbkdf2_hmac_sha256 (issued_code w)
                  (VStr (issued_hash pbkdf2_hmac_sha256 w)) = Ok true)
    by apply verify_salted_hash.
  cbn zeta. rewrite Hok. reflexivity.
Qed.

End OTPCalls.

(** ** The rate limiter and the stock data: whole calls *)

Section UtilsCalls.
Import Utils.

(** [str(e)] of the exceptions that carry no text of the program. *)
Variable interpreter_text : exn -> string.

(** *** Rounding down *)

Lemma Qfloor_unique (y : Q) (a : Z) :
  (inject_Z a <= y)%Q -> (y < inject_Z (a + 1))%Q -> Qfloor y = a.
Proof.
  intros Hle Hlt.
  assert (a <= Qfloor y).
  { rewrite <- (Qfloor_Z a). now apply Qfloor_resp_le. }
  assert (Qfloor y < a + 1).
  { rewrite Zlt_Qlt. eapply Qle_lt_trans; [apply Qfloor_le | exact Hlt]. }
  lia.
Qed.

Lemma Qfloor_minus_Z (x : Q) (z : Z) : Qfloor (x - inject_Z z) = Qfloor x - z.
Proof.
  apply Qfloor_unique.
  - unfold Zminus. rewrite inject_Z_plus, inject_Z_opp.
    apply Qplus_le_compat; [apply Qfloor_le | apply Qle_refl].
  - replace (Qfloor x - z + 1) with ((Qfloor x + 1) + - z) by lia.
    rewrite inject_Z_plus, inject_Z_opp.
    apply Qplus_lt_le_compat; [apply Qlt_floor | apply Qle_refl].
Qed.

Lemma Qfloor_nonneg (x : Q) : (0 <= x)%Q -> 0 <= Qfloor x.
Proof.
  intros H. change 0 with (Qfloor 0). now apply Qfloor_resp_le.
Qed.

(** [time.sleep(x)] for a length that is not negative. *)
Lemma time_sleep_ok (x : Q) s :
  (0 <= x)%Q ->
  time_sleep x s
  = (Ok tt, with_clock (clock s + Qfloor (x * inject_Z Time.usec_per_sec)%Q)
              (with_slept (slept s ++ [x]) s)) /\
  0 <= Qfloor (x * inject_Z Time.usec_per_sec)%Q.
Proof.
  intros Hx. unfold time_sleep.
  assert (Qle_bool 0 x = true) as -> by now apply Qle_bool_iff.
  split; [reflexivity |]. apply Qfloor_nonneg.
  apply Qmult_le_0_compat; [exact Hx | discriminate].
Qed.

(** *** The limiter in front of a rate-limited function *)

(** The decorated function is the limiter followed by the function. *)
Lemma rate_limit_split {A} min_interval max_calls (func : Py A) s :
  rate_limit_decorator min_interval max_calls func s
  = (rate_limit_decorator min_interval max_calls (ret tt) ;;; func) s.
Proof.
  unfold rate_limit_decorator, bind, ret. cbn beta zeta.
  destruct (60 * Time.usec_per_sec <? clock s - _rate_limit_window s);
    match goal with |- context [max_calls <=? ?c] => destruct (max_calls <=? c) end;
    repeat match goal with
           | |- context [time_sleep ?x ?s1] => destruct (time_sleep x s1) as [[[] | ?] ?]
           | |- context [match _last_api_call ?s1 with _ => _ end] =>
               destruct (_last_api_call s1)
           | |- context [if Qle_bool ?a ?b then _ else _] => destruct (Qle_bool a b)
           end;
    reflexivity.
Qed.

Lemma millionths_scaled (a : Z) :
  ((a # 1000000) * inject_Z Time.usec_per_sec == inject_Z a)%Q.
Proof. unfold Qeq, Qmult, inject_Z, Time.usec_per_sec. cbn [Qnum Qden]. lia. Qed.

(** The wait of the per-minute limit is not negative while the window
    started at most a minute ago. *)
Lemma window_wait_nonneg (age : Z) :
  0 <= age <= 60 * Time.usec_per_sec ->
  (0 <= inject_Z (60 - Time.td_seconds age))%Q.
Proof.
  intros Hage. change 0%Q with (inject_Z 0). rewrite <- Zle_Qle.
  unfold Time.td_seconds, Time.usec_per_day, Time.usec_per_sec in *.
  rewrite Z.mod_small by lia.
  assert (age `div` 1000000 <= 60) by (apply Z.div_le_upper_bound; lia).
  lia.
Qed.

Lemma spacing_kept (min_interval : Q) (now last : Z) :
  Qle_bool min_interval ((now - last) # 1000000) = true ->
  last + Qfloor (min_interval * inject_Z Time.usec_per_sec) <= now.
Proof.
  intros H. apply Qle_bool_iff in H.
  assert (Hle : (min_interval * inject_Z Time.usec_per_sec <= inject_Z (now - last))%Q).
  { rewrite <- (millionths_scaled (now - last)).
    apply Qmult_le_compat_r; [exact H | discriminate]. }
  apply Qfloor_resp_le in Hle. rewrite Qfloor_Z in Hle. lia.
Qed.

Lemma spacing_slept (min_interval : Q) (now last : Z) :
  Qle_bool min_interval ((now - last) # 1000000) = false ->
  (0 <= min_interval - ((now - last) # 1000000))%Q /\
  Qfloor ((min_interval - ((now - last) # 1000000)) * inject_Z Time.usec_per_sec)
  = Qfloor (min_interval * inject_Z Time.usec_per_sec) - (now - last).
Proof.
  intros H. split.
  - assert (Hlt : ((now - last) # 1000000 < min_interval)%Q).
    { apply Qnot_le_lt. intros Hle. apply Qle_bool_iff in Hle. congruence. }
    apply Qlt_le_weak in Hlt. now apply -> Qle_minus_iff.
  - rewrite <- Qfloor_minus_Z. apply Qfloor_comp.
    rewrite <- (millionths_scaled (now - last)). ring.
Qed.

(** Reading a field of an updated state. *)
Ltac fields :=
  cbn [clock heap _cache _cache_timestamps _last_api_call _api_call_count
       _rate_limit_window slept entropy drawn YF_AVAILABLE yf_answers downloads
       pending with_clock with_heap with_cache with_limiter with_slept with_drawn
       with_downloads with_pending fst snd] in *.

Lemma limiter_passed_refl s : limiter_passed s s.
Proof. unfold limiter_passed. repeat split; reflexivity. Qed.

Lemma limiter_passed_trans s1 s2 s3 :
  limiter_passed s1 s2 -> limiter_passed s2 s3 -> limiter_passed s1 s3.
Proof. unfold limiter_passed. intuition congruence. Qed.

(** What the limiter does when the clock was not set back: it lets the call
    through, possibly after sleeping. *)
Lemma rate_limit_wrapper_passes min_interval max_calls s :
  limiter_ready s ->
  exists s3,
    rate_limit_decorator min_interval max_calls (ret tt) s = (Ok tt, s3) /\
    clock s <= clock s3 /\
    limiter_ready s3 /\
    _last_api_call s3 = Some (clock s3) /\
    (forall last,
       _last_api_call s = Some last ->
       last + Qfloor (min_interval * inject_Z Time.usec_per_sec) <= clock s3) /\
    (0 <= _api_call_count s -> 1 <= max_calls ->
     1 <= _api_call_count s3 <= max_calls) /\
    limiter_passed s s3.
Proof.
  unfold limiter_ready. intros Hready.
  assert (Husec : Time.usec_per_sec = 1000000) by reflexivity.
  unfold rate_limit_decorator. cbn beta zeta.
  set (now := clock s).
  set (s0 := if 60 * Time.usec_per_sec <? now - _rate_limit_window s
             then with_limiter (_last_api_call s) 0 now s else s).
  assert (H0 : clock s0 = now /\
               _last_api_call s0 = _last_api_call s /\
               0 <= now - _rate_limit_window s0 <= 60 * Time.usec_per_sec /\
               (0 <= _api_call_count s -> 0 <= _api_call_count s0) /\
               limiter_passed s s0).
  { subst s0. destruct (Z.ltb_spec (60 * Time.usec_per_sec) (now - _rate_limit_window s)).
    - unfold limiter_passed. fields. repeat split; try reflexivity; try lia.
    - repeat split; try reflexivity; try lia; try apply limiter_passed_refl.
      all: fold now in Hready; lia. }
  clearbody s0. destruct H0 as (Hc0 & Hl0 & Hw0 & Hn0 & Hg0).
  (* the per-minute limit *)
  set (limited := if max_calls <=? _api_call_count s0 then _ else _).
  assert (H1 : exists s1,
            limited s0 = (Ok tt, s1) /\
            now <= clock s1 /\
            _rate_limit_window s1 <= clock s1 /\
            _last_api_call s1 = _last_api_call s /\
            (0 <= _api_call_count s -> 1 <= max_calls ->
             0 <= _api_call_count s1 < max_calls) /\
            limiter_passed s s1).
  { subst limited. destruct (Z.leb_spec max_calls (_api_call_count s0)) as [Hfull | Hroom].
    - destruct (time_sleep_ok _ s0 (window_wait_nonneg _ Hw0)) as [Hsleep Hpos].
      unfold bind. rewrite Hsleep. eexists. split; [reflexivity |].
      unfold limiter_passed in *. fields. rewrite Hc0.
      repeat split; try tauto; try lia.
    - eexists. split; [reflexivity |].
      unfold limiter_passed in *. rewrite Hc0. repeat split; try tauto; try lia. }
  destruct H1 as (s1 & Hrun1 & Hc1 & Hw1 & Hl1 & Hn1 & Hg1).
  unfold bind at 1. rewrite Hrun1. clearbody limited. clear Hrun1.
  (* the minimum interval *)
  unfold bind at 1.
  set (spaced := match _last_api_call s1 with Some _ => _ | None => _ end).
  assert (H2 : exists s2,
            spaced = (Ok tt, s2) /\
            clock s1 <= clock s2 /\
            _rate_limit_window s2 = _rate_limit_window s1 /\
            _api_call_count s2 = _api_call_count s1 /\
            (forall last,
               _last_api_call s = Some last ->
               last + Qfloor (min_interval * inject_Z Time.usec_per_sec) <= clock s2) /\
            limiter_passed s1 s2).
  { subst spaced. rewrite Hl1. destruct (_last_api_call s) as [last |].
    - destruct (Qle_bool min_interval ((now - last) # 1000000)) eqn:Hq.
      + eexists. split; [reflexivity |].
        repeat split; try reflexivity; try lia; try apply limiter_passed_refl.
        intros last0 [= <-]. pose proof (spacing_kept _ _ _ Hq). lia.
      + destruct (spacing_slept _ _ _ Hq) as [Hpos Hfloor].
        destruct (time_sleep_ok _ s1 Hpos) as [Hsleep Hnn].
        rewrite Hsleep. eexists. split; [reflexivity |].
        unfold limiter_passed. fields.
        repeat split; try reflexivity; try lia.
        intros last0 [= <-]. rewrite Hfloor. lia.
    - eexists. split; [reflexivity |].
      repeat split; try reflexivity; try lia; try apply limiter_passed_refl.
      discriminate. }
  destruct H2 as (s2 & Hrun2 & Hc2 & Hw2 & Hn2 & Hs2 & Hg2).
  rewrite Hrun2. unfold bind, ret.
  eexists. split; [reflexivity |].
  pose proof (limiter_passed_trans _ _ _ Hg1 Hg2) as Hg.
  unfold limiter_passed in *. fields.
  repeat split; try lia; try tauto.
Qed.

(** X19: the limiter of [rate_limit_decorator].  When the clock was not set
    back since the window was opened, the decorated function is called (the
    limiter itself never raises), in a state where only the clock, the sleeps
    and the limiter's counters have changed; that call starts at least
    min_interval seconds after the previous one started, the limiter records
    its start, and the counter is between 1 and max_calls_per_minute. *)
Theorem rate_limit_spacing {A} (min_interval : Q) (max_calls : Z) (func : Py A)
    (s : state) :
  limiter_ready s ->
  exists s1,
    rate_limit_decorator min_interval max_calls func s = func s1 /\
    clock s <= clock s1 /\
    limiter_ready s1 /\
    _last_api_call s1 = Some (clock s1) /\
    (forall last,
       _last_api_call s = Some last ->
       last + Qfloor (min_interval * inject_Z Time.usec_per_sec) <= clock s1) /\
    (0 <= _api_call_count s -> 1 <= max_calls ->
     1 <= _api_call_count s1 <= max_calls) /\
    limiter_passed s s1.
Proof.
  intros Hready.
  destruct (rate_limit_wrapper_passes min_interval max_calls s Hready) as (s1 & Hpass & Hrest).
  exists s1. split; [| exact Hrest].
  rewrite rate_limit_split. unfold bind. now rewrite Hpass.
Qed.

(** X20: the limiter when the clock was set back.  With the counter at the
    maximum and the window starting in the future (by up to 23 h 58 min
    59 s), the wait 60 - (now - window).seconds is negative, [time.sleep]
    raises ValueError, and the decorated function is not called: nothing
    changes. *)
Theorem rate_limit_clock_set_back {A} (min_interval : Q) (max_calls : Z)
    (func : Py A) (s : state) :
  max_calls <= _api_call_count s ->
  0 < _rate_limit_window s - clock s <= 86339 * Time.usec_per_sec ->
  rate_limit_decorator min_interval max_calls func s = (Err ValueError, s).
Proof.
  intros Hfull Hback.
  assert (Husec : Time.usec_per_sec = 1000000) by reflexivity.
  unfold rate_limit_decorator. cbn beta zeta.
  destruct (Z.ltb_spec (60 * Time.usec_per_sec) (clock s - _rate_limit_window s));
    [lia |].
  destruct (Z.leb_spec max_calls (_api_call_count s)); [| lia].
  unfold bind at 1. unfold bind at 1. unfold time_sleep.
  change 0%Q with (inject_Z 0). rewrite Qle_bool_integers.
  assert (Hneg : 60 - Time.td_seconds (clock s - _rate_limit_window s) < 0).
  { unfold Time.td_seconds, Time.usec_per_day. rewrite Husec in *.
    set (x := _rate_limit_window s - clock s) in *.
    replace (clock s - _rate_limit_window s) with (- x) by (unfold x; lia).
    rewrite <- (Z_mod_plus_full (- x) 1), Z.mod_small by lia.
    assert (61 <= (- x + 1 * (86400 * 1000000)) `div` 1000000)
      by (apply Z.div_le_lower_bound; lia).
    lia. }
  destruct (Z.leb_spec 0 (60 - Time.td_seconds (clock s - _rate_limit_window s)));
    [lia | reflexivity].
Qed.

(** *** [retry_on_429] around a function that answers *)

Lemma range_succ (n : Z) : 0 <= n -> range (n + 1) = 0 :: map Z.of_nat (seq 1 (Z.to_nat n)).
Proof.
  intros Hn. unfold range.
  replace (Z.to_nat (n + 1)) with (S (Z.to_nat n)) by lia. reflexivity.
Qed.

Lemma retry_on_429_returns {A} (max_retries : Z) (base_delay : Q) (func : Py A) s v s' :
  0 <= max_retries ->
  func s = (Ok v, s') ->
  retry_on_429 interpreter_text max_retries base_delay func s = (Ok (Some v), s').
Proof.
  intros Hmax Hfunc. unfold retry_on_429. rewrite range_succ by exact Hmax.
  cbn [retry_loop]. unfold try_except, bind. now rewrite Hfunc.
Qed.

(** X21: the first attempt of [retry_on_429].  With max_retries >= 0 a
    callee that returns is called once and its value returned, and a callee
    that fails with an error that is not a rate-limit error has it re-raised
    at once; in both cases the wrapper neither sleeps nor draws a random
    number.  With max_retries < 0 the wrapper returns None without calling
    the function at all. *)
Theorem retry_on_429_first_call {A} (max_retries : Z) (base_delay : Q)
    (func : Py A) (s : state) :
  (max_retries < 0 -> retry_on_429 interpreter_text max_retries base_delay func s = (Ok None, s)) /\
  (0 <= max_retries ->
   forall v s', func s = (Ok v, s') ->
     retry_on_429 interpreter_text max_retries base_delay func s = (Ok (Some v), s')) /\
  (0 <= max_retries ->
   forall e s', func s = (Err e, s') -> is_rate_limited interpreter_text e = false ->
     retry_on_429 interpreter_text max_retries base_delay func s = (Err e, s')).
Proof.
  split; [| split].
  - intros Hneg. unfold retry_on_429, range.
    replace (Z.to_nat (max_retries + 1)) with 0%nat by lia. reflexivity.
  - intros Hmax v s' Hfunc. now apply retry_on_429_returns.
  - intros Hmax e s' Hfunc Hother. unfold retry_on_429. rewrite range_succ by exact Hmax.
    cbn [retry_loop]. unfold try_except, bind. rewrite Hfunc.
    cbn [any_exception]. now rewrite Hother.
Qed.

(** *** What a fetch leaves behind *)

Lemma fetched_at_most_refl n s : fetched_at_most n s s.
Proof. unfold fetched_at_most. repeat split; auto; lia. Qed.

Lemma fetched_at_most_trans a b s1 s2 s3 :
  fetched_at_most a s1 s2 -> fetched_at_most b s2 s3 ->
  fetched_at_most (a + b) s1 s3.
Proof.
  unfold fetched_at_most.
  intros (Hc1 & Hd1 & Hh1 & Hw1 & Hl1 & Hn1 & Hy1) (Hc2 & Hd2 & Hh2 & Hw2 & Hl2 & Hn2 & Hy2).
  repeat split; try lia; try congruence. auto.
Qed.

Lemma time_sleep_forward x s :
  clock s <= clock (snd (time_sleep x s)) /\
  (forall r s', time_sleep x s = (r, s') ->
     fetched_at_most 0 s s').
Proof.
  unfold time_sleep. destruct (Qle_bool 0 x) eqn:Hx.
  - apply Qle_bool_iff in Hx.
    assert (0 <= Qfloor (x * inject_Z Time.usec_per_sec)).
    { apply Qfloor_nonneg. apply Qmult_le_0_compat; [exact Hx | discriminate]. }
    set (q := Qfloor (x * inject_Z Time.usec_per_sec)) in *. clearbody q.
    split; [fields; lia |].
    intros r s' [= <- <-]. unfold fetched_at_most. fields.
    repeat split; auto; lia.
  - split; [fields; lia |]. intros r s' [= <- <-]. apply fetched_at_most_refl.
Qed.

(** The two download attempts of lines 401-415. *)
Lemma download_attempts s :
  let attempts :=
    try_except yf_download any_exception
      (fun e1 =>
         try_except
           (pause <- random_uniform 2 4 ;;
            time_sleep pause ;;;
            yf_download)
           any_exception
           (fun e2 => ret empty_frame)) in
  fetched_at_most 2 s (snd (attempts s)).
Proof.
  cbn zeta. unfold try_except at 1. unfold yf_download at 1.
  destruct (yf_answers s (downloads s)) as [hist | e1].
  { unfold fetched_at_most. fields. repeat split; auto; lia. }
  cbn [any_exception]. unfold try_except. unfold bind at 1.
  unfold random_uniform, bind at 1. unfold random_random, ret.
  unfold bind at 1.
  match goal with |- context [time_sleep ?x ?s1] =>
    destruct (time_sleep_forward x s1) as [_ Hsleep];
    destruct (time_sleep x s1) as [[[] | e] s2] eqn:Hrun;
    specialize (Hsleep _ _ eq_refl)
  end.
  - unfold yf_download.
    destruct (yf_answers s2 (downloads s2)) as [hist | e2];
      cbn [any_exception ret snd];
      unfold fetched_at_most in *; fields; repeat split; try tauto; try lia;
      try (intros l d Hl; now apply Hsleep).
  - cbn [any_exception ret snd].
    unfold fetched_at_most in *; fields; repeat split; try tauto; try lia.
Qed.

Lemma new_dict_fresh fields0 s :
  let l := fresh_loc (heap s) in
  new_dict fields0 s = (Ok l, with_heap (<[l := fields0]> (heap s)) s) /\
  heap s !! l = None /\
  fetched_at_most 0 s (with_heap (<[l := fields0]> (heap s)) s).
Proof.
  cbn zeta. split; [reflexivity |].
  assert (Hfresh : heap s !! fresh_loc (heap s) = None).
  { apply not_elem_of_dom. unfold fresh_loc. apply is_fresh. }
  split; [exact Hfresh |].
  unfold fetched_at_most. fields. repeat split; auto; try lia.
  intros l d Hl. rewrite lookup_insert_ne; [exact Hl |]. congruence.
Qed.

Lemma with_cache_fetched c ts s : fetched_at_most 0 s (with_cache c ts s).
Proof. unfold fetched_at_most. fields. repeat split; auto; lia. Qed.

(** What one run of the fetch changes, and that a dict it returns is a new
    object. *)
Lemma fetch_quote_run symbol s r s' :
  fetch_quote symbol s = (r, s') ->
  fetched_at_most 2 s s' /\
  (forall l, r = Ok l -> heap s !! l = None).
Proof.
  unfold fetch_quote. unfold bind at 1.
  destruct (YF_AVAILABLE s); cbn [negb].
  2:{ intros [= <- <-]. split; [apply fetched_at_most_refl | discriminate]. }
  unfold bind at 1.
  pose proof (download_attempts s) as Hd. cbn zeta in Hd.
  match goal with |- context [try_except yf_download any_exception ?h s] =>
    destruct (try_except yf_download any_exception h s) as [[hist | e] s1]
  end; cbn [snd] in Hd.
  2:{ intros [= <- <-]. split; [exact Hd | discriminate]. }
  destruct (frame_empty hist).
  { intros [= <- <-]. split; [exact Hd | discriminate]. }
  unfold bind at 1. unfold lift at 1.
  destruct (quote_of_history symbol hist) as [fields0 | e].
  2:{ intros [= <- <-]. split; [exact Hd | discriminate]. }
  unfold bind at 1.
  destruct (new_dict_fresh fields0 s1) as (Hnew & Hfresh & Hf). rewrite Hnew.
  unfold bind at 1. unfold set_cached_data, ret.
  intros [= <- <-]. split.
  - replace 2%nat with (2 + (0 + 0))%nat by reflexivity.
    eapply fetched_at_most_trans; [exact Hd |].
    eapply fetched_at_most_trans; [exact Hf | apply with_cache_fetched].
  - intros l [= <-].
    destruct (heap s !! fresh_loc (heap s1)) as [d |] eqn:Hold; [| reflexivity].
    destruct Hd as (_ & _ & Hkeep & _). apply Hkeep in Hold. congruence.
Qed.

(** The function under the decorators always answers: with what the cache
    holds for the symbol, or with a new dict that has every stock key and is
    cached from then on. *)
Lemma get_stock_data_body_run symbol s :
  exists l s',
    get_stock_data_body symbol s = (Ok l, s') /\
    fetched_at_most 2 s s' /\
    _cache s' !! symbol = Some l /\
    (_cache s !! symbol = None ->
     exists d, heap s' !! l = Some d /\ has_stock_keys d = true /\
               heap s !! l = None).
Proof.
  unfold get_stock_data_body. unfold bind at 1.
  destruct (get_cached_data symbol 15 s) as [cached s0] eqn:Hcached.
  assert (Hlook : (exists data, cached = Ok (Some data) /\ s0 = s /\
                                _cache s !! symbol = Some data) \/
                  (cached = Ok None /\ fetched_at_most 0 s s0)).
  { revert Hcached. unfold get_cached_data.
    destruct (_cache s !! symbol) as [data |] eqn:Hc;
      [destruct (_cache_timestamps s !! symbol) as [t |] |].
    - cbn [Time.timedelta_minutes]. unfold Time.timedelta_minutes.
      destruct (Time.timedelta_of_usec _) as [age | e] eqn:Hage;
        [| discriminate Hage].
      destruct (age <? clock s - t); intros [= <- <-].
      + right. split; [reflexivity | apply with_cache_fetched].
      + left. eauto.
    - intros [= <- <-]. right. split; [reflexivity | apply fetched_at_most_refl].
    - intros [= <- <-]. right. split; [reflexivity | apply fetched_at_most_refl]. }
  destruct Hlook as [(data & -> & -> & Hc) | [-> H0]].
  - exists data, s. split; [reflexivity |]. split; [apply fetched_at_most_refl |].
    split; [exact Hc |]. intros Hnone. congruence.
  - destruct (get_stock_data_body_on_miss symbol s) as (l & s' & d & Hrun & Hd & Hkeys & Hc & _).
    { now rewrite Hcached. }
    unfold get_stock_data_body, bind at 1 in Hrun. rewrite Hcached in Hrun.
    exists l, s'. split; [exact Hrun |].
    unfold try_except in Hrun.
    destruct (fetch_quote symbol s0) as [[l1 | e] s1] eqn:Hfetch; cbn [fst snd] in *;
      destruct (fetch_quote_run symbol s0 _ _ Hfetch) as [Hf Hfresh].
    + injection Hrun as <- <-.
      split; [replace 2%nat with (0 + 2)%nat by reflexivity;
              eapply fetched_at_most_trans; eassumption |].
      split; [exact Hc |]. intros _. exists d. repeat split; auto.
      destruct (heap s !! l1) as [d0 |] eqn:Hold; [| reflexivity].
      destruct H0 as (_ & _ & Hkeep & _). apply Hkeep in Hold.
      rewrite (Hfresh l1 eq_refl) in Hold. discriminate.
    + cbn [any_exception] in Hrun. unfold bind at 1 in Hrun.
      unfold get_default_stock_data in Hrun.
      match type of Hrun with context [new_dict ?f s1] =>
        destruct (new_dict_fresh f s1) as (Hnew & Hfresh1 & Hf1); rewrite Hnew in Hrun
      end.
      unfold bind at 1 in Hrun. unfold set_cached_data, ret in Hrun.
      match type of Hrun with (_, ?final) = _ =>
        assert (Hall : fetched_at_most 2 s final)
      end.
      { replace 2%nat with (0 + (2 + (0 + 0)))%nat by reflexivity.
        eapply fetched_at_most_trans; [exact H0 |].
        eapply fetched_at_most_trans; [exact Hf |].
        eapply fetched_at_most_trans; [exact Hf1 | apply with_cache_fetched]. }
      injection Hrun as <- <-.
      split; [exact Hall |]. split; [exact Hc |].
      intros _. exists d. repeat split; auto.
      destruct (heap s !! fresh_loc (heap s1)) as [d0 |] eqn:Hold; [| reflexivity].
      destruct H0 as (_ & _ & Hkeep0 & _). apply Hkeep0 in Hold.
      destruct Hf as (_ & _ & Hkeep1 & _). apply Hkeep1 in Hold. congruence.
Qed.

Lemma get_stock_data_run symbol s :
  limiter_ready s ->
  exists l s',
    get_stock_data interpreter_text symbol s = (Ok (Some l), s') /\
    _cache s' !! symbol = Some l /\
    (downloads s <= downloads s' <= downloads s + 2)%nat /\
    clock s <= clock s' /\
    limiter_ready s' /\
    YF_AVAILABLE s' = YF_AVAILABLE s /\
    (forall l0 d0, heap s !! l0 = Some d0 -> heap s' !! l0 = Some d0) /\
    (_cache s !! symbol = None ->
     exists d, heap s' !! l = Some d /\ has_stock_keys d = true /\
               heap s !! l = None).
Proof.
  intros Hready. unfold get_stock_data.
  destruct (rate_limit_wrapper_passes 5 5 s Hready) as (s1 & Hpass & Hc1 & Hr1 & _ & _ & _ & Hg).
  rewrite rate_limit_split. unfold bind. rewrite Hpass.
  destruct (get_stock_data_body_run symbol s1) as (l & s' & Hbody & Hf & Hcache & Hmiss).
  rewrite (retry_on_429_returns 2 3 _ s1 l s' ltac:(lia) Hbody).
  exists l, s'. split; [reflexivity |]. split; [exact Hcache |].
  unfold limiter_passed in Hg. unfold fetched_at_most in Hf. unfold limiter_ready in *.
  destruct Hg as (Hh & Hca & Hts & _ & _ & Hy & _ & Hdl & _).
  destruct Hf as (Hc2 & Hd2 & Hkeep & Hw2 & _ & _ & Hy2).
  split; [lia |]. split; [lia |]. split; [lia |]. split; [congruence |].
  split.
  - intros l0 d0 Hl0. apply Hkeep. now rewrite Hh.
  - intros Hnone. rewrite <- Hca in Hnone. destruct (Hmiss Hnone) as (d & Hd & Hk & Hfresh).
    exists d. repeat split; auto. now rewrite <- Hh.
Qed.

(** X22: [get_stock_data] always answers.  Unless the clock was set back
    since the limiter's window was opened, the call never raises and never
    returns None, although it is wrapped in [retry_on_429]: the function
    under the decorators returns on its first attempt, so no retry is ever
    made and at most two downloads.  What it returns is what the cache holds
    for the symbol afterwards; when the cache had nothing for the symbol it
    is a new dict with every stock key, and no existing dict is changed. *)
Theorem get_stock_data_always_answers (symbol : string) (s : state) :
  limiter_ready s ->
  exists l s',
    get_stock_data interpreter_text symbol s = (Ok (Some l), s') /\
    _cache s' !! symbol = Some l /\
    (downloads s <= downloads s' <= downloads s + 2)%nat /\
    limiter_ready s' /\
    (forall l0 d0, heap s !! l0 = Some d0 -> heap s' !! l0 = Some d0) /\
    (_cache s !! symbol = None ->
     exists d, heap s' !! l = Some d /\ has_stock_keys d = true /\
               heap s !! l = None).
Proof.
  intros Hready.
  destruct (get_stock_data_run symbol s Hready)
    as (l & s' & Hrun & Hc & Hd & _ & Hr & _ & Hkeep & Hmiss).
  exists l, s'. repeat split; auto; lia.
Qed.

(** X23: [force_refresh_symbol] never answers from the cache.  Whatever the
    cache held for the symbol (unless the clock was set back since the
    limiter's window was opened), the call returns a dict that did not exist
    before, has every stock key and is what the cache holds for the symbol
    afterwards; the dicts that existed are unchanged. *)
Theorem force_refresh_symbol_fetches (symbol : string) (s : state) :
  limiter_ready s ->
  exists l s' d,
    force_refresh_symbol interpreter_text symbol s = (Ok (Some l), s') /\
    heap s !! l = None /\
    heap s' !! l = Some d /\
    has_stock_keys d = true /\
    _cache s' !! symbol = Some l /\
    (downloads s <= downloads s' <= downloads s + 2)%nat /\
    (forall l0 d0, heap s !! l0 = Some d0 -> heap s' !! l0 = Some d0).
Proof.
  intros Hready. unfold force_refresh_symbol, bind.
  set (s0 := with_cache (delete symbol (_cache s)) (delete symbol (_cache_timestamps s)) s).
  destruct (get_stock_data_run symbol s0 Hready)
    as (l & s' & Hrun & Hc & Hd & _ & _ & _ & Hkeep & Hmiss).
  destruct (Hmiss (lookup_delete_eq _ _)) as (d & Hl & Hk & Hfresh).
  exists l, s', d. split; [exact Hrun |]. repeat split; auto; apply Hd.
Qed.

(** *** Several symbols *)

Lemma table_get_set_eq {V} (t : list (string * V)) k v :
  table_get (table_set t k v) k = Some v.
Proof.
  induction t as [| [k' v'] r IH]; cbn [table_set table_get].
  - now rewrite String.eqb_refl.
  - destruct (String.eqb k' k) eqn:E; cbn [table_get]; rewrite E; [reflexivity | exact IH].
Qed.

Lemma table_get_set_ne {V} (t : list (string * V)) k k' v :
  k <> k' -> table_get (table_set t k v) k' = table_get t k'.
Proof.
  intros Hne. induction t as [| [k0 v0] r IH]; cbn [table_set table_get].
  - apply String.eqb_neq in Hne. now rewrite Hne.
  - destruct (String.eqb k0 k) eqn:E; cbn [table_get].
    + apply String.eqb_eq in E. subst k0.
      apply String.eqb_neq in Hne. now rewrite Hne.
    + destruct (String.eqb k0 k'); [reflexivity | exact IH].
Qed.

(** The pause between two symbols always takes place. *)
Lemma pause_run s :
  exists s',
    (pause <- random_uniform (3 # 2) (5 # 2) ;; time_sleep pause) s = (Ok tt, s') /\
    fetched_at_most 0 s s'.
Proof.
  unfold bind at 1. unfold random_uniform, bind at 1. unfold random_random, ret.
  set (pause := ((3 # 2) + ((5 # 2) - (3 # 2)) * unit_fraction (entropy s (drawn s)))%Q).
  assert (Hpos : (0 <= pause)%Q).
  { destruct (unit_fraction_bounds (entropy s (drawn s))) as [Hu _].
    unfold pause.
    assert (0 <= ((5 # 2) - (3 # 2)) * unit_fraction (entropy s (drawn s)))%Q
      by (apply Qmult_le_0_compat; [discriminate | exact Hu]).
    change 0%Q with (0 + 0)%Q. apply Qplus_le_compat; [discriminate | assumption]. }
  destruct (time_sleep_ok pause (with_drawn (S (drawn s)) s) Hpos) as [Hsleep _].
  rewrite Hsleep. eexists. split; [reflexivity |].
  destruct (time_sleep_forward pause (with_drawn (S (drawn s)) s)) as [_ Hf].
  specialize (Hf _ _ Hsleep). unfold fetched_at_most in *. fields. exact Hf.
Qed.

Lemma stocks_loop_run total items : forall results s,
  limiter_ready s ->
  (forall symbol, table_get results symbol <> Some None) ->
  exists results' s',
    stocks_loop interpreter_text total items results s = (Ok results', s') /\
    limiter_ready s' /\
    (downloads s <= downloads s' <= downloads s + 2 * length items)%nat /\
    (forall l0 d0, heap s !! l0 = Some d0 -> heap s' !! l0 = Some d0) /\
    (forall symbol, table_get results' symbol <> Some None) /\
    (forall symbol,
       table_get results' symbol <> None
       <-> table_get results symbol <> None \/ In symbol (map snd items)).
Proof.
  induction items as [| [i symbol] rest IH]; intros results s Hready Hsome.
  - exists results, s. split; [reflexivity |].
    split; [exact Hready |]. split; [cbn; lia |]. split; [auto |].
    split; [exact Hsome |]. intros sym. cbn. tauto.
  - cbn [stocks_loop]. unfold bind at 1. unfold try_except at 1. unfold bind at 1.
    destruct (get_stock_data_run symbol s Hready)
      as (l & s1 & Hrun & _ & Hd1 & Hc1 & Hr1 & _ & Hkeep1 & _).
    rewrite Hrun. unfold bind at 1.
    assert (Hpause : exists s2,
              (if Z.of_nat i <? Z.of_nat total - 1
               then pause <- random_uniform (3 # 2) (5 # 2) ;; time_sleep pause
               else ret tt) s1 = (Ok tt, s2) /\
              fetched_at_most 0 s1 s2).
    { destruct (Z.of_nat i <? Z.of_nat total - 1).
      - apply pause_run.
      - exists s1. split; [reflexivity | apply fetched_at_most_refl]. }
    destruct Hpause as (s2 & -> & Hf2). unfold ret at 1.
    destruct Hf2 as (Hc2 & Hd2 & Hkeep2 & Hw2 & _).
    set (results1 := table_set results symbol (Some l)).
    assert (Hready2 : limiter_ready s2).
    { unfold limiter_ready in *. lia. }
    assert (Hsome1 : forall sym, table_get results1 sym <> Some None).
    { intros sym. unfold results1. destruct (String.eqb_spec symbol sym) as [-> | Hne].
      - rewrite table_get_set_eq. discriminate.
      - rewrite table_get_set_ne by exact Hne. apply Hsome. }
    destruct (IH results1 s2 Hready2 Hsome1)
      as (results' & s' & Hloop & Hr' & Hd' & Hkeep' & Hsome' & Hkeys').
    exists results', s'. split; [exact Hloop |].
    split; [exact Hr' |]. split; [cbn [length]; lia |].
    split; [intros l0 d0 Hl0; apply Hkeep', Hkeep2, Hkeep1, Hl0 |].
    split; [exact Hsome' |].
    intros sym. rewrite Hkeys'. cbn [map snd In]. unfold results1.
    destruct (String.eqb_spec symbol sym) as [-> | Hne].
    + rewrite table_get_set_eq. split; [auto |]. intros _. left. discriminate.
    + rewrite table_get_set_ne by exact Hne. tauto.
Qed.

(** X24: [get_multiple_stocks_data].  Without yfinance the call returns the
    error dict and touches nothing, not even the rate limiter.  With it
    (and the clock not set back since the limiter's window was opened) the
    result has an entry for exactly the symbols asked for, none of them
    None; at most two downloads were made per symbol asked for, and no dict
    that existed before was changed. *)
Theorem get_multiple_stocks_data_answers (symbols : list string) (s : state) :
  (YF_AVAILABLE s = false ->
   get_multiple_stocks_data interpreter_text symbols s = (Ok NotInstalled, s)) /\
  (YF_AVAILABLE s = true -> limiter_ready s ->
   exists results s',
     get_multiple_stocks_data interpreter_text symbols s = (Ok (BySymbol results), s') /\
     (forall symbol,
        In symbol symbols <-> exists l, table_get results symbol = Some (Some l)) /\
     (downloads s <= downloads s' <= downloads s + 2 * length symbols)%nat /\
     (forall l0 d0, heap s !! l0 = Some d0 -> heap s' !! l0 = Some d0)).
Proof.
  split.
  - intros Hno. unfold get_multiple_stocks_data, bind. now rewrite Hno.
  - intros Hyes Hready. unfold get_multiple_stocks_data. unfold bind at 1.
    rewrite Hyes. cbn [negb]. unfold bind at 1.
    destruct (stocks_loop_run (length symbols)
                (combine (seq 0 (length symbols)) symbols) [] s Hready)
      as (results & s' & Hloop & _ & Hd & Hkeep & Hsome & Hkeys).
    { intros sym. discriminate. }
    rewrite Hloop. exists results, s'. split; [reflexivity |].
    assert (Hsnd : map snd (combine (seq 0 (length symbols)) symbols) = symbols).
    { clear. generalize 0%nat. induction symbols as [| x r IH]; intros n; cbn;
        [reflexivity | now rewrite IH]. }
    assert (Hlen : length (combine (seq 0 (length symbols)) symbols) = length symbols).
    { rewrite length_combine, length_seq. lia. }
    rewrite Hsnd in Hkeys. rewrite Hlen in Hd.
    split; [| split; [exact Hd | exact Hkeep]].
    intros sym. specialize (Hkeys sym). specialize (Hsome sym). cbn [table_get] in Hkeys.
    split.
    + intros Hin. destruct (table_get results sym) as [[l |] |] eqn:E.
      * now exists l.
      * congruence.
      * exfalso. apply (proj2 Hkeys); [now right | reflexivity].
    + intros (l & Hl). rewrite Hl in Hkeys.
      destruct (proj1 Hkeys ltac:(discriminate)) as [Hbad | Hin]; [congruence | exact Hin].
Qed.

(** *** The default data *)

(** X25: the fallback [get_default_stock_data].  For every symbol it makes
    a new dict with every stock key, source "default", the symbol itself,
    and one price as open, high, low and previous close; it does not touch
    the cache.  For a symbol of STOCK_SYMBOLS the name and the sector are
    those of STOCK_SYMBOLS and the price is positive; for any other symbol
    they are "Unknown", "Unknown" and 0. *)
Theorem get_default_stock_data_table (symbol : string) (s : state) :
  exists d,
    get_default_stock_data symbol s
    = (Ok (fresh_loc (heap s)), with_heap (<[fresh_loc (heap s) := d]> (heap s)) s) /\
    heap s !! fresh_loc (heap s) = None /\
    has_stock_keys d = true /\
    dict_get d "symbol" = Some (VStr symbol) /\
    dict_get d "data_source" = Some (VStr "default") /\
    dict_get d "open" = dict_get d "price" /\
    dict_get d "high" = dict_get d "price" /\
    dict_get d "low" = dict_get d "price" /\
    dict_get d "previous_close" = dict_get d "price" /\
    (forall info,
       table_get STOCK_SYMBOLS symbol = Some info ->
       dict_get d "name" = dict_get info "name" /\
       dict_get d "sector" = dict_get info "sector" /\
       exists p, dict_get d "price" = Some (VFloat p) /\ (0 < p)%Q) /\
    (table_get STOCK_SYMBOLS symbol = None ->
     dict_get d "name" = Some (VStr "Unknown") /\
     dict_get d "sector" = Some (VStr "Unknown") /\
     dict_get d "price" = Some (VFloat 0)).
Proof.
  assert (Hfresh : heap s !! fresh_loc (heap s) = None).
  { apply not_elem_of_dom. unfold fresh_loc. apply is_fresh. }
  unfold get_default_stock_data, new_dict, STOCK_SYMBOLS. cbn [table_get].
  destruct (String.eqb "AAPL" symbol);
    [| destruct (String.eqb "MSFT" symbol);
       [| destruct (String.eqb "GOOGL" symbol);
          [| destruct (String.eqb "TSLA" symbol);
             [| destruct (String.eqb "AMZN" symbol);
                [| destruct (String.eqb "NVDA" symbol)]]]]];
    (eexists; split; [reflexivity |]; split; [exact Hfresh |];
     do 7 (split; [reflexivity |]);
     split;
     [ intros info Hinfo;
       first [ discriminate Hinfo
             | injection Hinfo as <-;
               split; [reflexivity |]; split; [reflexivity |];
               eexists; split; reflexivity ]
     | intros Hnone;
       first [ discriminate Hnone | repeat split; reflexivity ] ]).
Qed.

(** *** The cache keeps its two dictionaries in step *)

Lemma run_calls_consistent calls : forall s,
  cache_consistent s -> cache_consistent (run_calls calls s).
Proof.
  induction calls as [| c calls IH]; intros s Hs; [exact Hs |].
  cbn [run_calls fold_left]. apply IH. now apply run_call_consistent.
Qed.

(** X26: the two dictionaries of the in-memory cache always have the same
    keys.  They do right after import, and every sequence of lookups,
    stores, clearings and waits keeps it so; hence a lookup finds a symbol in
    [_cache] exactly when it finds its timestamp, and after [clear_cache]
    every lookup answers None until the symbol is stored again. *)
Theorem cache_stays_consistent (t0 : Z) (rng : nat -> N) (yf_ok : bool)
    (yf : nat -> download_outcome) (calls : list cache_call) :
  let s := run_calls calls (initial t0 rng yf_ok yf) in
  cache_consistent s /\
  (forall symbol,
     is_Some (_cache s !! symbol) <-> is_Some (_cache_timestamps s !! symbol)) /\
  (forall symbol m later,
     forallb (fun c => negb (stores symbol c)) later = true ->
     let s' := run_calls later (snd (clear_cache s)) in
     get_cached_data symbol m s' = (Ok None, s')).
Proof.
  intros s.
  assert (Hs : cache_consistent s).
  { apply run_calls_consistent. reflexivity. }
  split; [exact Hs |]. split.
  - intros symbol. unfold cache_consistent in Hs.
    rewrite <- !elem_of_dom. now rewrite Hs.
  - intros symbol m later Hlater s'. apply get_cached_data_absent.
    apply run_calls_never_stored; [exact Hlater | reflexivity].
Qed.

End UtilsCalls.

(** * The statements at work on sample data *)

(** C6 on sample data: AAPL is stored, a minute passes and MSFT is looked up;
    AAPL is then still answered from the cache. *)
Lemma get_cached_data_after_set_example :
  let later := [Utils.Wait (60 * Time.usec_per_sec); Utils.CallGet "MSFT" 5] in
  let s1 := Utils.run_calls later
              (snd (Utils.set_cached_data "AAPL" 1%positive Utils.sample_state)) in
  Utils.get_cached_data "AAPL" 15 s1 = (Ok (Some 1%positive), s1).
Proof.
  intros later s1.
  apply (proj1 (get_cached_data_after_set "AAPL" 1%positive 15 Utils.sample_state later));
    [reflexivity | reflexivity | vm_compute; discriminate].
Defined.

(** C7 on sample data: with both credentials set, the second call returns
    the instance of the first even after the environment was emptied. *)
Lemma get_token_manager_singleton_example :
  let w := KIS.sample_configured_world in
  let first := KIS.get_token_manager w in
  fst first = Ok 1%positive /\
  Forall (fun r => r = Ok 1%positive)
    (KIS.later_calls [(∅, KIS.sample_instant + 1, ∅)] (snd first)).
Proof.
  intros w first. split; [reflexivity |].
  apply (proj2 (get_token_manager_singleton w) 1%positive (snd first)).
  reflexivity.
Defined.

(** C2 on sample data: a cached token that expires tomorrow is returned as
    it is and the world is unchanged. *)
Lemma get_token_cache_aside_example :
  let w := KIS.sample_world KIS.sample_token_db [] in
  KIS.get_token KIS.sample_fromisoformat KIS.sample_isoformat KIS.sample_manager w
  = (Ok (VStr "eyJ0eXAi"), w).
Proof.
  intros w.
  apply (proj1 (get_token_cache_aside KIS.sample_fromisoformat KIS.sample_isoformat
                  KIS.sample_manager w eq_refl)
           (KIS.sample_isoformat (KIS.sample_instant + Time.usec_per_day))
           (KIS.sample_instant + Time.usec_per_day)).
  - reflexivity.
  - reflexivity.
  - vm_compute. discriminate.
  - vm_compute. reflexivity.
  - vm_compute. reflexivity.
Defined.

(** C1 on sample data: the lock is held; the first wait (2 s) finds no token,
    the second (4 s more) finds the one the lock holder stored. *)
Lemma refresh_token_backoff_example :
  let w := KIS.sample_contended_world in
  KIS._refresh_token KIS.sample_fromisoformat KIS.sample_isoformat KIS.sample_manager w
  = (Ok (VStr "eyJ0eXAi"), KIS.after_waits 2 w) /\
  KIS.slept (KIS.after_waits 2 w) = [2; 4] /\
  KIS.posts (KIS.after_waits 2 w) = [].
Proof.
  intros w.
  apply (proj1 (refresh_token_backoff KIS.sample_fromisoformat KIS.sample_isoformat
                  KIS.sample_manager w
                  (fun n _ => eq_refl)
                  ltac:(vm_compute; discriminate))
           1%nat).
  - lia.
  - intros j Hj. assert (j = 0%nat) as -> by lia. vm_compute. reflexivity.
  - vm_compute. reflexivity.
Defined.

(** C3 on sample data: two rate-limit failures, then 7; the wrapper waits
    3 + jitter and 6 + jitter seconds and returns 7. *)
Lemma retry_on_429_backoff_example :
  let run := Utils.retry_on_429 Utils.sample_interpreter_text 2 3 Utils.scripted
               Utils.sample_flaky_state in
  fst run = Ok (Some (VInt 7)) /\
  Utils.pending (snd run) = [] /\
  Utils.slept (snd run)
  = Utils.slept Utils.sample_flaky_state
    ++ Utils.backoff_delays 3 Utils.sample_flaky_state 2.
Proof.
  intros run.
  apply (proj2 (proj2 (proj2
           (proj2 (retry_on_429_backoff Utils.sample_interpreter_text 2 3
                     Utils.sample_flaky_state
                     ltac:(lia) ltac:(discriminate))
              [PlainException "HTTP 429"; PlainException "Too Many Requests"]
              (Ok (VInt 7)) [] eq_refl
              ltac:(repeat constructor)
              ltac:(cbn; lia))))
           (VInt 7) eq_refl).
Defined.

(** C5 on sample data: a 200 answer with a token and a numeric expires_in
    yields the token even though Redis is unreachable. *)
Lemma request_new_token_outcome_example :
  let answer :=
    KIS.HttpResponse 200 (Ok (VDict [("access_token", VStr "eyJ0eXAi");
                                     ("expires_in", VInt 86400)])) in
  let w := KIS.sample_world ∅ [answer] in
  let offline :=
    {| KIS.clock := KIS.clock w; KIS.redis := KIS.redis w;
       KIS.redis_down := fun _ => true; KIS.peers := KIS.peers w;
       KIS.slept := KIS.slept w; KIS.http_answers := KIS.http_answers w;
       KIS.posts := KIS.posts w; KIS.environ := KIS.environ w;
       KIS._token_manager := KIS._token_manager w;
       KIS.instances := KIS.instances w |} in
  fst (KIS._request_new_token KIS.sample_isoformat KIS.sample_manager offline)
  = Ok (VStr "eyJ0eXAi").
Proof.
  intros answer w offline.
  apply (proj2 (proj1 (proj2 (request_new_token_outcome KIS.sample_isoformat
                                KIS.sample_manager offline))
                  (VStr "eyJ0eXAi"))).
  exists 200, [("access_token", VStr "eyJ0eXAi"); ("expires_in", VInt 86400)],
    (inject_Z 86400), (86100 * Time.usec_per_sec),
    (KIS.sample_instant + 86100 * Time.usec_per_sec).
  repeat split; try reflexivity. lia.
Defined.

(** C8 on sample data: seven wrong codes in a row against one issued OTP get
    at most five "wrong code" answers. *)
Lemma verify_attempt_limit_example :
  let w1 := snd (OTP.issue Samples.pbkdf2_hmac_sha256 Samples.json_dumps
                   Samples.isoformat_utc "user@example.com" "signup" None
                   Samples.otp_world) in
  let tries := [(1000000, "000000"); (1000000, "000001"); (1000000, "000002");
                (1000000, "000003"); (1000000, "000004"); (1000000, "000005");
                (1000000, "000006")] in
  (OTP.wrong_answers
     (OTP.verify_each Samples.pbkdf2_hmac_sha256 Samples.json_dumps Samples.json_loads
        "user@example.com" "signup" tries w1) <= 5)%nat.
Proof.
  intros w1 tries.
  apply (proj2 (proj2 (verify_attempt_limit Samples.pbkdf2_hmac_sha256
                         Samples.json_dumps Samples.json_loads Samples.isoformat_utc
                         "user@example.com" "signup"))
           None Samples.otp_world tries).
  intros n verified Hn.
  assert (n = 0 \/ n = 1 \/ n = 2 \/ n = 3 \/ n = 4 \/ n = 5) as Hcases by lia.
  destruct verified;
    destruct Hcases as [-> | [-> | [-> | [-> | [-> | ->]]]]];
    vm_compute; reflexivity.
Defined.

(** The same run, computed: the issued code is 456789; the first five wrong
    codes are answered "wrong code", the sixth "too many attempts" and the
    seventh "request a code first". *)
Example verify_seven_wrong_codes :
  let issued := OTP.issue Samples.pbkdf2_hmac_sha256 Samples.json_dumps
                  Samples.isoformat_utc "user@example.com" "signup" None
                  Samples.otp_world in
  let tries := [(1000000, "000000"); (1000000, "000001"); (1000000, "000002");
                (1000000, "000003"); (1000000, "000004"); (1000000, "000005");
                (1000000, "000006")] in
  option_map snd (match fst issued with Ok r => Some r | Err _ => None end)
  = Some "456789" /\
  map (fun r => match r with Ok (_, v, _) => Some v | Err _ => None end)
    (OTP.verify_each Samples.pbkdf2_hmac_sha256 Samples.json_dumps Samples.json_loads
       "user@example.com" "signup" tries (snd issued))
  = [Some OTP.WrongCode; Some OTP.WrongCode; Some OTP.WrongCode; Some OTP.WrongCode;
     Some OTP.WrongCode; Some OTP.TooManyAttempts; Some OTP.RequestFirst].
Proof. vm_compute. split; reflexivity. Qed.

(** ... and the right code, after two wrong ones, is accepted. *)
Example verify_right_code_after_two_wrong :
  let issued := OTP.issue Samples.pbkdf2_hmac_sha256 Samples.json_dumps
                  Samples.isoformat_utc "user@example.com" "signup" None
                  Samples.otp_world in
  map (fun r => match r with Ok (ok, v, _) => Some (ok, v) | Err _ => None end)
    (OTP.verify_each Samples.pbkdf2_hmac_sha256 Samples.json_dumps Samples.json_loads
       "user@example.com" "signup"
       [(1000000, "000000"); (1000000, "000001"); (1000000, "456789")] (snd issued))
  = [Some (false, OTP.WrongCode); Some (false, OTP.WrongCode); Some (true, OTP.Verified)].
Proof. vm_compute. reflexivity. Qed.

(** [get_token] on an empty cache: it takes the lock, posts once, stores the
    token and its expiry for 86400 seconds and releases the lock. *)
Example get_token_first_use :
  let answer :=
    KIS.HttpResponse 200 (Ok (VDict [("access_token", VStr "eyJ0eXAi");
                                     ("expires_in", VInt 86400)])) in
  let w := KIS.sample_world ∅ [answer] in
  let run := KIS.get_token KIS.sample_fromisoformat KIS.sample_isoformat
               KIS.sample_manager w in
  fst run = Ok (VStr "eyJ0eXAi") /\
  KIS.posts (snd run) = [KIS.token_post KIS.sample_manager] /\
  Redis.get (KIS.clock w) (KIS.redis (snd run)) KIS.TOKEN_KEY = VStr "eyJ0eXAi" /\
  Redis.get (KIS.clock w) (KIS.redis (snd run)) KIS.TOKEN_EXPIRES_KEY
  = VStr (KIS.sample_isoformat (KIS.sample_instant + 86100 * Time.usec_per_sec)) /\
  Redis.ttl (KIS.clock w) (KIS.redis (snd run)) KIS.TOKEN_KEY = Some 86400 /\
  Redis.get (KIS.clock w) (KIS.redis (snd run)) KIS.TOKEN_LOCK_KEY = VNone /\
  KIS.holds_usable_token KIS.sample_fromisoformat (snd run) = true.
Proof. vm_compute. repeat split; reflexivity. Qed.

(** When the service keeps refusing, [get_token] ends in KISTokenError after
    three posts: the locked request, the direct request of
    [_refresh_token]'s handler and the direct request of its own handler. *)
Example get_token_service_refuses :
  let w := KIS.sample_world ∅ [KIS.HttpResponse 429 (Err ValueError);
                               KIS.HttpResponse 429 (Err ValueError);
                               KIS.HttpResponse 429 (Err ValueError)] in
  let run := KIS.get_token KIS.sample_fromisoformat KIS.sample_isoformat
               KIS.sample_manager w in
  fst run = Err (KISTokenError MsgTooMany) /\
  length (KIS.posts (snd run)) = 3%nat /\
  KIS.redis (snd run) = ∅.
Proof. vm_compute. repeat split; reflexivity. Qed.

(** [get_stock_data] on an empty cache when every download fails: the inner
    function waits once between its two downloads, and the default data for
    the symbol is returned and cached. *)
Example get_stock_data_falls_back :
  let run := Utils.get_stock_data Utils.sample_interpreter_text "AAPL" Utils.sample_state in
  exists l d,
    fst run = Ok (Some l) /\
    Utils.heap (snd run) !! l = Some d /\
    Utils._cache (snd run) !! "AAPL" = Some l /\
    Utils.has_stock_keys d = true /\
    dict_get d "price" = Some (VFloat 220) /\
    dict_get d "data_source" = Some (VStr "default") /\
    Utils.downloads (snd run) = 2%nat /\
    Utils.slept (snd run) = [(2 + (4 - 2) * Utils.unit_fraction 0)%Q].
Proof.
  exists 1%positive. eexists. vm_compute. repeat split; reflexivity.
Qed.

(** * The statements about whole calls at work on sample data *)

(** X1 on sample data: the service answers 429 three times; [get_token]
    ends in KISTokenError. *)
Lemma get_token_raises_only_token_error_example :
  let refused := KIS.HttpResponse 429 (Err ValueError) in
  let w := KIS.sample_world ∅ [refused; refused; refused] in
  fst (KIS.get_token KIS.sample_fromisoformat KIS.sample_isoformat KIS.sample_manager w)
  = Err (KISTokenError MsgTooMany) /\
  exists m, KISTokenError MsgTooMany = KISTokenError m.
Proof.
  intros refused w. split; [reflexivity |].
  apply (get_token_raises_only_token_error KIS.sample_fromisoformat KIS.sample_isoformat
           KIS.sample_manager w).
  reflexivity.
Defined.

(** X3 on sample data: the lock is free and the service refuses; the lock
    is not left behind. *)
Lemma refresh_token_releases_lock_example :
  let w := KIS.sample_world ∅ [KIS.HttpResponse 429 (Err ValueError)] in
  KIS.redis (snd (KIS._refresh_token KIS.sample_fromisoformat KIS.sample_isoformat
                    KIS.sample_manager w)) !! KIS.TOKEN_LOCK_KEY = None.
Proof.
  intros w.
  apply (refresh_token_releases_lock KIS.sample_fromisoformat KIS.sample_isoformat
           KIS.sample_manager w); reflexivity.
Defined.

(** X4 on sample data: Redis is unreachable and the service grants a token;
    [get_token] returns it after one post. *)
Lemma get_token_without_redis_example :
  let w := KIS.sample_offline_world [KIS.sample_grant] in
  let run := KIS.get_token KIS.sample_fromisoformat KIS.sample_isoformat
               KIS.sample_manager w in
  fst run = Ok (VStr "eyJ0eXAi") /\
  KIS.posts (snd run) = [KIS.token_post KIS.sample_manager].
Proof.
  intros w run. split; [reflexivity |].
  apply (get_token_without_redis KIS.sample_fromisoformat KIS.sample_isoformat
           KIS.sample_manager w).
  reflexivity.
Defined.

(** X5 on sample data: a token granted for a day is served from the cache
    an hour later. *)
Lemma get_token_then_cached_example :
  let w := KIS.sample_world ∅ [KIS.sample_grant] in
  let run := KIS.get_token KIS.sample_fromisoformat KIS.sample_isoformat
               KIS.sample_manager w in
  let w1 := KIS.later (3600 * Time.usec_per_sec) (snd run) in
  KIS.get_token KIS.sample_fromisoformat KIS.sample_isoformat KIS.sample_manager w1
  = (Ok (VStr "eyJ0eXAi"), w1).
Proof.
  intros w run w1.
  apply (get_token_then_cached KIS.sample_fromisoformat KIS.sample_isoformat
           KIS.sample_manager w 200
           [("access_token", VStr "eyJ0eXAi"); ("expires_in", VInt 86400)] 86400).
  - reflexivity.
  - vm_compute. reflexivity.
  - vm_compute. reflexivity.
  - reflexivity.
  - lia.
  - reflexivity.
  - reflexivity.
  - lia.
  - vm_compute. reflexivity.
  - vm_compute. reflexivity.
  - vm_compute. reflexivity.
  - vm_compute. discriminate.
  - unfold Time.usec_per_sec. lia.
  - reflexivity.
Defined.

(** X6 on sample data: 23 h 55 min after the grant the cache no longer
    serves the token. *)
Lemma get_token_buffer_example :
  let w := KIS.sample_world ∅ [KIS.sample_grant] in
  let run := KIS.get_token KIS.sample_fromisoformat KIS.sample_isoformat
               KIS.sample_manager w in
  KIS.holds_usable_token KIS.sample_fromisoformat
    (KIS.later (86100 * Time.usec_per_sec) (snd run)) = false.
Proof.
  intros w run.
  apply (get_token_buffer KIS.sample_fromisoformat KIS.sample_isoformat
           KIS.sample_manager w 200
           [("access_token", VStr "eyJ0eXAi"); ("expires_in", VInt 86400)] 86400).
  - reflexivity.
  - vm_compute. reflexivity.
  - vm_compute. reflexivity.
  - reflexivity.
  - lia.
  - reflexivity.
  - reflexivity.
  - vm_compute. reflexivity.
  - vm_compute. reflexivity.
  - vm_compute. reflexivity.
  - unfold Time.usec_per_sec. lia.
  - unfold Time.usec_per_sec. lia.
Defined.

(** X7 on sample data: the lock is free and the cache holds a token that
    expires tomorrow; [_refresh_token] returns it without a request. *)
Lemma refresh_token_double_check_example :
  let w := KIS.sample_world KIS.sample_token_db [] in
  let run := KIS._refresh_token KIS.sample_fromisoformat KIS.sample_isoformat
               KIS.sample_manager w in
  fst run = Ok (VStr "eyJ0eXAi") /\ KIS.posts (snd run) = [].
Proof.
  intros w run.
  assert (H := refresh_token_double_check KIS.sample_fromisoformat KIS.sample_isoformat
                 KIS.sample_manager w eq_refl
                 ltac:(vm_compute; reflexivity) ltac:(vm_compute; reflexivity)).
  split; [exact (proj1 H) | exact (proj1 (proj2 H))].
Defined.

(** X8 on sample data: the lock is held and Redis fails during the first
    wait; the call has slept 2 seconds and requests directly. *)
Lemma refresh_token_redis_fails_waiting_example :
  let w := KIS.sample_failing_world in
  KIS._refresh_token KIS.sample_fromisoformat KIS.sample_isoformat KIS.sample_manager w
  = KIS._request_new_token_direct KIS.sample_isoformat KIS.sample_manager
      (KIS.after_waits 1 w) /\
  KIS.slept (KIS.after_waits 1 w) = [2].
Proof.
  intros w.
  assert (H := refresh_token_redis_fails_waiting KIS.sample_fromisoformat
                 KIS.sample_isoformat KIS.sample_manager w 0
                 ltac:(vm_compute; reflexivity) ltac:(vm_compute; discriminate)
                 ltac:(lia) ltac:(intros j Hj; lia) ltac:(vm_compute; reflexivity)).
  split; [exact (proj1 H) | exact (proj1 (proj2 H))].
Defined.

(** X13 on sample data: issuing a signup OTP leaves the password-reset key of
    the same address alone. *)
Lemma otp_calls_touch_one_key_example :
  let other := OTP._generate_key "user@example.com" OTP.PURPOSE_PASSWORD_RESET in
  OTP.redis (snd (OTP.issue Samples.pbkdf2_hmac_sha256 Samples.json_dumps
                    Samples.isoformat_utc "user@example.com" OTP.PURPOSE_SIGNUP None
                    Samples.otp_world)) !! other
  = OTP.redis Samples.otp_world !! other.
Proof.
  intros other.
  apply (proj1 (otp_calls_touch_one_key Samples.pbkdf2_hmac_sha256 Samples.json_dumps
                  Samples.json_loads Samples.isoformat_utc
                  "user@example.com" OTP.PURPOSE_SIGNUP other
                  ltac:(discriminate))).
Defined.

(** X14 on sample data: the issued code, entered a minute after [issue], is
    accepted, and [get] then shows the verified record. *)
Lemma issue_then_verify_accepts_example :
  let w1 := snd (OTP.issue Samples.pbkdf2_hmac_sha256 Samples.json_dumps
                   Samples.isoformat_utc "user@example.com" "signup" None
                   Samples.otp_world) in
  let run := OTP.verify Samples.pbkdf2_hmac_sha256 Samples.json_dumps Samples.json_loads
               "user@example.com" "signup" (OTP.issued_code Samples.otp_world)
               (OTP.elapse 60000000 w1) in
  exists record,
    fst run = Ok (true, OTP.Verified, Some record) /\
    dict_get record "verified" = Some (VBool true) /\
    OTP.RedisOTPManager.get Samples.json_loads "user@example.com" "signup" (snd run)
    = (Ok (VDict record), snd run).
Proof.
  intros w1 run. eexists.
  assert (H := issue_then_verify_accepts Samples.pbkdf2_hmac_sha256 Samples.json_dumps
                 Samples.json_loads Samples.isoformat_utc
                 "user@example.com" "signup" None Samples.otp_world 60000000
                 ltac:(vm_compute; reflexivity)
                 ltac:(intros verified; destruct verified; vm_compute; reflexivity)
                 ltac:(lia) ltac:(cbn; lia)).
  split; [exact (proj1 H) |]. split; [exact (proj1 (proj2 H)) |].
  exact (proj1 (proj2 (proj2 H))).
Defined.

(** X15 on sample data: the issued code, entered 0.3 s before the ten
    minutes are over, is accepted and the record is gone. *)
Lemma verify_in_last_half_second_example :
  let w1 := snd (OTP.issue Samples.pbkdf2_hmac_sha256 Samples.json_dumps
                   Samples.isoformat_utc "user@example.com" "signup" None
                   Samples.otp_world) in
  let run := OTP.verify Samples.pbkdf2_hmac_sha256 Samples.json_dumps Samples.json_loads
               "user@example.com" "signup" (OTP.issued_code Samples.otp_world)
               (OTP.elapse 599700000 w1) in
  (exists record, fst run = Ok (true, OTP.Verified, Some record)) /\
  OTP.RedisOTPManager.get Samples.json_loads "user@example.com" "signup" (snd run)
  = (Ok VNone, snd run).
Proof.
  intros w1 run.
  assert (H := verify_in_last_half_second Samples.pbkdf2_hmac_sha256 Samples.json_dumps
                 Samples.json_loads Samples.isoformat_utc
                 "user@example.com" "signup" None Samples.otp_world 599700000
                 ltac:(vm_compute; reflexivity)
                 ltac:(intros verified; destruct verified; vm_compute; reflexivity)
                 ltac:(cbn; lia) ltac:(cbn; lia) ltac:(cbn; lia)).
  split; [eexists; exact (proj1 H) | exact (proj1 (proj2 (proj2 H)))].
Defined.

(** X16 on sample data: ten minutes after [issue], to the microsecond, the
    key is still there; one microsecond later the issued code is answered
    "request a code first". *)
Lemma issued_otp_expires_example :
  let issued := snd (OTP.issue Samples.pbkdf2_hmac_sha256 Samples.json_dumps
                       Samples.isoformat_utc "user@example.com" "signup" None
                       Samples.otp_world) in
  OTP.RedisOTPManager.exists_ "user@example.com" "signup" (OTP.elapse 600000000 issued)
  = (Ok true, OTP.elapse 600000000 issued) /\
  OTP.verify Samples.pbkdf2_hmac_sha256 Samples.json_dumps Samples.json_loads
    "user@example.com" "signup" (OTP.issued_code Samples.otp_world)
    (OTP.elapse 600000001 issued)
  = (Ok (false, OTP.RequestFirst, None), OTP.elapse 600000001 issued).
Proof.
  intros issued. split.
  - apply (proj1 (proj1 (issued_otp_expires Samples.pbkdf2_hmac_sha256
                           Samples.json_dumps Samples.json_loads Samples.isoformat_utc
                           "user@example.com" "signup" None Samples.otp_world 600000000)
                    ltac:(cbn; lia) ltac:(cbn; lia))).
  - apply (proj1 (proj2 (issued_otp_expires Samples.pbkdf2_hmac_sha256
                           Samples.json_dumps Samples.json_loads Samples.isoformat_utc
                           "user@example.com" "signup" None Samples.otp_world 600000001)
                    ltac:(right; cbn; lia))).
Defined.

(** X18 on sample data: the key holds the JSON text 5; [verify] raises
    AttributeError and [get] returns 5. *)
Lemma verify_unreadable_record_example :
  let w := Samples.otp_world_with_number in
  OTP.verify Samples.pbkdf2_hmac_sha256 Samples.json_dumps Samples.json_loads
    "user@example.com" "signup" "123456" w = (Err AttributeError, w) /\
  OTP.RedisOTPManager.get Samples.json_loads "user@example.com" "signup" w
  = (Ok (VInt 5), w).
Proof.
  intros w.
  apply (proj1 (proj2 (verify_unreadable_record Samples.pbkdf2_hmac_sha256
                         Samples.json_dumps Samples.json_loads
                         "user@example.com" "signup" "123456" w
                         ltac:(vm_compute; reflexivity)))
           "5" (VInt 5)).
  - vm_compute. reflexivity.
  - vm_compute. reflexivity.
  - intros d. discriminate.
Defined.

(** X27 on sample data: a wrong code 0.4 s after [issue] moves the deadline
    to 600.4 s after [issue], and the issued code is accepted 600.2 s after
    [issue]. *)
Lemma verify_rearms_deadline_example :
  let w1 := snd (OTP.issue Samples.pbkdf2_hmac_sha256 Samples.json_dumps
                   Samples.isoformat_utc "user@example.com" "signup" None
                   Samples.otp_world) in
  let w2 := snd (OTP.verify Samples.pbkdf2_hmac_sha256 Samples.json_dumps
                   Samples.json_loads "user@example.com" "signup" "000000"
                   (OTP.elapse 400000 w1)) in
  exists record,
    fst (OTP.verify Samples.pbkdf2_hmac_sha256 Samples.json_dumps Samples.json_loads
           "user@example.com" "signup" (OTP.issued_code Samples.otp_world)
           (OTP.elapse (600200000 - 400000) w2))
    = Ok (true, OTP.Verified, Some record).
Proof.
  intros w1 w2.
  assert (Hcodec : forall n verified,
            0 <= n <= 5 ->
            let d := OTP.otp_state (OTP.issued_hash Samples.pbkdf2_hmac_sha256
                                      Samples.otp_world)
                       (Samples.isoformat_utc (OTP.clock Samples.otp_world))
                       "signup" "user@example.com" n verified in
            Samples.json_loads (Samples.json_dumps (VDict d)) = Some (VDict d)).
  { intros n verified Hn.
    assert (n = 0 \/ n = 1 \/ n = 2 \/ n = 3 \/ n = 4 \/ n = 5) as Hcases by lia.
    destruct verified;
      destruct Hcases as [-> | [-> | [-> | [-> | [-> | ->]]]]];
      vm_compute; reflexivity. }
  destruct (proj2 (proj2 (proj2
              (verify_rearms_deadline Samples.pbkdf2_hmac_sha256 Samples.json_dumps
                 Samples.json_loads Samples.isoformat_utc
                 "user@example.com" "signup" None Samples.otp_world "000000" 400000
                 ltac:(vm_compute; reflexivity) Hcodec
                 ltac:(lia) ltac:(cbn; lia))))
              600200000 ltac:(vm_compute; split; discriminate)) as [n Hn].
  eexists. exact Hn.
Defined.

(** X19 on sample data: the first call through the limiter after import starts
    at once and is counted. *)
Lemma rate_limit_spacing_example :
  exists s1,
    Utils.rate_limit_decorator 5 5 Utils.scripted Utils.sample_state
    = Utils.scripted s1 /\
    Utils._last_api_call s1 = Some (Utils.clock s1) /\
    1 <= Utils._api_call_count s1 <= 5.
Proof.
  destruct (rate_limit_spacing 5 5 Utils.scripted Utils.sample_state
              ltac:(unfold Utils.limiter_ready; cbn; lia))
    as (s1 & Hrun & _ & _ & Hlast & _ & Hcount & _).
  exists s1. split; [exact Hrun |]. split; [exact Hlast |].
  apply Hcount; cbn; lia.
Defined.

(** X20 on sample data: five calls counted and the clock set back an hour;
    the next call raises ValueError. *)
Lemma rate_limit_clock_set_back_example :
  Utils.get_stock_data Utils.sample_interpreter_text "AAPL" Utils.sample_set_back_state
  = (Err ValueError, Utils.sample_set_back_state).
Proof.
  apply (rate_limit_clock_set_back 5 5
           (Utils.retry_on_429 Utils.sample_interpreter_text 2 3 (Utils.get_stock_data_body "AAPL"))
           Utils.sample_set_back_state).
  - cbn. lia.
  - cbn. unfold Time.usec_per_sec. lia.
Defined.

(** X22 on sample data: every download fails with a 429 error, and
    [get_stock_data] still answers with a dict. *)
Lemma get_stock_data_always_answers_example :
  exists l s',
    Utils.get_stock_data Utils.sample_interpreter_text "AAPL" Utils.sample_state
    = (Ok (Some l), s') /\
    Utils._cache s' !! "AAPL" = Some l.
Proof.
  destruct (get_stock_data_always_answers Utils.sample_interpreter_text "AAPL" Utils.sample_state
              ltac:(unfold Utils.limiter_ready; cbn; lia))
    as (l & s' & Hrun & Hcache & _).
  exists l, s'. split; [exact Hrun | exact Hcache].
Defined.

(** X23 on sample data: a forced refresh right after import. *)
Lemma force_refresh_symbol_fetches_example :
  exists l s' d,
    Utils.force_refresh_symbol Utils.sample_interpreter_text "AAPL" Utils.sample_state
    = (Ok (Some l), s') /\
    Utils.heap s' !! l = Some d /\
    Utils.has_stock_keys d = true.
Proof.
  destruct (force_refresh_symbol_fetches Utils.sample_interpreter_text "AAPL" Utils.sample_state
              ltac:(unfold Utils.limiter_ready; cbn; lia))
    as (l & s' & d & Hrun & _ & Hl & Hk & _).
  exists l, s', d. split; [exact Hrun |]. split; [exact Hl | exact Hk].
Defined.
